(** * Reach-avoid replay buffers, top-k checkpoint log and cost / termination
    policies of VLTSafe_rl_safe_transformer

    Shallow embedding of
      - [models/RARL/utils.py]: [combined_shape], [TopKLogger], [ReplayBuffer],
        [ReplayBufferMultimodal];
      - [envs/base_env.py]: [BaseMujocoEnv.get_cost], [BaseMujocoEnv.get_done].

    Python objects that are mutated in place are threaded explicitly: a method
    of [self] is a computation in the monad [Py.M Self], whose state survives a
    raised exception, exactly as the fields of a Python object do. *)

From Stdlib Require Import ZArith Lia PrimFloat Floats Ascii.
From stdpp Require Import gmap strings list fin_maps sorting pretty.

Local Open Scope Z_scope.

(* Decimal float literals denote the nearest binary64 value, as in Python. *)
Set Warnings "-inexact-float".

(** ** Python exceptions and stateful computations *)

Module Py.

Inductive exn : Type :=
| ValueError (msg : string)
| IndexError
| KeyError (key : string)
| TypeError
| ZeroDivisionError
| SystemError.

Inductive result (A : Type) : Type :=
| Ok (a : A)
| Raise (e : exn).
Arguments Ok {A} a.
Arguments Raise {A} e.

(** A computation over a mutable object of type [S]: it returns normally or
    raises, and in both cases leaves a (possibly modified) object behind. *)
Definition M (S A : Type) : Type := S -> result A * S.

Definition ret {S A} (a : A) : M S A := fun s => (Ok a, s).
Definition raise {S A} (e : exn) : M S A := fun s => (Raise e, s).
Definition bind {S A B} (c : M S A) (k : A -> M S B) : M S B :=
  fun s => match c s with
           | (Ok a, s') => k a s'
           | (Raise e, s') => (Raise e, s')
           end.
Definition get {S} : M S S := fun s => (Ok s, s).
Definition modify {S} (f : S -> S) : M S unit := fun s => (Ok tt, f s).

(** Lift a pure, fallible step. *)
Definition lift {S A} (r : result A) : M S A := fun s => (r, s).

(** [for x in xs: body(x)] *)
Fixpoint for_each {S A} (xs : list A) (body : A -> M S unit) : M S unit :=
  match xs with
  | [] => ret tt
  | x :: xs' => bind (body x) (fun _ => for_each xs' body)
  end.

(** [c] keeps [P], whether it returns or raises. *)
Definition preserves {S A} (P : S -> Prop) (c : M S A) : Prop :=
  forall s, P s -> P (c s).2.

(** Sequencing of pure, fallible steps. *)
Definition rbind {A B} (r : result A) (k : A -> result B) : result B :=
  match r with Ok a => k a | Raise e => Raise e end.

(** A Python [dict] passed as an argument: the items in insertion order. *)
Definition dict (V : Type) : Type := list (string * V).

Definition keys {V} (d : dict V) : list string := d.*1.

(** [d[k]] *)
Fixpoint dict_get {V} (d : dict V) (k : string) : result V :=
  match d with
  | [] => Raise (KeyError k)
  | (k', v) :: d' => if String.eqb k' k then Ok v else dict_get d' k
  end.

(** [m[k]] on a dictionary held as a finite map. *)
Definition map_get {V} (m : gmap string V) (k : string) : result V :=
  match m !! k with Some v => Ok v | None => Raise (KeyError k) end.

(** [needle in hay] on strings. *)
Fixpoint str_contains (needle hay : string) : bool :=
  String.prefix needle hay ||
  match hay with
  | EmptyString => false
  | String _ hay' => str_contains needle hay'
  end.

End Py.

Import Py.

Notation "'let!' x ':=' c 'in' k" := (Py.bind c (fun x => k))
  (at level 10, x name, c at level 100, k at level 200).
Notation "c1 '>>' c2" := (Py.bind c1 (fun _ => c2))
  (at level 100, c2 at level 200, right associativity).
Notation "'let?' x ':=' r 'in' k" := (Py.rbind r (fun x => k))
  (at level 10, x name, r at level 100, k at level 200).

(** ** [heapq]: the binary min-heap on a Python list used by [TopKLogger] *)

Module Heapq.

(** The heap entries are the Python tuples [(success, ckpt)] of a float and a
    string.  Python floats are IEEE binary64, as [PrimFloat.float] is. *)
Definition item : Type := float * string.

(** Tuple comparison [a < b]: the first position in which the two tuples are
    not [==] decides; equal tuples are not [<].  Strings are compared by
    code point, which is the order of their bytes.  Scores are compared as
    numbers: a NaN is unequal to every score, itself included (Python also
    takes one and the same NaN object for equal to itself and goes on to the
    identifiers, which matters only for where entries sit in the queue). *)
Definition item_lt (a b : item) : bool :=
  if negb (PrimFloat.eqb a.1 b.1) then PrimFloat.ltb a.1 b.1
  else if negb (String.eqb a.2 b.2) then String.ltb a.2 b.2
  else false.

(** Tuple comparison [a > b]. *)
Definition item_gt (a b : item) : bool :=
  if negb (PrimFloat.eqb a.1 b.1) then PrimFloat.ltb b.1 a.1
  else if negb (String.eqb a.2 b.2) then String.ltb b.2 a.2
  else false.

(** The [while pos > startpos] loop of [_siftdown]; every iteration moves
    [pos] to its parent, so [pos] iterations are enough. *)
Fixpoint siftdown_loop (fuel : nat) (heap : list item) (startpos pos : nat)
    (newitem : item) : list item * nat :=
  match fuel with
  | O => (heap, pos)
  | S fuel' =>
      if (startpos <? pos)%nat then
        let parentpos := Nat.shiftr (pos - 1) 1 in
        match heap !! parentpos with
        | Some parent =>
            if item_lt newitem parent
            then siftdown_loop fuel' (<[pos := parent]> heap) startpos parentpos newitem
            else (heap, pos)
        | None => (heap, pos)
        end
      else (heap, pos)
  end.

Definition _siftdown (heap : list item) (startpos pos : nat) : list item :=
  match heap !! pos with
  | Some newitem =>
      let '(heap', pos') := siftdown_loop pos heap startpos pos newitem in
      <[pos' := newitem]> heap'
  | None => heap
  end.

Definition heappush (heap : list item) (it : item) : list item :=
  let heap := heap ++ [it] in
  _siftdown heap 0 (length heap - 1).

(** The [while childpos < endpos] loop of [_siftup]: the smaller child is
    moved up until a leaf is reached. *)
Fixpoint siftup_loop (fuel : nat) (heap : list item) (endpos pos : nat)
    : list item * nat :=
  match fuel with
  | O => (heap, pos)
  | S fuel' =>
      let childpos := (2 * pos + 1)%nat in
      if (childpos <? endpos)%nat then
        let rightpos := (childpos + 1)%nat in
        let childpos :=
          match heap !! childpos, heap !! rightpos with
          | Some l, Some r =>
              if (rightpos <? endpos)%nat && negb (item_lt l r)
              then rightpos else childpos
          | _, _ => childpos
          end in
        match heap !! childpos with
        | Some c => siftup_loop fuel' (<[pos := c]> heap) endpos childpos
        | None => (heap, pos)
        end
      else (heap, pos)
  end.

Definition _siftup (heap : list item) (pos : nat) : list item :=
  let endpos := length heap in
  match heap !! pos with
  | Some newitem =>
      let '(heap', pos') := siftup_loop endpos heap endpos pos in
      _siftdown (<[pos' := newitem]> heap') pos pos'
  | None => heap
  end.

(** [heappop] returns the popped item and the heap left behind; popping an
    empty list raises [IndexError]. *)
Definition heappop (heap : list item) : result (item * list item) :=
  match last heap with
  | None => Raise IndexError
  | Some lastelt =>
      let heap := removelast heap in
      match heap with
      | [] => Ok (lastelt, heap)
      | returnitem :: _ => Ok (returnitem, _siftup (<[0%nat := lastelt]> heap) 0)
      end
  end.

(** [max(it, default=sentinel)]: the first maximal element. *)
Fixpoint max_from (best : item) (rest : list item) : item :=
  match rest with
  | [] => best
  | x :: rest' => max_from (if item_gt x best then x else best) rest'
  end.

(** [nlargest(1, iterable)] takes the [n == 1] shortcut: a list with the
    maximum, or the empty list. *)
Definition nlargest1 (iterable : list item) : list item :=
  match iterable with
  | [] => []
  | x :: rest => [max_from x rest]
  end.

End Heapq.

(** ** [TopKLogger] *)

Module TopKLogger.
Import Heapq.

Record t : Type := Build {
  max_to_keep : Z;
  checkpoint_queue : list item
}.

Definition __init__ (k : Z) : t :=
  {| max_to_keep := k; checkpoint_queue := [] |}.

Definition set_queue (q : list item) (self : t) : t :=
  {| max_to_keep := max_to_keep self; checkpoint_queue := q |}.

Definition push (ckpt : string) (success : float) : M t bool :=
  let! self := get in
  if Z.of_nat (length (checkpoint_queue self)) <? max_to_keep self then
    modify (set_queue (heappush (checkpoint_queue self) (success, ckpt))) >>
    ret true
  else
    match checkpoint_queue self with
    | [] => raise IndexError
    | (curr_min_success, _) :: _ =>
        if PrimFloat.ltb curr_min_success success then
          let! popped := lift (heappop (checkpoint_queue self)) in
          modify (set_queue popped.2) >>
          let! self := get in
          modify (set_queue (heappush (checkpoint_queue self) (success, ckpt))) >>
          ret true
        else ret false
    end.

Definition best_ckpt : M t string :=
  let! self := get in
  match nlargest1 (checkpoint_queue self) with
  | [] => raise IndexError
  | (success, ckpt) :: _ => ret ckpt
  end.

(** The four offers of the example, against a tracker with [K = 2]. *)
Definition offer4 (c1 c2 c3 c4 : string) : M t (list bool * string) :=
  let! r1 := push c1 0.1%float in
  let! r2 := push c2 0.9%float in
  let! r3 := push c3 0.5%float in
  let! r4 := push c4 0.95%float in
  let! best := best_ckpt in
  ret ([r1; r2; r3; r4], best).

End TopKLogger.

(** ** numpy arrays, as the buffers use them *)

Module Np.

Inductive dtype : Type := uint8 | float32.

(** The [shape] argument of [combined_shape]: [None], a scalar or a tuple. *)
Inductive shape_arg : Type :=
| ShapeNone
| ShapeScalar (n : Z)
| ShapeTuple (dims : list Z).

Definition combined_shape (length : Z) (shape : shape_arg) : list Z :=
  match shape with
  | ShapeNone => [length]
  | ShapeScalar n => [length; n]
  | ShapeTuple dims => length :: dims
  end.

(** The values one slot along axis 0 can hold.  A [Row] is the content of a
    slot in the array's own dtype (numpy converts on assignment), and
    [zeros_row dims] is the all-zero slot of shape [dims]. *)
Class RowType (Row : Type) : Type := zeros_row : list Z -> Row.

(** An array of rank at least one: its dtype, its shape and the slots along
    axis 0. *)
Record ndarray (Row : Type) : Type := NdArray {
  dt : dtype;
  shape : list Z;
  rows : list Row
}.
Arguments NdArray {Row} dt shape rows.
Arguments dt {Row} n.
Arguments shape {Row} n.
Arguments rows {Row} n.

Section Arrays.
Context {Row : Type} `{RowType Row}.

(** [np.zeros(shape, dtype)] with a tuple of at least one dimension. *)
Definition zeros (shp : list Z) (d : dtype) : result (ndarray Row) :=
  if forallb (fun n => 0 <=? n) shp then
    Ok (NdArray d shp (replicate (Z.to_nat (hd 0 shp)) (zeros_row (tl shp))))
  else Raise (ValueError "negative dimensions are not allowed").

(** An integer index into an axis of length [len]: negative indices count
    from the end, anything else out of range raises [IndexError]. *)
Definition index (len : nat) (i : Z) : result nat :=
  if (0 <=? i) && (i <? Z.of_nat len) then Ok (Z.to_nat i)
  else if (- Z.of_nat len <=? i) && (i <? 0) then Ok (Z.to_nat (Z.of_nat len + i))
  else Raise IndexError.

(** [a[i] = row] for a [row] that is the content of a slot of [a]: of the
    shape of the slot and in the dtype of the array, so that it is written as
    it is.  [NpValues.setitem] is the assignment of any value. *)
Definition setitem (a : ndarray Row) (i : Z) (row : Row) : result (ndarray Row) :=
  match index (length (rows a)) i with
  | Ok n => Ok (NdArray (dt a) (shape a) (<[n := row]> (rows a)))
  | Raise e => Raise e
  end.

(** [a[i]] *)
Definition getitem (a : ndarray Row) (i : Z) : result Row :=
  match index (length (rows a)) i with
  | Ok n => match rows a !! n with Some r => Ok r | None => Raise IndexError end
  | Raise e => Raise e
  end.

Fixpoint gather (rs : list Row) (idxs : list Z) : result (list Row) :=
  match idxs with
  | [] => Ok []
  | i :: idxs' =>
      match index (length rs) i with
      | Ok n =>
          match rs !! n, gather rs idxs' with
          | Some r, Ok out => Ok (r :: out)
          | None, _ => Raise IndexError
          | _, Raise e => Raise e
          end
      | Raise e => Raise e
      end
  end.

(** [a[idxs]] with a one-dimensional integer array [idxs]: the selected slots,
    in the order of [idxs]. *)
Definition getitems (a : ndarray Row) (idxs : list Z) : result (ndarray Row) :=
  match gather (rows a) idxs with
  | Ok out => Ok (NdArray (dt a) (Z.of_nat (length idxs) :: tl (shape a)) out)
  | Raise e => Raise e
  end.

(** [torch.as_tensor(a, dtype=d)]: same shape and entries, held as [d]. *)
Definition as_tensor (a : ndarray Row) (d : dtype) : ndarray Row :=
  NdArray d (shape a) (rows a).

(** [t.unsqueeze(1)]: a dimension of size one is inserted at position 1; the
    entries along axis 0 are the same.  A tensor of rank 0 has no position 1. *)
Definition unsqueeze1 (a : ndarray Row) : result (ndarray Row) :=
  match shape a with
  | [] => Raise IndexError
  | n :: dims => Ok (NdArray (dt a) (n :: 1 :: dims) (rows a))
  end.

(** The array [a] after [a[n] = row]. *)
Definition write (a : ndarray Row) (n : nat) (row : Row) : ndarray Row :=
  NdArray (dt a) (shape a) (<[n := row]> (rows a)).

(** A field of a batch has [n] entries: its leading dimension is [n] and it
    holds [n] slots. *)
Definition has_entries (n : Z) (a : ndarray Row) : Prop :=
  hd_error (shape a) = Some n /\ length (rows a) = Z.to_nat n.

End Arrays.

(** The state of [np.random]: the stream of raw draws still to come. *)
Definition Rng : Type := nat -> Z.

(** [np.random.randint(low, high, size=n)].  A request for zero entries is
    answered with an empty array before the bounds are looked at; otherwise
    [low >= high] raises [ValueError], whose message names [high] alone when
    [low] is zero.  Every entry lies in [low, high).  The bounds of the
    integer dtype are left out: [high] is the size of a buffer that fits in
    memory. *)
Definition randint (low high n : Z) : M Rng (list Z) :=
  fun g =>
    if n =? 0 then (Ok [], g)
    else if high <=? low
    then (Raise (ValueError (if low =? 0 then "high <= 0" else "low >= high")), g)
    else if n <? 0
    then (Raise (ValueError "negative dimensions are not allowed"), g)
    else (Ok (map (fun j => low + g j mod (high - low)) (seq 0 (Z.to_nat n))),
          fun j => g (j + Z.to_nat n)%nat).

(** Slots as flat lists of binary64 numbers, for concrete runs. *)
Definition flat_zeros (dims : list Z) : list float :=
  replicate (Z.to_nat (foldr Z.mul 1 dims)) 0%float.
#[global] Instance flat_rows : RowType (list float) := flat_zeros.

End Np.

(** Python's [a % b] on integers. *)
Definition py_mod (a b : Z) : result Z :=
  if b =? 0 then Raise ZeroDivisionError else Ok (a mod b).

(** ** [ReplayBuffer] *)

Module ReplayBuffer.
Import Np.

Section Buffer.
Context {Row : Type} `{RowType Row}.

(** The arguments of one [store] call. *)
Record Transition : Type := {
  t_obs : Row; t_act : Row; t_rew : Row; t_next_obs : Row;
  t_done : Row; t_lx : Row; t_gx : Row
}.

Record t : Type := Build {
  obs_buf : ndarray Row;
  obs2_buf : ndarray Row;
  act_buf : ndarray Row;
  rew_buf : ndarray Row;
  done_buf : ndarray Row;
  lx_buf : ndarray Row;
  gx_buf : ndarray Row;
  ptr : Z;
  size : Z;
  max_size : Z;
  ptr_start : Z
}.

Definition __init__ (obs_dim act_dim : shape_arg) (size : Z) : result t :=
  match zeros (combined_shape size obs_dim) float32,
        zeros (combined_shape size obs_dim) float32,
        zeros (combined_shape size act_dim) float32,
        zeros [size] float32 with
  | Ok o, Ok o2, Ok a, Ok z =>
      Ok {| obs_buf := o; obs2_buf := o2; act_buf := a;
            rew_buf := z; done_buf := z; lx_buf := z; gx_buf := z;
            ptr := 0; size := 0; max_size := size; ptr_start := 0 |}
  | Raise e, _, _, _ | _, Raise e, _, _ | _, _, Raise e, _ | _, _, _, Raise e =>
      Raise e
  end.

Definition set_obs_buf (a : ndarray Row) (s : t) : t :=
  Build a (obs2_buf s) (act_buf s) (rew_buf s) (done_buf s) (lx_buf s) (gx_buf s)
        (ptr s) (size s) (max_size s) (ptr_start s).
Definition set_obs2_buf (a : ndarray Row) (s : t) : t :=
  Build (obs_buf s) a (act_buf s) (rew_buf s) (done_buf s) (lx_buf s) (gx_buf s)
        (ptr s) (size s) (max_size s) (ptr_start s).
Definition set_act_buf (a : ndarray Row) (s : t) : t :=
  Build (obs_buf s) (obs2_buf s) a (rew_buf s) (done_buf s) (lx_buf s) (gx_buf s)
        (ptr s) (size s) (max_size s) (ptr_start s).
Definition set_rew_buf (a : ndarray Row) (s : t) : t :=
  Build (obs_buf s) (obs2_buf s) (act_buf s) a (done_buf s) (lx_buf s) (gx_buf s)
        (ptr s) (size s) (max_size s) (ptr_start s).
Definition set_done_buf (a : ndarray Row) (s : t) : t :=
  Build (obs_buf s) (obs2_buf s) (act_buf s) (rew_buf s) a (lx_buf s) (gx_buf s)
        (ptr s) (size s) (max_size s) (ptr_start s).
Definition set_lx_buf (a : ndarray Row) (s : t) : t :=
  Build (obs_buf s) (obs2_buf s) (act_buf s) (rew_buf s) (done_buf s) a (gx_buf s)
        (ptr s) (size s) (max_size s) (ptr_start s).
Definition set_gx_buf (a : ndarray Row) (s : t) : t :=
  Build (obs_buf s) (obs2_buf s) (act_buf s) (rew_buf s) (done_buf s) (lx_buf s) a
        (ptr s) (size s) (max_size s) (ptr_start s).
Definition set_ptr (p : Z) (s : t) : t :=
  Build (obs_buf s) (obs2_buf s) (act_buf s) (rew_buf s) (done_buf s) (lx_buf s)
        (gx_buf s) p (size s) (max_size s) (ptr_start s).
Definition set_size (n : Z) (s : t) : t :=
  Build (obs_buf s) (obs2_buf s) (act_buf s) (rew_buf s) (done_buf s) (lx_buf s)
        (gx_buf s) (ptr s) n (max_size s) (ptr_start s).

(** [self.<buf>[self.ptr] = row] *)
Definition assign (buf : t -> ndarray Row) (set_buf : ndarray Row -> t -> t)
    (row : Row) : M t unit :=
  let! self := get in
  let! a := lift (setitem (buf self) (ptr self) row) in
  modify (set_buf a).

(** [store] with arguments that are contents of slots, which the arrays take
    as they are; [ReplayBufferValues.store] is the call with any values. *)
Definition store (obs act rew next_obs done lx gx : Row) : M t unit :=
  assign obs_buf set_obs_buf obs >>
  assign obs2_buf set_obs2_buf next_obs >>
  assign act_buf set_act_buf act >>
  assign rew_buf set_rew_buf rew >>
  assign done_buf set_done_buf done >>
  assign lx_buf set_lx_buf lx >>
  assign gx_buf set_gx_buf gx >>
  let! self := get in
  let! m := lift (py_mod (ptr self + 1 - ptr_start self)
                         (max_size self - ptr_start self)) in
  modify (set_ptr (ptr_start self + m)) >>
  let! self := get in
  modify (set_size (Z.min (size self + 1) (max_size self))).

(** The batch dictionary of [sample_batch]. *)
Record Batch : Type := {
  b_obs : ndarray Row; b_obs2 : ndarray Row; b_act : ndarray Row;
  b_rew : ndarray Row; b_done : ndarray Row; b_lx : ndarray Row;
  b_gx : ndarray Row
}.

(** [sample_batch] reads the buffer and advances [np.random]: its state is
    the pair of both. *)
Definition sample_batch (batch_size : Z) : M (t * Rng) Batch :=
  fun w =>
    let self := w.1 in
    match randint 0 (size self) batch_size w.2 with
    | (Raise e, g) => (Raise e, (self, g))
    | (Ok idxs, g) =>
        match getitems (obs_buf self) idxs, getitems (obs2_buf self) idxs,
              getitems (act_buf self) idxs, getitems (rew_buf self) idxs,
              getitems (done_buf self) idxs, getitems (lx_buf self) idxs,
              getitems (gx_buf self) idxs with
        | Ok o, Ok o2, Ok a, Ok r, Ok d, Ok l, Ok gx =>
            (Ok {| b_obs := as_tensor o float32; b_obs2 := as_tensor o2 float32;
                   b_act := as_tensor a float32; b_rew := as_tensor r float32;
                   b_done := as_tensor d float32; b_lx := as_tensor l float32;
                   b_gx := as_tensor gx float32 |}, (self, g))
        | Raise e, _, _, _, _, _, _ | _, Raise e, _, _, _, _, _
        | _, _, Raise e, _, _, _, _ | _, _, _, Raise e, _, _, _
        | _, _, _, _, Raise e, _, _ | _, _, _, _, _, Raise e, _
        | _, _, _, _, _, _, Raise e => (Raise e, (self, g))
        end
    end.

(** *** Views used to state the properties *)

Definition store_transition (tr : Transition) : M t unit :=
  store (t_obs tr) (t_act tr) (t_rew tr) (t_next_obs tr) (t_done tr)
        (t_lx tr) (t_gx tr).

(** A sequence of [store] calls, in order. *)
Definition stores (ts : list Transition) : M t unit :=
  for_each ts store_transition.

(** The transition held in slot [i] of the seven parallel arrays. *)
Definition slot (self : t) (i : nat) : option Transition :=
  match rows (obs_buf self) !! i, rows (act_buf self) !! i,
        rows (rew_buf self) !! i, rows (obs2_buf self) !! i,
        rows (done_buf self) !! i, rows (lx_buf self) !! i,
        rows (gx_buf self) !! i with
  | Some o, Some a, Some r, Some o2, Some d, Some l, Some g =>
      Some {| t_obs := o; t_act := a; t_rew := r; t_next_obs := o2;
              t_done := d; t_lx := l; t_gx := g |}
  | _, _, _, _, _, _, _ => None
  end.

(** Entry [j] of a sampled batch, read across the seven parallel fields. *)
Definition entry (b : Batch) (j : nat) : option Transition :=
  match rows (b_obs b) !! j, rows (b_act b) !! j, rows (b_rew b) !! j,
        rows (b_obs2 b) !! j, rows (b_done b) !! j, rows (b_lx b) !! j,
        rows (b_gx b) !! j with
  | Some o, Some a, Some r, Some o2, Some d, Some l, Some g =>
      Some {| t_obs := o; t_act := a; t_rew := r; t_next_obs := o2;
              t_done := d; t_lx := l; t_gx := g |}
  | _, _, _, _, _, _, _ => None
  end.

(** Well-formed buffers: the offset of the ring is zero, the write pointer is
    a slot, and the seven arrays have [max_size] slots each. *)
Record wf (b : t) : Prop := {
  wf_start : ptr_start b = 0;
  wf_ptr : 0 <= ptr b < max_size b;
  wf_size : 0 <= size b <= max_size b;
  wf_obs : length (rows (obs_buf b)) = Z.to_nat (max_size b);
  wf_obs2 : length (rows (obs2_buf b)) = Z.to_nat (max_size b);
  wf_act : length (rows (act_buf b)) = Z.to_nat (max_size b);
  wf_rew : length (rows (rew_buf b)) = Z.to_nat (max_size b);
  wf_done : length (rows (done_buf b)) = Z.to_nat (max_size b);
  wf_lx : length (rows (lx_buf b)) = Z.to_nat (max_size b);
  wf_gx : length (rows (gx_buf b)) = Z.to_nat (max_size b)
}.

(** The buffer a successful [store] leaves behind. *)
Definition stored (b : t) (tr : Transition) : t :=
  let p := Z.to_nat (ptr b) in
  {| obs_buf := write (obs_buf b) p (t_obs tr);
     obs2_buf := write (obs2_buf b) p (t_next_obs tr);
     act_buf := write (act_buf b) p (t_act tr);
     rew_buf := write (rew_buf b) p (t_rew tr);
     done_buf := write (done_buf b) p (t_done tr);
     lx_buf := write (lx_buf b) p (t_lx tr);
     gx_buf := write (gx_buf b) p (t_gx tr);
     ptr := (ptr b + 1) mod max_size b;
     size := Z.min (size b + 1) (max_size b);
     max_size := max_size b;
     ptr_start := ptr_start b |}.

(** The state of the ring after the stores [ts] into a fresh buffer of
    capacity [C]. *)
Record ring_inv (C : Z) (ts : list Transition) (b : t) : Prop := {
  ri_wf : wf b;
  ri_cap : max_size b = C;
  ri_ptr : ptr b = Z.of_nat (length ts) mod C;
  ri_size : size b = Z.min (Z.of_nat (length ts)) C;
  ri_recent : forall i tr,
    ts !! i = Some tr -> (length ts <= i + Z.to_nat C)%nat ->
    slot b (i mod Z.to_nat C) = Some tr;
  ri_filled : forall i,
    (i < Z.to_nat (size b))%nat -> exists tr, slot b i = Some tr /\ tr ∈ ts
}.

End Buffer.
Arguments Transition Row : clear implicits.
Arguments t Row : clear implicits.
Arguments Batch Row : clear implicits.

End ReplayBuffer.

(** ** [ReplayBufferMultimodal] *)

Module ReplayBufferMultimodal.
Import Np.

Section Buffer.
Context {Row : Type} `{RowType Row}.

Record t : Type := Build {
  env_observation_shapes : dict shape_arg;
  obs_buf : gmap string (ndarray Row);
  obs2_buf : gmap string (ndarray Row);
  act_buf : ndarray Row;
  rew_buf : ndarray Row;
  done_buf : ndarray Row;
  lx_buf : ndarray Row;
  gx_buf : ndarray Row;
  ptr : Z;
  size : Z;
  max_size : Z;
  ptr_start : Z
}.

(** The dtype of a stream: bytes for image streams, recognised by name. *)
Definition stream_dtype (obs_type : string) : dtype :=
  if str_contains "rgb" obs_type then uint8 else float32.

(** The loop of [__init__] over [env_observation_shapes.keys()]. *)
Fixpoint alloc_streams (shapes : dict shape_arg) (size : Z)
    (bufs : gmap string (ndarray Row) * gmap string (ndarray Row))
    : result (gmap string (ndarray Row) * gmap string (ndarray Row)) :=
  match shapes with
  | [] => Ok bufs
  | (obs_type, shp) :: shapes' =>
      let _dtype := stream_dtype obs_type in
      let? a := zeros (combined_shape size shp) _dtype in
      let? a2 := zeros (combined_shape size shp) _dtype in
      alloc_streams shapes' size (<[obs_type := a]> bufs.1, <[obs_type := a2]> bufs.2)
  end.

Definition __init__ (env_observation_shapes : dict shape_arg)
    (act_dim : shape_arg) (size : Z) : result t :=
  let? bufs := alloc_streams env_observation_shapes size (∅, ∅) in
  let? a := zeros (combined_shape size act_dim) float32 in
  let? z := zeros [size] float32 in
  Ok {| env_observation_shapes := env_observation_shapes;
        obs_buf := bufs.1; obs2_buf := bufs.2; act_buf := a;
        rew_buf := z; done_buf := z; lx_buf := z; gx_buf := z;
        ptr := 0; size := 0; max_size := size; ptr_start := 0 |}.

Definition set_obs_buf (m : gmap string (ndarray Row)) (s : t) : t :=
  Build (env_observation_shapes s) m (obs2_buf s) (act_buf s) (rew_buf s)
        (done_buf s) (lx_buf s) (gx_buf s) (ptr s) (size s) (max_size s)
        (ptr_start s).
Definition set_obs2_buf (m : gmap string (ndarray Row)) (s : t) : t :=
  Build (env_observation_shapes s) (obs_buf s) m (act_buf s) (rew_buf s)
        (done_buf s) (lx_buf s) (gx_buf s) (ptr s) (size s) (max_size s)
        (ptr_start s).
Definition set_act_buf (a : ndarray Row) (s : t) : t :=
  Build (env_observation_shapes s) (obs_buf s) (obs2_buf s) a (rew_buf s)
        (done_buf s) (lx_buf s) (gx_buf s) (ptr s) (size s) (max_size s)
        (ptr_start s).
Definition set_rew_buf (a : ndarray Row) (s : t) : t :=
  Build (env_observation_shapes s) (obs_buf s) (obs2_buf s) (act_buf s) a
        (done_buf s) (lx_buf s) (gx_buf s) (ptr s) (size s) (max_size s)
        (ptr_start s).
Definition set_done_buf (a : ndarray Row) (s : t) : t :=
  Build (env_observation_shapes s) (obs_buf s) (obs2_buf s) (act_buf s)
        (rew_buf s) a (lx_buf s) (gx_buf s) (ptr s) (size s) (max_size s)
        (ptr_start s).
Definition set_lx_buf (a : ndarray Row) (s : t) : t :=
  Build (env_observation_shapes s) (obs_buf s) (obs2_buf s) (act_buf s)
        (rew_buf s) (done_buf s) a (gx_buf s) (ptr s) (size s) (max_size s)
        (ptr_start s).
Definition set_gx_buf (a : ndarray Row) (s : t) : t :=
  Build (env_observation_shapes s) (obs_buf s) (obs2_buf s) (act_buf s)
        (rew_buf s) (done_buf s) (lx_buf s) a (ptr s) (size s) (max_size s)
        (ptr_start s).
Definition set_ptr (p : Z) (s : t) : t :=
  Build (env_observation_shapes s) (obs_buf s) (obs2_buf s) (act_buf s)
        (rew_buf s) (done_buf s) (lx_buf s) (gx_buf s) p (size s) (max_size s)
        (ptr_start s).
Definition set_size (n : Z) (s : t) : t :=
  Build (env_observation_shapes s) (obs_buf s) (obs2_buf s) (act_buf s)
        (rew_buf s) (done_buf s) (lx_buf s) (gx_buf s) (ptr s) n (max_size s)
        (ptr_start s).

(** [self.<bufs>[obs_type][self.ptr] = src[obs_type]]: the right-hand side
    is evaluated first, then the array is looked up and written. *)
Definition assign_stream (bufs : t -> gmap string (ndarray Row))
    (set_bufs : gmap string (ndarray Row) -> t -> t)
    (obs_type : string) (src : dict Row) : M t unit :=
  let! self := get in
  let! row := lift (dict_get src obs_type) in
  let! a := lift (map_get (bufs self) obs_type) in
  let! a' := lift (setitem a (ptr self) row) in
  modify (set_bufs (<[obs_type := a']> (bufs self))).

(** [self.<buf>[self.ptr] = row] *)
Definition assign (buf : t -> ndarray Row) (set_buf : ndarray Row -> t -> t)
    (row : Row) : M t unit :=
  let! self := get in
  let! a := lift (setitem (buf self) (ptr self) row) in
  modify (set_buf a).

(** [store] with arguments that are contents of slots, which the arrays take
    as they are; [ReplayBufferMultimodalValues.store] is the call with any
    values. *)
Definition store (obs : dict Row) (act rew : Row) (next_obs : dict Row)
    (done lx gx : Row) : M t unit :=
  for_each (keys obs) (fun obs_type =>
    assign_stream obs_buf set_obs_buf obs_type obs >>
    assign_stream obs2_buf set_obs2_buf obs_type next_obs) >>
  assign act_buf set_act_buf act >>
  assign rew_buf set_rew_buf rew >>
  assign done_buf set_done_buf done >>
  assign lx_buf set_lx_buf lx >>
  assign gx_buf set_gx_buf gx >>
  let! self := get in
  let! m := lift (py_mod (ptr self + 1 - ptr_start self)
                         (max_size self - ptr_start self)) in
  modify (set_ptr (ptr_start self + m)) >>
  let! self := get in
  modify (set_size (Z.min (size self + 1) (max_size self))).

Record Batch : Type := {
  b_obs : gmap string (ndarray Row);
  b_obs2 : gmap string (ndarray Row);
  b_act : ndarray Row;
  b_rew : ndarray Row;
  b_done : ndarray Row;
  b_lx : ndarray Row;
  b_gx : ndarray Row
}.

(** [torch.as_tensor(buf[idxs], dtype=d).unsqueeze(1)] *)
Definition sample_window (buf : ndarray Row) (idxs : list Z) (d : dtype)
    : result (ndarray Row) :=
  let? s := getitems buf idxs in
  unsqueeze1 (as_tensor s d).

(** The loop of [sample_batch] over [self.obs_buf.keys()]. *)
Fixpoint sample_streams (self : t) (idxs : list Z) (obs_types : list string)
    (samples : gmap string (ndarray Row) * gmap string (ndarray Row))
    : result (gmap string (ndarray Row) * gmap string (ndarray Row)) :=
  match obs_types with
  | [] => Ok samples
  | obs_type :: obs_types' =>
      let _dtype := stream_dtype obs_type in
      let? a := map_get (obs_buf self) obs_type in
      let? s := sample_window a idxs _dtype in
      let? a2 := map_get (obs2_buf self) obs_type in
      let? s2 := sample_window a2 idxs _dtype in
      sample_streams self idxs obs_types'
        (<[obs_type := s]> samples.1, <[obs_type := s2]> samples.2)
  end.

Definition sample_batch (batch_size : Z) : M (t * Rng) Batch :=
  fun w =>
    let self := w.1 in
    match randint 0 (size self) batch_size w.2 with
    | (Raise e, g) => (Raise e, (self, g))
    | (Ok idxs, g) =>
        (let? samples :=
           sample_streams self idxs (elements (dom (obs_buf self))) (∅, ∅) in
         let? a := sample_window (act_buf self) idxs float32 in
         let? r := getitems (rew_buf self) idxs in
         let? d := getitems (done_buf self) idxs in
         let? l := getitems (lx_buf self) idxs in
         let? x := getitems (gx_buf self) idxs in
         Ok {| b_obs := samples.1; b_obs2 := samples.2; b_act := a;
               b_rew := as_tensor r float32; b_done := as_tensor d float32;
               b_lx := as_tensor l float32; b_gx := as_tensor x float32 |},
         (self, g))
    end.

(** *** Views used to state the properties *)

(** The buffers a program can hold: built by [__init__] and then only touched
    by [store], whether a call returns or raises. *)
Inductive reachable : t -> Prop :=
| reach_init shapes act_dim size b :
    __init__ shapes act_dim size = Ok b -> reachable b
| reach_store b obs act rew next_obs done lx gx r b' :
    reachable b ->
    store obs act rew next_obs done lx gx b = (r, b') ->
    reachable b'.

(** What [__init__] establishes and every [store] keeps: the ring starts at
    zero, the write pointer is a slot (or zero when there is none), the
    streams are the configured ones, and every array has [max_size] slots. *)
Record consistent (b : t) : Prop := {
  c_start : ptr_start b = 0;
  c_ptr : 0 <= ptr b <= Z.max 0 (max_size b - 1);
  c_size : 0 <= size b <= max_size b;
  c_keys : forall k,
    is_Some (obs_buf b !! k) <-> k ∈ keys (env_observation_shapes b);
  c_keys2 : forall k,
    is_Some (obs2_buf b !! k) <-> k ∈ keys (env_observation_shapes b);
  c_obs : forall k a,
    obs_buf b !! k = Some a -> length (rows a) = Z.to_nat (max_size b);
  c_obs2 : forall k a,
    obs2_buf b !! k = Some a -> length (rows a) = Z.to_nat (max_size b);
  c_act : length (rows (act_buf b)) = Z.to_nat (max_size b);
  c_rew : length (rows (rew_buf b)) = Z.to_nat (max_size b);
  c_done : length (rows (done_buf b)) = Z.to_nat (max_size b);
  c_lx : length (rows (lx_buf b)) = Z.to_nat (max_size b);
  c_gx : length (rows (gx_buf b)) = Z.to_nat (max_size b)
}.

(** The part of [store] after the loop over the streams. *)
Definition store_tail (act rew done lx gx : Row) : M t unit :=
  assign act_buf set_act_buf act >>
  assign rew_buf set_rew_buf rew >>
  assign done_buf set_done_buf done >>
  assign lx_buf set_lx_buf lx >>
  assign gx_buf set_gx_buf gx >>
  let! self := get in
  let! m := lift (py_mod (ptr self + 1 - ptr_start self)
                         (max_size self - ptr_start self)) in
  modify (set_ptr (ptr_start self + m)) >>
  let! self := get in
  modify (set_size (Z.min (size self + 1) (max_size self))).

(** A sampled stream: the outer dimension is the batch size, the dimension
    inserted after it is one, and there is one entry per batch index. *)
Definition windowed (n : Z) (o : ndarray Row) : Prop :=
  shape o !! 0%nat = Some n /\ shape o !! 1%nat = Some 1 /\
  length (rows o) = Z.to_nat n.

End Buffer.
Arguments t Row : clear implicits.
Arguments Batch Row : clear implicits.

End ReplayBufferMultimodal.

(** ** [BaseMujocoEnv]: cost shaping and termination *)

Module BaseMujocoEnv.

(** The numbers the margins are made of, with the operations [get_cost]
    applies to them: [0.], [+], [np.minimum], [np.maximum] and [-1. * x]. *)
Class Scalar (F : Type) : Type := {
  fzero : F;
  fadd : F -> F -> F;
  fminimum : F -> F -> F;
  fmaximum : F -> F -> F;
  fminus_one : F;
  fmul : F -> F -> F
}.

(** binary64, with the NaN-propagating minimum and maximum of numpy: the
    first operand when it is NaN or strictly on the wanted side, the second
    otherwise, so that of two operands that compare equal ([0.] and [-0.])
    the second is returned. *)
#[global] Instance float_scalar : Scalar float := {|
  fzero := 0%float;
  fadd := PrimFloat.add;
  fminimum := fun a b => if PrimFloat.is_nan a || PrimFloat.ltb a b then a else b;
  fmaximum := fun a b => if PrimFloat.is_nan a || PrimFloat.ltb b a then a else b;
  fminus_one := (-1)%float;
  fmul := PrimFloat.mul
|}.

(** What the subclass supplies: its simulator state and the two checks that
    [get_done] calls. *)
Class Capabilities (Sim State : Type) : Type := {
  check_within_env : Sim -> State -> bool;
  check_real_failure : Sim -> bool
}.

(** The one-dimensional arrays alive during a call, by address.  Names in
    the program are addresses, so two names can denote one array. *)
Abbreviation heap F := (list (list F)).
Abbreviation ref := nat.

Section Env.
Context {F : Type} `{Scalar F}.
Context {Sim State : Type} `{Capabilities Sim State}.

(** The fields of [self] that [get_cost] and [get_done] read or write.
    [shape_reward] is the entry of [env_cfg], which may be missing;
    [failure_mode] is [None] or a string. *)
Record t : Type := Build {
  reward : F;
  penalty : F;
  doneType : string;
  costType : string;
  return_type : string;
  shape_reward : option bool;
  failure_mode : option string;
  sim : Sim
}.

Definition set_failure_mode (m : option string) (s : t) : t :=
  Build (reward s) (penalty s) (doneType s) (costType s) (return_type s)
        (shape_reward s) m (sim s).
Definition set_sim (x : Sim) (s : t) : t :=
  Build (reward s) (penalty s) (doneType s) (costType s) (return_type s)
        (shape_reward s) (failure_mode s) x.

(** *** The margins as shared, mutable arrays *)


(** A Python value bound to [cost]: the float [0.] or an array. *)
Inductive value : Type :=
| VFloat (x : F)
| VArr (r : ref).

(** Reading the array behind a name.  Every name of a running program is
    bound; outside the store the interpreter has nothing to return. *)
Definition deref (r : ref) : M (heap F) (list F) :=
  fun h => match h !! r with
           | Some a => (Ok a, h)
           | None => (Raise SystemError, h)
           end.

(** A freshly allocated array. *)
Definition alloc (a : list F) : M (heap F) ref :=
  fun h => (Ok (length h), h ++ [a]).

(** Elementwise binary operation with numpy broadcasting of one-dimensional
    operands: equal lengths, or one operand of length one. *)
Definition broadcast2 (op : F -> F -> F) (a b : list F) : result (list F) :=
  if (length a =? length b)%nat then Ok (zip_with op a b)
  else match a, b with
       | [x], _ => Ok (map (op x) b)
       | _, [y] => Ok (map (fun x => op x y) a)
       | _, _ => Raise (ValueError "operands could not be broadcast together")
       end.

(** [op(l_x, g_x)] as a new array. *)
Definition elementwise (op : F -> F -> F) (l_x g_x : ref) : M (heap F) value :=
  let! a := deref l_x in
  let! b := deref g_x in
  let! c := lift (broadcast2 op a b) in
  let! r := alloc c in
  ret (VArr r).

(** The entries of [a] after [a[mask] = x]. *)
Definition mask_write (mask : list bool) (x : F) (a : list F) : list F :=
  zip_with (fun (m : bool) y => if m then x else y) mask a.

(** [target[mask] = x] with a boolean array [mask]: a float has no item
    assignment; a mask of the length of the array selects the entries where
    it is true; an empty mask selects nothing, whatever the length of the
    array; any other mask raises [IndexError]. *)
Definition setmask (target : value) (mask : list bool) (x : F) : M (heap F) unit :=
  match target with
  | VFloat _ => raise TypeError
  | VArr r =>
      let! a := deref r in
      if (length mask =? length a)%nat
      then modify (fun h => <[r := mask_write mask x a]> h)
      else if (length mask =? 0)%nat then ret tt
      else raise IndexError
  end.

Definition get_cost (self : t) (l_x g_x : ref) (success fail : list bool)
    : M (heap F) (value * ref * ref) :=
  let! cost :=
    if String.eqb (costType self) "dense_ell" then ret (VArr l_x)
    else if String.eqb (costType self) "dense" then elementwise fadd l_x g_x
    else if String.eqb (costType self) "sparse" then ret (VFloat fzero)
    else if String.eqb (costType self) "max_ell_g" then
      if str_contains "reward" (return_type self)
      then elementwise fminimum l_x g_x
      else elementwise fmaximum l_x g_x
    else raise (ValueError "invalid cost type!") in
  (if default false (shape_reward self) then
     if str_contains "reward" (return_type self) then
       setmask cost success (fmul fminus_one (reward self)) >>
       setmask cost fail (fmul fminus_one (penalty self)) >>
       setmask (VArr l_x) success (fmul fminus_one (reward self)) >>
       setmask (VArr g_x) fail (fmul fminus_one (penalty self))
     else
       setmask cost success (reward self) >>
       setmask cost fail (penalty self) >>
       setmask (VArr l_x) success (reward self) >>
       setmask (VArr g_x) fail (penalty self)
   else ret tt) >>
  ret (cost, l_x, g_x).

(** *** Termination *)

Definition get_done (state : State) (success fail : bool) : M t bool :=
  let! self := get in
  if String.eqb (doneType self) "toEnd" then
    ret (check_within_env (sim self) state)
  else if String.eqb (doneType self) "fail" then
    ret fail
  else if String.eqb (doneType self) "TF" then
    ret (fail || success)
  else if String.eqb (doneType self) "all" then
    let done := (fail || success) || check_within_env (sim self) state in
    (if bool_decide (failure_mode self = None) && check_within_env (sim self) state
     then modify (set_failure_mode (Some "out_of_env"))
     else if success then modify (set_failure_mode (Some "success"))
     else ret tt) >>
    ret done
  else if String.eqb (doneType self) "real" then
    let real_fail := check_real_failure (sim self) in
    let done := (real_fail || success) || check_within_env (sim self) state in
    (if bool_decide (failure_mode self = None) && check_within_env (sim self) state
     then modify (set_failure_mode (Some "out_of_env"))
     else if success then modify (set_failure_mode (Some "success"))
     else ret tt) >>
    ret done
  else raise (ValueError "invalid done type!").

(** *** Views used to state the properties *)

(** The recognised configuration values. *)
Definition cost_kinds : list string := ["dense_ell"; "dense"; "sparse"; "max_ell_g"].
Definition done_kinds : list string := ["toEnd"; "fail"; "TF"; "all"; "real"].

(** The cost kinds that bind [cost] to an array. *)
Definition shaped_cost_kinds : list string := ["dense_ell"; "dense"; "max_ell_g"].

(** The values [get_done] leaves in the tag of an episode that starts
    without one. *)
Definition tag_allowed (m : option string) : Prop :=
  m = None \/ m = Some "out_of_env" \/ m = Some "success".

(** The content of a value: a float or the entries of an array. *)
Definition read (h : heap F) (v : value) : option (F + list F) :=
  match v with
  | VFloat x => Some (inl x)
  | VArr r => inr <$> h !! r
  end.

(** The cost as section 4.1 of the specification documents it, from the
    entries [l] of the target margin and [g] of the safety margin. *)
Definition documented_cost (cost_kind : string) (reward_mode : bool)
    (l g : list F) : option (F + list F) :=
  if String.eqb cost_kind "dense_ell" then Some (inr l)
  else if String.eqb cost_kind "dense" then Some (inr (zip_with fadd l g))
  else if String.eqb cost_kind "sparse" then Some (inl fzero)
  else if String.eqb cost_kind "max_ell_g" then
    Some (inr (zip_with (if reward_mode then fminimum else fmaximum) l g))
  else None.

(** The bonus written at successful entries: negated in reward mode. *)
Definition bonus (self : t) : F :=
  if str_contains "reward" (return_type self)
  then fmul fminus_one (reward self) else reward self.

(** One episode, as far as [failure_mode] is concerned: calls of [get_done],
    returning or raising, between which the simulator moves on. *)
Inductive episode : t -> t -> Prop :=
| ep_refl s : episode s s
| ep_done s state success fail r s' s'' :
    get_done state success fail s = (r, s') ->
    episode s' s'' -> episode s s''
| ep_sim s x s'' :
    episode (set_sim x s) s'' -> episode s s''.

End Env.
Arguments t F Sim : clear implicits.

End BaseMujocoEnv.

(** ** Runs of [TopKLogger] and the order of its heap *)

Module TopKRuns.
Import Heapq TopKLogger.

(** Offering the checkpoints of [xs] one after the other, collecting what
    [push] returned. *)
Fixpoint push_all (xs : list (string * float)) : M t (list bool) :=
  match xs with
  | [] => ret []
  | (ckpt, success) :: xs' =>
      let! r := push ckpt success in
      let! rs := push_all xs' in
      ret (r :: rs)
  end.

(** The entries offered by [xs], as [push] builds them. *)
Definition offered (xs : list (string * float)) : list item :=
  map (fun x => (x.2, x.1)) xs.

End TopKRuns.

Module HeapOrder.
Import Heapq.

(** [x <= y] on scores: [y] is not below [x]. *)
Definition fle (x y : float) : Prop := PrimFloat.ltb y x = false.

Definition le_item (a b : item) : Prop := fle a.1 b.1.

(** The parent position [(pos - 1) >> 1] of [_siftdown]. *)
Definition par (pos : nat) : nat := Nat.shiftr (pos - 1) 1.

(** The heap property of [heapq], on the scores: no entry scores below its
    parent. *)
Definition heap_ok (l : list item) : Prop :=
  forall i p x, (0 < i)%nat ->
    l !! par i = Some p -> l !! i = Some x -> le_item p x.

Definition no_nan (l : list item) : Prop :=
  Forall (fun x => PrimFloat.is_nan x.1 = false) l.

(** What a tracker with bound [K] holds after the entries [seen] were
    offered: a heap of [min (length seen) K] of them, none scoring below an
    entry that is not kept. *)
Definition keeps_best (K : Z) (seen : list item) (self : TopKLogger.t)
    : Prop :=
  let q := TopKLogger.checkpoint_queue self in
  TopKLogger.max_to_keep self = K /\ heap_ok q /\ no_nan q /\
  Z.of_nat (length q) = Z.min (Z.of_nat (length seen)) K /\
  exists dropped, seen ≡ₚ q ++ dropped /\
    forall d k, d ∈ dropped -> k ∈ q -> le_item d k.

(** The heap property around the position that [_siftdown] is about to
    fill with [newitem]. *)
Definition down_inv (l : list item) (pos : nat) (newitem : item) : Prop :=
  (forall i p x, (0 < i)%nat -> i <> pos -> par i <> pos ->
     l !! par i = Some p -> l !! i = Some x -> le_item p x) /\
  (forall c g x, (0 < pos)%nat -> (0 < c)%nat -> par c = pos ->
     l !! par pos = Some g -> l !! c = Some x -> le_item g x) /\
  (forall c x, (0 < c)%nat -> par c = pos -> l !! c = Some x ->
     le_item newitem x).

(** The heap property around the position that [_siftup] is moving down. *)
Definition up_inv (l : list item) (pos : nat) : Prop :=
  (forall i p x, (0 < i)%nat -> i <> pos -> par i <> pos ->
     l !! par i = Some p -> l !! i = Some x -> le_item p x) /\
  (forall c g x, (0 < pos)%nat -> (0 < c)%nat -> par c = pos ->
     l !! par pos = Some g -> l !! c = Some x -> le_item g x).

(** Keys by which IEEE comparison of two numbers is the lexicographic
    order. *)
Definition num (f : spec_float) : Z * Z * Z :=
  match f with
  | S754_zero _ => (0, 0, 0)
  | S754_infinity s => (if s then -2 else 2, 0, 0)
  | S754_nan => (0, 0, 0)
  | S754_finite s m e => if s then (-1, - e, Zneg m) else (1, e, Zpos m)
  end.

Definition lex3 (a b : Z * Z * Z) : comparison :=
  match Z.compare a.1.1 b.1.1 with
  | Eq => match Z.compare a.1.2 b.1.2 with
          | Eq => Z.compare a.2 b.2
          | c => c
          end
  | c => c
  end.

Definition lt3 (a b : Z * Z * Z) : Prop :=
  a.1.1 < b.1.1 \/
  (a.1.1 = b.1.1 /\ (a.1.2 < b.1.2 \/ (a.1.2 = b.1.2 /\ a.2 < b.2))).

End HeapOrder.

(** ** Views of the buffers used to state their properties *)

Module ReplayBufferViews.
Import Np ReplayBuffer.

Section Views.
Context {Row : Type} `{RowType Row}.

(** The slot of a freshly created buffer: zero rows of the field shapes. *)
Definition zero_transition (obs_dim act_dim : shape_arg) (C : Z) : Transition Row :=
  {| t_obs := zeros_row (tl (combined_shape C obs_dim));
     t_act := zeros_row (tl (combined_shape C act_dim));
     t_rew := zeros_row [];
     t_next_obs := zeros_row (tl (combined_shape C obs_dim));
     t_done := zeros_row [];
     t_lx := zeros_row [];
     t_gx := zeros_row [] |}.

End Views.

End ReplayBufferViews.

(** ** [ReplayBufferMultimodal.get_batch_from_obs] and the layout of the
    streams *)

Module MultimodalViews.
Import Np ReplayBufferMultimodal.

Section Views.
Context {Row : Type} `{RowType Row}.

(** Everything but the two stream mappings is the same in [s] and [s']: no
    transition has been recorded. *)
Definition nothing_recorded (s s' : t Row) : Prop :=
  ptr s' = ptr s /\ size s' = size s /\ max_size s' = max_size s /\
  ptr_start s' = ptr_start s /\
  env_observation_shapes s' = env_observation_shapes s /\
  act_buf s' = act_buf s /\ rew_buf s' = rew_buf s /\
  done_buf s' = done_buf s /\ lx_buf s' = lx_buf s /\ gx_buf s' = gx_buf s.

(** The stream [k] of the mapping [m] holds, at position [p], the entry of
    the dictionary [src] for [k]. *)
Definition written (m : gmap string (ndarray Row)) (p : Z) (src : dict Row)
    (k : string) : Prop :=
  exists a row, m !! k = Some a /\ dict_get src k = Ok row /\ getitem a p = Ok row.

(** An array-like value handed to [torch.as_tensor]: its shape and content. *)
Record array_like : Type := ArrayLike { al_shape : list Z; al_data : Row }.

(** [torch.as_tensor(v, dtype=torch.float32).unsqueeze(0).unsqueeze(0)]: two
    leading dimensions of size one around the value. *)
Definition lone_window (v : array_like) : ndarray Row :=
  NdArray float32 (1 :: 1 :: al_shape v) [al_data v].

(** [get_batch_from_obs]: the loop [for k, v in o.items(): o_new[k] = ...]. *)
Definition get_batch_from_obs (o : dict array_like) : gmap string (ndarray Row) :=
  foldl (fun o_new kv => <[kv.1 := lone_window kv.2]> o_new) ∅ o.

(** Every stream array has the dtype its name asks for and the shape
    [combined_shape(size, env_observation_shapes[k])]. *)
Definition stream_laid_out (b : t Row) (k : string) (a : ndarray Row) : Prop :=
  dt a = stream_dtype k /\
  exists sh, (k, sh) ∈ env_observation_shapes b /\
             shape a = combined_shape (max_size b) sh.

Definition laid_out (b : t Row) : Prop :=
  (forall k a, obs_buf b !! k = Some a -> stream_laid_out b k a) /\
  (forall k a, obs2_buf b !! k = Some a -> stream_laid_out b k a).

End Views.
Arguments array_like Row : clear implicits.

End MultimodalViews.

(** ** The shaping block of [get_cost] *)

Module CostShaping.
Import BaseMujocoEnv.

Section Shaping.
Context {F : Type} `{Scalar F}.
Context {Sim State : Type} `{Capabilities Sim State}.

(** The penalty written at failed entries: negated in reward mode. *)
Definition penalty_value (self : t F Sim) : F :=
  if str_contains "reward" (return_type self)
  then fmul fminus_one (penalty self) else penalty self.

(** The four assignments of the shaping block, for the values [p] and [q]
    written at successful and failed entries. *)
Definition shaping (cost : value) (l_x g_x : ref) (success fail : list bool)
    (p q : F) : M (heap F) unit :=
  setmask cost success p >> setmask cost fail q >>
  setmask (VArr l_x) success p >> setmask (VArr g_x) fail q.

End Shaping.

End CostShaping.

(** ** Assignment of the values a caller passes *)

(** [Np.setitem] writes a row that is already the content of a slot.  What a
    caller passes to [store] is any value: on [a[i] = v] numpy broadcasts [v]
    to the shape of the slot and converts it to the dtype of the array (a
    binary64 number is rounded to float32, 300 wraps to 44 in a byte array),
    and raises [ValueError] when [v] cannot be broadcast. *)

Module NpValues.
Import Np.

(** [convert d dims v]: the content that assigning the value [v] gives a
    slot of shape [dims] in an array of dtype [d], or the exception raised. *)
Class Conversion (Val Row : Type) : Type :=
  convert : dtype -> list Z -> Val -> result Row.

Section Assign.
Context {Val Row : Type} `{Conversion Val Row}.

(** [a[i] = v]: the index is resolved first, then the value is converted and
    written. *)
Definition setitem (a : ndarray Row) (i : Z) (v : Val) : result (ndarray Row) :=
  match index (length (rows a)) i with
  | Ok n =>
      let? row := convert (dt a) (tl (shape a)) v in
      Ok (NdArray (dt a) (shape a) (<[n := row]> (rows a)))
  | Raise e => Raise e
  end.

End Assign.

(** *** Arrays of binary64 numbers as values *)

(** binary64 to float32: round to nearest, ties to even, overflow to an
    infinity. *)
Definition to_float32 (x : float) : float :=
  match Prim2SF x with
  | S754_finite s m e =>
      SF2Prim (binary_normalize 24 128 (if s then Z.neg m else Z.pos m) e s)
  | _ => x
  end.

(** binary64 to a byte: the fraction is dropped and the integer wraps modulo
    256; NaN and the infinities, for which C leaves the result open, give 0
    here. *)
Definition to_uint8 (x : float) : float :=
  match Prim2SF x with
  | S754_finite s m e =>
      let n := if 0 <=? e then Z.pos m * 2 ^ e else Z.pos m / 2 ^ (- e) in
      PrimFloat.of_uint63 (Uint63.of_Z ((if s then - n else n) mod 256))
  | _ => 0%float
  end.

Definition astype (d : dtype) (x : float) : float :=
  match d with float32 => to_float32 x | uint8 => to_uint8 x end.

(** A numpy array of dtype float64, or a Python float (the shape [[]]): its
    shape and its entries in row-major order, as many as the shape says. *)
Record array : Type := Array { a_shape : list Z; a_data : list float }.

Definition scalar (x : float) : array := Array [] [x].

(** A value of more dimensions than the slot loses leading dimensions of
    size one, at most [n] of them. *)
Fixpoint strip (n : nat) (vs : list Z) : list Z :=
  match n, vs with
  | S n', 1 :: vs' => strip n' vs'
  | _, _ => vs
  end.

(** [l] cut into [n] blocks of [size] entries. *)
Fixpoint blocks (size n : nat) (l : list float) : list (list float) :=
  match n with
  | O => []
  | S n' => take size l :: blocks size n' (drop size l)
  end.

(** The entries of a value of shape [vs] stretched to the shape [ds] of the
    same number of dimensions: along each axis the value has the length of
    the slot, or the length one and is repeated. *)
Fixpoint broadcast (ds vs : list Z) (data : list float) : option (list float) :=
  match ds, vs with
  | [], [] => Some data
  | d :: ds', v :: vs' =>
      if v =? d then
        mjoin <$> mapM (broadcast ds' vs')
                    (blocks (Z.to_nat (foldr Z.mul 1 vs')) (Z.to_nat v) data)
      else if v =? 1 then
        (fun r => mjoin (replicate (Z.to_nat d) r)) <$> broadcast ds' vs' data
      else None
  | _, _ => None
  end.

(** A shape as numpy prints it in its messages: [()], [(3,)], [(2,3)]. *)
Definition shape_str (s : list Z) : string :=
  match s with
  | [] => "()"
  | [n] => "(" +:+ pretty n +:+ ",)"
  | n :: s' =>
      "(" +:+ pretty n +:+ foldr (fun m r => "," +:+ pretty m +:+ r) ")" s'
  end.

(** The value is aligned with the slot at the last axis, stretched and
    converted entry by entry.  A slot that is a single number takes a value
    of one entry, whatever its shape. *)
#[global] Instance flat_values : Conversion array (list float) := fun d dims v =>
  let vs := strip (length (a_shape v) - length dims) (a_shape v) in
  match broadcast dims (replicate (length dims - length vs) 1 ++ vs) (a_data v) with
  | Some r => Ok (map (astype d) r)
  | None =>
      Raise (ValueError
        match dims with
        | [] => "setting an array element with a sequence."
        | _ => "could not broadcast input array from shape " +:+ shape_str vs
               +:+ " into shape " +:+ shape_str dims
        end)
  end.

End NpValues.

(** ** [ReplayBuffer.store] of the values a caller passes *)

Module ReplayBufferValues.
Import Np ReplayBuffer.

Section Buffer.
Context {Val Row : Type} `{RowType Row} `{NpValues.Conversion Val Row}.

(** [self.<buf>[self.ptr] = v] *)
Definition assign (buf : t Row -> ndarray Row)
    (set_buf : ndarray Row -> t Row -> t Row) (v : Val) : M (t Row) unit :=
  let! self := get in
  let! a := lift (NpValues.setitem (buf self) (ptr self) v) in
  modify (set_buf a).

Definition store (obs act rew next_obs done lx gx : Val) : M (t Row) unit :=
  assign obs_buf set_obs_buf obs >>
  assign obs2_buf set_obs2_buf next_obs >>
  assign act_buf set_act_buf act >>
  assign rew_buf set_rew_buf rew >>
  assign done_buf set_done_buf done >>
  assign lx_buf set_lx_buf lx >>
  assign gx_buf set_gx_buf gx >>
  let! self := get in
  let! m := lift (py_mod (ptr self + 1 - ptr_start self)
                         (max_size self - ptr_start self)) in
  modify (set_ptr (ptr_start self + m)) >>
  let! self := get in
  modify (set_size (Z.min (size self + 1) (max_size self))).

Definition store_transition (tr : Transition Val) : M (t Row) unit :=
  store (t_obs tr) (t_act tr) (t_rew tr) (t_next_obs tr) (t_done tr)
        (t_lx tr) (t_gx tr).

(** A sequence of [store] calls, in order. *)
Definition stores (ts : list (Transition Val)) : M (t Row) unit :=
  for_each ts store_transition.

(** *** Views used to state the properties *)

(** The seven fields of [tr] as the arrays of [b] hold them once assigned,
    in the order [store] assigns them. *)
Definition as_stored (b : t Row) (tr : Transition Val)
    : result (Transition Row) :=
  let conv (a : ndarray Row) := NpValues.convert (dt a) (tl (shape a)) in
  let? o := conv (obs_buf b) (t_obs tr) in
  let? o2 := conv (obs2_buf b) (t_next_obs tr) in
  let? a := conv (act_buf b) (t_act tr) in
  let? r := conv (rew_buf b) (t_rew tr) in
  let? d := conv (done_buf b) (t_done tr) in
  let? l := conv (lx_buf b) (t_lx tr) in
  let? g := conv (gx_buf b) (t_gx tr) in
  Ok {| t_obs := o; t_act := a; t_rew := r; t_next_obs := o2;
        t_done := d; t_lx := l; t_gx := g |}.

(** Two buffers whose arrays have the same dtypes and shapes. *)
Definition same_layout (b b' : t Row) : Prop :=
  let layout (a : ndarray Row) := (dt a, shape a) in
  layout (obs_buf b') = layout (obs_buf b) /\
  layout (obs2_buf b') = layout (obs2_buf b) /\
  layout (act_buf b') = layout (act_buf b) /\
  layout (rew_buf b') = layout (rew_buf b) /\
  layout (done_buf b') = layout (done_buf b) /\
  layout (lx_buf b') = layout (lx_buf b) /\
  layout (gx_buf b') = layout (gx_buf b).

End Buffer.

End ReplayBufferValues.

(** ** [ReplayBufferMultimodal.store] of the values a caller passes *)

Module ReplayBufferMultimodalValues.
Import Np ReplayBufferMultimodal.

Section Buffer.
Context {Val Row : Type} `{RowType Row} `{NpValues.Conversion Val Row}.

(** [self.<bufs>[obs_type][self.ptr] = src[obs_type]]: the right-hand side
    is evaluated first, then the array is looked up, and the value is
    converted and written. *)
Definition assign_stream (bufs : t Row -> gmap string (ndarray Row))
    (set_bufs : gmap string (ndarray Row) -> t Row -> t Row)
    (obs_type : string) (src : dict Val) : M (t Row) unit :=
  let! self := get in
  let! v := lift (dict_get src obs_type) in
  let! a := lift (map_get (bufs self) obs_type) in
  let! a' := lift (NpValues.setitem a (ptr self) v) in
  modify (set_bufs (<[obs_type := a']> (bufs self))).

(** [self.<buf>[self.ptr] = v] *)
Definition assign (buf : t Row -> ndarray Row)
    (set_buf : ndarray Row -> t Row -> t Row) (v : Val) : M (t Row) unit :=
  let! self := get in
  let! a := lift (NpValues.setitem (buf self) (ptr self) v) in
  modify (set_buf a).

Definition store (obs : dict Val) (act rew : Val) (next_obs : dict Val)
    (done lx gx : Val) : M (t Row) unit :=
  for_each (keys obs) (fun obs_type =>
    assign_stream obs_buf set_obs_buf obs_type obs >>
    assign_stream obs2_buf set_obs2_buf obs_type next_obs) >>
  assign act_buf set_act_buf act >>
  assign rew_buf set_rew_buf rew >>
  assign done_buf set_done_buf done >>
  assign lx_buf set_lx_buf lx >>
  assign gx_buf set_gx_buf gx >>
  let! self := get in
  let! m := lift (py_mod (ptr self + 1 - ptr_start self)
                         (max_size self - ptr_start self)) in
  modify (set_ptr (ptr_start self + m)) >>
  let! self := get in
  modify (set_size (Z.min (size self + 1) (max_size self))).

(** *** Views used to state the properties *)

(** The buffers a program can hold: built by [__init__] and then only touched
    by [store], whether a call returns or raises. *)
Inductive reachable : t Row -> Prop :=
| reach_init shapes act_dim size b :
    __init__ shapes act_dim size = Ok b -> reachable b
| reach_store b obs act rew next_obs done lx gx r b' :
    reachable b ->
    store obs act rew next_obs done lx gx b = (r, b') ->
    reachable b'.

(** The value [v] can be assigned to a slot of [a]. *)
Definition value_fits (a : ndarray Row) (v : Val) : Prop :=
  exists row, NpValues.convert (dt a) (tl (shape a)) v = Ok row.

(** The dictionary [src] has an entry for [k], the mapping [m] has a stream
    for [k], and the entry can be assigned to a slot of that stream. *)
Definition stream_fits (m : gmap string (ndarray Row)) (src : dict Val)
    (k : string) : Prop :=
  exists v a, dict_get src k = Ok v /\ m !! k = Some a /\ value_fits a v.

(** The stream [k] of [m'] holds, at position [p], the entry of [src] for
    [k] as converted for the stream of [m]. *)
Definition stream_holds (m m' : gmap string (ndarray Row)) (p : Z)
    (src : dict Val) (k : string) : Prop :=
  exists v a row a',
    dict_get src k = Ok v /\ m !! k = Some a /\
    NpValues.convert (dt a) (tl (shape a)) v = Ok row /\
    m' !! k = Some a' /\ getitem a' p = Ok row.

End Buffer.

End ReplayBufferMultimodalValues.

(** ** Concrete runs *)

Module Examples.
Import Np.

(** A transition whose seven fields all hold the number [x]. *)
Definition tr (x : float) : ReplayBuffer.Transition (list float) :=
  {| ReplayBuffer.t_obs := [x]; ReplayBuffer.t_act := [x];
     ReplayBuffer.t_rew := [x]; ReplayBuffer.t_next_obs := [x];
     ReplayBuffer.t_done := [x]; ReplayBuffer.t_lx := [x];
     ReplayBuffer.t_gx := [x] |}.

(** [ReplayBuffer(obs_dim=1, act_dim=1, size=2, device)] *)
Definition fresh2 : ReplayBuffer.t (list float) :=
  let o := NdArray float32 [2; 1] [[0%float]; [0%float]] in
  let z := NdArray float32 [2] [[0%float]; [0%float]] in
  ReplayBuffer.Build o o o z z z z 0 0 2 0.

Definition three : list (ReplayBuffer.Transition (list float)) :=
  [tr 1; tr 2; tr 3].

(** The buffer after the three stores. *)
Definition after_three : ReplayBuffer.t (list float) :=
  Eval vm_compute in (ReplayBuffer.stores three fresh2).2.

(** A source of raw draws. *)
Definition draws : Rng := fun j => 7 * Z.of_nat j + 3.

(** A multimodal buffer with an image stream and a state stream, two slots. *)
Definition streams : dict shape_arg :=
  [("rgb_front", ShapeTuple [1]); ("state", ShapeScalar 1)].

Definition mm_fresh : ReplayBufferMultimodal.t (list float) :=
  let img := NdArray uint8 [2; 1] [[0%float]; [0%float]] in
  let st := NdArray float32 [2; 1] [[0%float]; [0%float]] in
  let z := NdArray float32 [2] [[0%float]; [0%float]] in
  ReplayBufferMultimodal.Build streams
    (<["state" := st]> (<["rgb_front" := img]> ∅))
    (<["state" := st]> (<["rgb_front" := img]> ∅))
    st z z z z 0 0 2 0.

(** A store that passes the state stream only. *)
Definition mm_store : M (ReplayBufferMultimodal.t (list float)) unit :=
  ReplayBufferMultimodal.store [("state", [4%float])] [5%float] [6%float]
    [("state", [7%float])] [1%float] [8%float] [9%float].

Definition mm_after : ReplayBufferMultimodal.t (list float) :=
  Eval vm_compute in (mm_store mm_fresh).2.

(** An environment whose state is a flag telling that it left the bounds. *)
#[global] Instance flag_env : BaseMujocoEnv.Capabilities unit bool := {|
  BaseMujocoEnv.check_within_env := fun _ out => out;
  BaseMujocoEnv.check_real_failure := fun _ => false
|}.

Definition env (cost_kind done_kind return_type : string) (shape : bool)
    : BaseMujocoEnv.t float unit :=
  BaseMujocoEnv.Build 10%float 5%float done_kind cost_kind return_type
    (Some shape) None tt.

(** The margins [l_x] at address 0 and [g_x] at address 1. *)
Definition margins : list (list float) := [[1%float]; [2%float]].

(** A transition as a caller passes it, all of whose fields hold the
    binary64 number [x]: the observations and the action as arrays of one
    entry, the other fields as Python floats. *)
Definition trv (x : float) : ReplayBuffer.Transition NpValues.array :=
  {| ReplayBuffer.t_obs := NpValues.Array [1] [x];
     ReplayBuffer.t_act := NpValues.Array [1] [x];
     ReplayBuffer.t_rew := NpValues.scalar x;
     ReplayBuffer.t_next_obs := NpValues.Array [1] [x];
     ReplayBuffer.t_done := NpValues.scalar x;
     ReplayBuffer.t_lx := NpValues.scalar x;
     ReplayBuffer.t_gx := NpValues.scalar x |}.

(** Three transitions whose numbers float32 does not hold: [0.1] is rounded,
    [2^24 + 1] loses its last bit and [1e39] overflows. *)
Definition raw_three : list (ReplayBuffer.Transition NpValues.array) :=
  [trv 0.1; trv 16777217; trv 1e39].

Definition tenth32 : float := Eval vm_compute in NpValues.to_float32 0.1.

(** The three transitions as float32 arrays hold them. *)
Definition held_three : list (ReplayBuffer.Transition (list float)) :=
  [tr tenth32; tr 16777216; tr infinity].

End Examples.

(** ** [envs/utils.py]: bounding boxes of a segmentation image *)

Module EnvUtils.

(** A two-dimensional integer array, as the list of its rows. *)
Abbreviation image := (list (list Z)).

(** [segmentation[y, x]] *)
Definition pixel (segmentation : image) (y x : nat) : option Z :=
  segmentation !! y ≫= fun row => row !! x.

(** [np.unique]: the values of the array, each once, in ascending order. *)
Definition unique (segmentation : image) : list Z :=
  merge_sort Z.le (remove_dups (mjoin segmentation)).

(** The positions [(y, x)] of one row at which the row holds [obj_id], from
    column [x] on. *)
Fixpoint row_where (obj_id : Z) (y x : Z) (row : list Z) : list (Z * Z) :=
  match row with
  | [] => []
  | p :: row' =>
      (if p =? obj_id then [(y, x)] else []) ++ row_where obj_id y (x + 1) row'
  end.

Fixpoint rows_where (obj_id : Z) (y : Z) (rows : image) : list (Z * Z) :=
  match rows with
  | [] => []
  | row :: rows' => row_where obj_id y 0 row ++ rows_where obj_id (y + 1) rows'
  end.

(** [np.where(segmentation == obj_id)]: the row indices and the column
    indices of the matching positions, in row-major order. *)
Definition where_eq (segmentation : image) (obj_id : Z) : list Z * list Z :=
  let hits := rows_where obj_id 0 segmentation in (hits.*1, hits.*2).

(** [a.min()] and [a.max()]: an empty array has no minimum. *)
Definition amin (a : list Z) : result Z :=
  match a with
  | [] => Raise (ValueError "zero-size array to reduction operation minimum which has no identity")
  | x :: a' => Ok (foldl Z.min x a')
  end.

Definition amax (a : list Z) : result Z :=
  match a with
  | [] => Raise (ValueError "zero-size array to reduction operation maximum which has no identity")
  | x :: a' => Ok (foldl Z.max x a')
  end.

(** The loop [for obj_id in unique_objects] of [get_bounding_boxes]. *)
Fixpoint boxes_loop (segmentation : image) (unique_objects : list Z)
    (bboxes : gmap Z (Z * Z * Z * Z)) : result (gmap Z (Z * Z * Z * Z)) :=
  match unique_objects with
  | [] => Ok bboxes
  | obj_id :: rest =>
      if obj_id =? 0 then boxes_loop segmentation rest bboxes
      else
        let '(ys, xs) := where_eq segmentation obj_id in
        let? x_min := amin xs in
        let? x_max := amax xs in
        let? y_min := amin ys in
        let? y_max := amax ys in
        boxes_loop segmentation rest
          (<[obj_id := (x_min, y_min, x_max, y_max)]> bboxes)
  end.

Definition get_bounding_boxes (segmentation : image)
    : result (gmap Z (Z * Z * Z * Z)) :=
  let unique_objects := unique segmentation in
  boxes_loop segmentation unique_objects ∅.

(** The object [obj_id] covers the position [(y, x)]. *)
Definition covers (segmentation : image) (obj_id : Z) (y x : Z) : Prop :=
  exists ny nx, y = Z.of_nat ny /\ x = Z.of_nat nx /\
    pixel segmentation ny nx = Some obj_id.

End EnvUtils.

(** ** [calc_false_pos_neg_rate] *)

Module Rates.

(** [np.logical_and] on one-dimensional boolean arrays, with numpy's
    broadcasting of an array of one entry. *)
Definition logical_and (a b : list bool) : result (list bool) :=
  BaseMujocoEnv.broadcast2 andb a b.

(** [np.sum] of a boolean array: the number of entries that are true. *)
Definition sum (a : list bool) : Z :=
  Z.of_nat (length (filter (fun x => x = true) a)).

(** The quotient [a / b] of two numpy integers is the binary64 quotient of
    their conversions; a zero divisor gives an infinity or NaN, not an
    exception. *)
Definition true_divide (a b : Z) : float :=
  PrimFloat.div (PrimFloat.of_uint63 (Uint63.of_Z a))
                (PrimFloat.of_uint63 (Uint63.of_Z b)).

Definition calc_false_pos_neg_rate (pred_v GT_v : list float)
    : result (float * float) :=
  let pred_success := map (fun v => PrimFloat.ltb 0 v) pred_v in
  let GT_success := map (fun v => PrimFloat.ltb v 0) GT_v in
  let? fp := logical_and (map (Bool.eqb false) GT_success)
                         (map (Bool.eqb true) pred_success) in
  let FP := sum fp in
  let? fn := logical_and (map (Bool.eqb true) GT_success)
                         (map (Bool.eqb false) pred_success) in
  let FN := sum fn in
  let? tp := logical_and (map (Bool.eqb true) GT_success)
                         (map (Bool.eqb true) pred_success) in
  let TP := sum tp in
  let? tn := logical_and (map (Bool.eqb false) GT_success)
                         (map (Bool.eqb false) pred_success) in
  let TN := sum tn in
  let false_pos_rate := true_divide FP (FP + TN) in
  let false_neg_rate := true_divide FN (FN + TP) in
  Ok (false_pos_rate, false_neg_rate).

End Rates.

(** ** [save_model]: pruning old checkpoints and writing a new one *)

Module SaveModel.

(** Exceptions of [save_model]: the builtin ones and those of the operating
    system. *)
Inductive exn : Type :=
| Builtin (e : Py.exn)
| FileNotFoundError (filename : string).

(** Computations over the world outside the program. *)
Definition IO (World A : Type) : Type := World -> (exn + A) * World.

Definition io_ret {World A} (a : A) : IO World A := fun w => (inr a, w).
Definition io_raise {World A} (e : exn) : IO World A := fun w => (inl e, w).
Definition io_bind {World A B} (c : IO World A) (k : A -> IO World B)
    : IO World B :=
  fun w => match c w with
           | (inr a, w') => k a w'
           | (inl e, w') => (inl e, w')
           end.
Definition io_lift {World A} (r : result A) : IO World A :=
  fun w => match r with Ok a => (inr a, w) | Raise e => (inl (Builtin e), w) end.

Local Notation "'do!' x ':=' c 'in' k" := (io_bind c (fun x => k))
  (at level 10, x name, c at level 100, k at level 200).
Local Notation "c1 ';;' c2" := (io_bind c1 (fun _ => c2))
  (at level 100, c2 at level 200, right associativity).

(** What [torch.save] is given: the state dictionary alone, or a dictionary
    with the configuration and the step. *)
Inductive payload (StateDict Config : Type) : Type :=
| Weights (state_dict : StateDict)
| Checkpoint (state_dict : StateDict) (config : Config) (step : Z).
Arguments Weights {StateDict Config} state_dict.
Arguments Checkpoint {StateDict Config} state_dict config step.

(** The operations [save_model] calls on the file system, on torch and on
    wandb, and the formatting of a float with two decimals. *)
Class Runtime (World StateDict Config : Type) : Type := {
  os_makedirs : string -> IO World unit;
  glob_glob : string -> IO World (list string);
  os_remove : string -> IO World unit;
  torch_save : payload StateDict Config -> string -> IO World unit;
  wandb_save : string -> string -> IO World unit;
  print : string -> IO World unit;
  format_2f : float -> string
}.

(** [os.path.join(a, b)] on POSIX. *)
Definition os_path_join (a b : string) : string :=
  if String.prefix "/" b then b
  else if String.eqb a "" || String.eqb (String.substring (String.length a - 1) 1 a) "/"
  then a +:+ b
  else a +:+ "/" +:+ b.

(** [s.split("/")] *)
Fixpoint split_slash (s : string) : list string :=
  match s with
  | EmptyString => [EmptyString]
  | String c s' =>
      if Ascii.eqb c "/"%char then EmptyString :: split_slash s'
      else match split_slash s' with
           | seg :: segs => String c seg :: segs
           | [] => [String c EmptyString]
           end
  end.

(** [s[start:-4]] for a start that is not negative. *)
Definition slice (s : string) (start : nat) : string :=
  String.substring start (String.length s - 4 - start) s.

(** ASCII white space, as [int] strips it. *)
Definition is_space (c : ascii) : bool :=
  let n := nat_of_ascii c in
  ((9 <=? n) && (n <=? 13) || (28 <=? n) && (n <=? 32))%nat.

Fixpoint lstrip (s : string) : string :=
  match s with
  | EmptyString => EmptyString
  | String c s' => if is_space c then lstrip s' else s
  end.

Fixpoint rstrip (s : string) : string :=
  match s with
  | EmptyString => EmptyString
  | String c s' =>
      match rstrip s' with
      | EmptyString => if is_space c then EmptyString else String c EmptyString
      | r => String c r
      end
  end.

Definition digit (c : ascii) : option Z :=
  let n := nat_of_ascii c in
  if ((48 <=? n) && (n <=? 57))%nat then Some (Z.of_nat n - 48) else None.

(** Decimal digits, single underscores allowed between two digits. *)
Fixpoint digits (acc : Z) (after_digit : bool) (s : string) : option Z :=
  match s with
  | EmptyString => if after_digit then Some acc else None
  | String c s' =>
      match digit c with
      | Some d => digits (10 * acc + d) true s'
      | None =>
          if Ascii.eqb c "_"%char && after_digit then digits acc false s' else None
      end
  end.

(** [int(s)] on ASCII text. *)
Definition int (s : string) : result Z :=
  let t := rstrip (lstrip s) in
  let '(negative, body) :=
    match t with
    | String "-"%char r => (true, r)
    | String "+"%char r => (false, r)
    | _ => (false, t)
    end in
  match digits 0 false body with
  | Some v => Ok (if (negative : bool) then - v else v)
  | None =>
      Raise (ValueError ("invalid literal for int() with base 10: '" +:+ s +:+ "'"))
  end.

(** [[f(x) for x in xs]]: the first exception ends the comprehension. *)
Fixpoint comprehension {A B} (f : A -> result B) (xs : list A)
    : result (list B) :=
  match xs with
  | [] => Ok []
  | x :: xs' =>
      let? y := f x in
      let? ys := comprehension f xs' in
      Ok (y :: ys)
  end.

(** [min(xs)] *)
Definition min (xs : list Z) : result Z :=
  match xs with
  | [] => Raise (ValueError "min() arg is an empty sequence")
  | x :: xs' => Ok (foldl Z.min x xs')
  end.

Section SaveModel.
Context {World StateDict Config : Type} `{Runtime World StateDict Config}.

(** The name under which [save_model] writes a checkpoint. *)
Definition save_file_name (logs_path types : string) (step : Z)
    (success : float) : string :=
  os_path_join logs_path
    (types +:+ "_step_" +:+ pretty step +:+ "_success_" +:+ format_2f success
     +:+ ".pth").

Definition save_model (state_dict : StateDict) (step : Z)
    (logs_path types : string) (MAX_MODEL : Z) (success : float)
    (config : option Config) (debug : bool) : IO World unit :=
  let start := (String.length types + 1)%nat in
  os_makedirs logs_path ;;
  do! model_list := glob_glob (os_path_join logs_path "*.pth") in
  (if MAX_MODEL - 1 <? Z.of_nat (length model_list) then
     do! steps := io_lift (comprehension
       (fun li => let? name := match last (split_slash li) with
                               | Some name => Ok name
                               | None => Raise IndexError
                               end in
                  int (slice name start)) model_list) in
     do! min_step := io_lift (min steps) in
     os_remove (os_path_join logs_path (types +:+ "-" +:+ pretty min_step +:+ ".pth"))
   else io_ret tt) ;;
  let save_file_name := save_file_name logs_path types step success in
  match config with
  | Some config => torch_save (Checkpoint state_dict config step) save_file_name
  | None => torch_save (Weights state_dict) save_file_name
  end ;;
  (if negb debug
   then wandb_save save_file_name (os_path_join logs_path "..")
   else io_ret tt) ;;
  print ("  => Save " +:+ save_file_name +:+ " after [" +:+ pretty step
         +:+ "] updates").

End SaveModel.

(** A file name: no separator in it. *)
Definition file_name (s : string) : Prop :=
  forall n, String.get n s <> Some "/"%char.

End SaveModel.

(** ** Further concrete runs *)

Module MoreExamples.
Import Np Examples.

(** [ReplayBuffer(obs_dim=1, act_dim=1, size=0, device)] *)
Definition fresh0 : ReplayBuffer.t (list float) :=
  let o := NdArray float32 [0; 1] [] in
  let z := NdArray float32 [0] [] in
  ReplayBuffer.Build o o o z z z z 0 0 0 0.

(** Four offers to a checkpoint log. *)
Definition offers : list (string * float) :=
  [("a", 0.1%float); ("b", 0.9%float); ("c", 0.5%float); ("d", 0.95%float)].

(** A full log of one entry whose score is NaN. *)
Definition nan_log : TopKLogger.t :=
  TopKLogger.Build 1 [(PrimFloat.nan, "a")].

(** The image stream of [mm_after], which no store has touched. *)
Definition rgb_stream : ndarray (list float) :=
  NdArray uint8 [2; 1] [[0%float]; [0%float]].

(** An observation holding one image of the shape of a slot. *)
Definition frame : MultimodalViews.array_like (list float) :=
  MultimodalViews.ArrayLike [1] [3%float].

(** An image with the background and two objects. *)
Definition segmentation2 : EnvUtils.image := [[0; 1; 1]; [0; 2; 1]].

Definition boxes2 : gmap Z (Z * Z * Z * Z) :=
  Eval vm_compute in
    match EnvUtils.get_bounding_boxes segmentation2 with
    | Ok m => m
    | Raise _ => ∅
    end.

(** A world that is the list of the files of the checkpoint directory; every
    file is a checkpoint, and floats print as [0.50]. *)
#[global] Instance listing : SaveModel.Runtime (list string) unit unit := {|
  SaveModel.os_makedirs := fun _ => SaveModel.io_ret tt;
  SaveModel.glob_glob := fun _ w => (inr w, w);
  SaveModel.os_remove := fun path w =>
    if decide (path ∈ w)
    then (inr tt, filter (fun f => f <> path) w)
    else (inl (SaveModel.FileNotFoundError path), w);
  SaveModel.torch_save := fun _ path w =>
    (inr tt, if decide (path ∈ w) then w else w ++ [path]);
  SaveModel.wandb_save := fun _ _ => SaveModel.io_ret tt;
  SaveModel.print := fun _ => SaveModel.io_ret tt;
  SaveModel.format_2f := fun _ => "0.50"
|}.

(** The directory after one checkpoint has been saved into an empty one. *)
Definition saved_once : list string :=
  Eval vm_compute in
    (SaveModel.save_model tt 1 "logs" "Q" 1 0.5%float None true []).2.

(** Predictions and ground truth for two states, both successful. *)
Definition predictions : list float := [1%float; (-1)%float].
Definition ground_truth : list float := [(-1)%float; (-2)%float].

(** [ReplayBuffer(obs_dim=1, act_dim=1, size=3, device)] *)
Definition fresh3 : ReplayBuffer.t (list float) :=
  let o := NdArray float32 [3; 1] [[0%float]; [0%float]; [0%float]] in
  let z := NdArray float32 [3] [[0%float]; [0%float]; [0%float]] in
  ReplayBuffer.Build o o o z z z z 0 0 3 0.

(** A transition whose action has two entries, for a buffer whose actions
    have one. *)
Definition wide_action : ReplayBuffer.Transition NpValues.array :=
  {| ReplayBuffer.t_obs := NpValues.Array [1] [0.1%float];
     ReplayBuffer.t_act := NpValues.Array [2] [1%float; 2%float];
     ReplayBuffer.t_rew := NpValues.scalar 1;
     ReplayBuffer.t_next_obs := NpValues.Array [1] [1%float];
     ReplayBuffer.t_done := NpValues.scalar 0;
     ReplayBuffer.t_lx := NpValues.scalar 1;
     ReplayBuffer.t_gx := NpValues.scalar 1 |}.

(** An observation with a state that float32 rounds and a pixel beyond the
    range of a byte, and the next observation with a negative pixel. *)
Definition raw_obs : dict NpValues.array :=
  [("state", NpValues.Array [1] [0.1%float]);
   ("rgb_front", NpValues.Array [1] [300%float])].

Definition raw_next_obs : dict NpValues.array :=
  [("state", NpValues.Array [1] [16777217%float]);
   ("rgb_front", NpValues.Array [1] [(-1)%float])].

End MoreExamples.

(** * Theorems *)

Section TopK.
Import TopKLogger.


(** C6: with K = 2, offering the scores 0.1, 0.9, 0.5, 0.95 in that order
    makes every offer return true, leaves exactly the entries with scores 0.9
    and 0.95 (with their identifiers), and [best_ckpt] then returns the
    identifier offered with 0.95. *)
Theorem topk_example (c1 c2 c3 c4 : string) :
  offer4 c1 c2 c3 c4 (__init__ 2)
  = (Ok ([true; true; true; true], c4),
     Build 2 [(0.9%float, c2); (0.95%float, c4)]).
Proof. reflexivity. Qed.

End TopK.

(** ** The ring of [ReplayBuffer] *)

Section ReplayBufferFacts.
Import Np ReplayBuffer.
Context {Row : Type} `{RowType Row}.

Lemma index_in_range (len : nat) (i : Z) :
  0 <= i < Z.of_nat len -> index len i = Ok (Z.to_nat i).
Proof.
  intros Hi. unfold index.
  destruct (Z.leb_spec 0 i); [|lia].
  destruct (Z.ltb_spec i (Z.of_nat len)); [|lia]. reflexivity.
Qed.


Lemma setitem_in_range (a : ndarray Row) (i : Z) (row : Row) :
  0 <= i < Z.of_nat (length (rows a)) ->
  setitem a i row = Ok (write a (Z.to_nat i) row).
Proof. intros Hi. unfold setitem. by rewrite index_in_range. Qed.



Lemma bind_assign {B} (buf : t Row -> ndarray Row) set_buf (row : Row)
    (k : unit -> M (t Row) B) (b : t Row) :
  0 <= ptr b < Z.of_nat (length (rows (buf b))) ->
  Py.bind (assign buf set_buf row) k b
  = k tt (set_buf (write (buf b) (Z.to_nat (ptr b)) row) b).
Proof.
  intros Hi. unfold assign, Py.bind, Py.get, Py.lift, Py.modify.
  by rewrite setitem_in_range.
Qed.

Lemma store_wf (b : t Row) (tr : Transition Row) :
  wf b -> store_transition tr b = (Ok tt, stored b tr).
Proof.
  intros [Hs Hp Hsz Ho Ho2 Ha Hr Hd Hl Hg].
  unfold store_transition, store.
  do 7 (rewrite bind_assign by (cbn; lia); cbn [ptr set_obs_buf set_obs2_buf
    set_act_buf set_rew_buf set_done_buf set_lx_buf set_gx_buf]).
  unfold Py.bind, Py.get, Py.lift, Py.modify, py_mod. cbn.
  destruct (Z.eqb_spec (max_size b - ptr_start b) 0) as [E|_]; [lia|].
  unfold stored, set_size, set_ptr. cbn.
  by rewrite Hs, !Z.sub_0_r, Z.add_0_l.
Qed.

Lemma for_each_app {S A} (xs ys : list A) (body : A -> M S unit) (s : S) :
  for_each (xs ++ ys) body s
  = Py.bind (for_each xs body) (fun _ => for_each ys body) s.
Proof.
  revert s. induction xs as [|x xs IH]; intros s; [done|].
  cbn [app for_each]. unfold Py.bind at 1 2 3.
  destruct (body x s) as [[[]|e] s']; [|done]. apply IH.
Qed.

Lemma slot_stored_eq (b : t Row) (tr : Transition Row) :
  wf b -> slot (stored b tr) (Z.to_nat (ptr b)) = Some tr.
Proof.
  intros [Hs Hp Hsz Ho Ho2 Ha Hr Hd Hl Hg]. unfold slot, stored, write. cbn.
  rewrite !list_lookup_insert_eq by lia. by destruct tr.
Qed.

Lemma slot_stored_ne (b : t Row) (tr : Transition Row) (j : nat) :
  j ≠ Z.to_nat (ptr b) -> slot (stored b tr) j = slot b j.
Proof.
  intros Hj. unfold slot, stored, write. cbn.
  by rewrite !list_lookup_insert_ne.
Qed.

Lemma stored_wf (b : t Row) (tr : Transition Row) : wf b -> wf (stored b tr).
Proof.
  intros [Hs Hp Hsz Ho Ho2 Ha Hr Hd Hl Hg].
  split; unfold stored, write; cbn; rewrite ?length_insert; try done.
  - apply Z.mod_pos_bound. lia.
  - lia.
Qed.

(** Two positions of the history less than [c] apart go to different slots. *)
Lemma mod_apart (c i m : nat) :
  (i < m)%nat -> (m < i + c)%nat -> (i mod c)%nat ≠ (m mod c)%nat.
Proof.
  intros Him Hmc E.
  pose proof (Nat.div_mod_eq i c) as Hi.
  pose proof (Nat.div_mod_eq m c) as Hm.
  rewrite E in Hi.
  destruct (Nat.lt_ge_cases (i / c) (m / c)) as [Hlt|Hge].
  - pose proof (Nat.mul_le_mono_l (i / c + 1) (m / c) c). lia.
  - pose proof (Nat.mul_le_mono_l (m / c) (i / c) c). lia.
Qed.


Lemma zeros_rows (shp : list Z) (d : dtype) (a : ndarray Row) :
  zeros shp d = Ok a -> length (rows a) = Z.to_nat (hd 0 shp).
Proof.
  unfold zeros. destruct (forallb _ shp); [|done].
  intros [= <-]. cbn. apply length_replicate.
Qed.

Lemma init_inv (obs_dim act_dim : shape_arg) (C : Z) (b0 : t Row) :
  1 <= C -> __init__ obs_dim act_dim C = Ok b0 -> ring_inv C [] b0.
Proof.
  intros HC. unfold __init__.
  destruct (zeros (combined_shape C obs_dim) float32) as [o|] eqn:Eo; [|done].
  destruct (zeros (combined_shape C act_dim) float32) as [a|] eqn:Ea; [|done].
  destruct (zeros [C] float32) as [z|] eqn:Ez; [|done].
  intros [= <-].
  apply zeros_rows in Eo, Ea, Ez.
  assert (Hhd : forall sh, hd 0 (combined_shape C sh) = C) by (by intros []).
  rewrite Hhd in Eo, Ea. cbn in Ez.
  split; [split; cbn; lia| | | | |]; cbn; try done; lia.
Qed.

Lemma stored_inv (C : Z) ts (b : t Row) (tr : Transition Row) :
  1 <= C -> ring_inv C ts b -> ring_inv C (ts ++ [tr]) (stored b tr).
Proof.
  intros HC [Hwf Hcap Hptr Hsize Hrec Hfill].
  assert (Hc : (0 < Z.to_nat C)%nat) by lia.
  assert (Hp : Z.to_nat (ptr b) = (length ts mod Z.to_nat C)%nat).
  { rewrite Hptr, <- (Z2Nat.id C) at 1 by lia.
    rewrite <- Nat2Z.inj_mod. apply Nat2Z.id. }
  split.
  - by apply stored_wf.
  - done.
  - cbn. rewrite Hcap, Hptr, length_app. cbn.
    rewrite Nat2Z.inj_add. cbn. by rewrite Zplus_mod_idemp_l.
  - cbn. rewrite Hcap, Hsize, length_app. cbn. lia.
  - intros i x Hi Hlen. rewrite length_app in Hlen. cbn in Hlen.
    destruct (decide (i = length ts)) as [->|Hne].
    + rewrite lookup_app_r, Nat.sub_diag in Hi by lia. injection Hi as <-.
      rewrite <- Hp. by apply slot_stored_eq.
    + assert (Hlt : (i < length ts)%nat).
      { apply lookup_lt_Some in Hi. rewrite length_app in Hi. cbn in Hi. lia. }
      rewrite lookup_app_l in Hi by done.
      rewrite slot_stored_ne.
      * apply Hrec; [done|lia].
      * rewrite Hp. apply mod_apart; lia.
  - intros i Hi. cbn in Hi. rewrite Hcap, Hsize in Hi.
    destruct (decide (i = Z.to_nat (ptr b))) as [->|Hne].
    + exists tr. split; [by apply slot_stored_eq|]. set_solver.
    + rewrite slot_stored_ne by done.
      destruct (Hfill i) as (x & Hx & Hin).
      * rewrite Hsize.
        destruct (Z.le_gt_cases C (Z.of_nat (length ts))); [lia|].
        rewrite Hp, Nat.mod_small in Hne by lia. lia.
      * exists x. split; [done|]. set_solver.
Qed.

Lemma stores_inv (C : Z) (b0 : t Row) (ts : list (Transition Row)) :
  1 <= C -> ring_inv C [] b0 ->
  exists b, stores ts b0 = (Ok tt, b) /\ ring_inv C ts b.
Proof.
  intros HC H0. induction ts as [|tr ts IH] using rev_ind.
  - by exists b0.
  - destruct IH as (b & Hrun & Hinv).
    exists (stored b tr). split; [|by apply stored_inv].
    unfold stores in *. rewrite for_each_app. unfold Py.bind at 1.
    rewrite Hrun. cbn [for_each]. unfold Py.bind.
    rewrite store_wf by apply Hinv. done.
Qed.

Lemma randint_range (s n : Z) (g : Rng) :
  1 <= s -> 0 <= n ->
  exists idxs g',
    randint 0 s n g = (Ok idxs, g') /\
    length idxs = Z.to_nat n /\
    Forall (fun i => 0 <= i < s) idxs.
Proof.
  intros Hs Hn. unfold randint.
  destruct (Z.eqb_spec n 0) as [->|Hn0].
  { by exists [], g. }
  destruct (Z.leb_spec s 0); [lia|].
  destruct (Z.ltb_spec n 0); [lia|].
  eexists _, _. split; [done|]. split.
  - by rewrite length_map, length_seq.
  - apply Forall_forall. intros i Hi.
    apply list_elem_of_fmap in Hi as (j & -> & _).
    pose proof (Z.mod_pos_bound (g j) (s - 0)). lia.
Qed.

Lemma gather_in_range (rs : list Row) (idxs : list Z) :
  Forall (fun i => 0 <= i < Z.of_nat (length rs)) idxs ->
  exists out,
    gather rs idxs = Ok out /\
    length out = length idxs /\
    forall j i, idxs !! j = Some i -> out !! j = rs !! Z.to_nat i.
Proof.
  induction 1 as [|i idxs Hi _ (out & Hout & Hlen & Hnth)].
  - exists []. by split.
  - cbn [gather]. rewrite index_in_range by done.
    destruct (lookup_lt_is_Some_2 rs (Z.to_nat i)) as [r Hr]; [lia|].
    rewrite Hr, Hout. exists (r :: out). split; [done|]. split.
    + cbn. by rewrite Hlen.
    + intros [|j] i'; cbn; [by intros [= <-]|apply Hnth].
Qed.

Lemma getitems_in_range (a : ndarray Row) (idxs : list Z) (s : Z) :
  s <= Z.of_nat (length (rows a)) ->
  Forall (fun i => 0 <= i < s) idxs ->
  exists out,
    getitems a idxs = Ok out /\
    hd_error (shape out) = Some (Z.of_nat (length idxs)) /\
    length (rows out) = length idxs /\
    forall j i, idxs !! j = Some i -> rows out !! j = rows a !! Z.to_nat i.
Proof.
  intros Hs Hidx.
  destruct (gather_in_range (rows a) idxs) as (out & Hout & Hlen & Hnth).
  { eapply Forall_impl; [exact Hidx|]. cbn. lia. }
  unfold getitems. rewrite Hout. by eexists.
Qed.


(** A buffer without slots takes no transition. *)
Lemma store_no_slot (b : t Row) (tr : Transition Row) :
  length (rows (obs_buf b)) = 0%nat ->
  store_transition tr b = (Raise IndexError, b).
Proof.
  intros Hlen.
  unfold store_transition, store, assign, Py.bind, Py.get, Py.lift, setitem, index.
  rewrite Hlen. change (Z.of_nat 0) with 0. change (- 0) with 0.
  destruct (Z.leb_spec 0 (ptr b)), (Z.ltb_spec (ptr b) 0); done || lia.
Qed.

(** A created buffer that holds a transition has a capacity of at least one. *)
Lemma filled_capacity (obs_dim act_dim : shape_arg) (C : Z)
    (ts : list (Transition Row)) (b0 b : t Row) :
  __init__ obs_dim act_dim C = Ok b0 ->
  stores ts b0 = (Ok tt, b) ->
  1 <= size b -> 1 <= C.
Proof.
  intros Hinit Hrun Hs.
  destruct (Z.le_gt_cases 1 C) as [|Hlt]; [done|]. exfalso.
  revert Hinit. unfold __init__.
  destruct (zeros (combined_shape C obs_dim) float32) as [o|] eqn:Eo; [|done].
  destruct (zeros (combined_shape C act_dim) float32) as [a|] eqn:Ea; [|done].
  destruct (zeros [C] float32) as [z|] eqn:Ez; [|done].
  intros [= <-].
  apply zeros_rows in Eo.
  assert (Hhd : forall sh, hd 0 (combined_shape C sh) = C) by (by intros []).
  rewrite Hhd in Eo.
  destruct ts as [|tr ts].
  - injection Hrun as <-. cbn in Hs. lia.
  - unfold stores in Hrun. cbn [for_each] in Hrun. unfold Py.bind in Hrun.
    rewrite store_no_slot in Hrun by (cbn; lia). done.
Qed.

(** C7: sampling [n] entries from a buffer that holds [s >= 1] transitions
    returns a batch whose seven fields have exactly [n] entries, and every
    entry, read across the fields at one index, is the content of one of the
    [s] filled slots, which is one of the transitions stored so far. *)
Theorem sample_batch_membership (obs_dim act_dim : shape_arg) (C : Z)
    (ts : list (Transition Row)) (b0 b : t Row) (n : Z) (g : Rng) :
  __init__ obs_dim act_dim C = Ok b0 ->
  stores ts b0 = (Ok tt, b) ->
  1 <= size b ->
  0 <= n ->
  exists batch g',
    sample_batch n (b, g) = (Ok batch, (b, g')) /\
    Forall (has_entries n)
      [b_obs batch; b_obs2 batch; b_act batch; b_rew batch; b_done batch;
       b_lx batch; b_gx batch] /\
    forall j, (j < Z.to_nat n)%nat ->
      exists i tr,
        (i < Z.to_nat (size b))%nat /\ slot b i = Some tr /\ tr ∈ ts /\
        entry batch j = Some tr.
Proof.
  intros Hinit Hrun Hs Hn.
  pose proof (filled_capacity _ _ _ _ _ _ Hinit Hrun Hs) as HC.
  destruct (stores_inv C b0 ts HC (init_inv _ _ _ _ HC Hinit))
    as (b' & Hrun' & [Hwf Hcap Hptr Hsize Hrec Hfill]).
  rewrite Hrun in Hrun'. injection Hrun' as <-.
  destruct Hwf as [_ _ Hsz Ho Ho2 Ha Hr Hd Hl Hg].
  destruct (randint_range (size b) n g Hs Hn) as (idxs & g' & Hri & Hlen & Hidx).
  destruct (getitems_in_range (obs_buf b) idxs (size b)) as (o & Eo & So & Lo & No);
    [lia|done|].
  destruct (getitems_in_range (obs2_buf b) idxs (size b)) as (o2 & Eo2 & So2 & Lo2 & No2);
    [lia|done|].
  destruct (getitems_in_range (act_buf b) idxs (size b)) as (a & Ea & Sa & La & Na);
    [lia|done|].
  destruct (getitems_in_range (rew_buf b) idxs (size b)) as (r & Er & Sr & Lr & Nr);
    [lia|done|].
  destruct (getitems_in_range (done_buf b) idxs (size b)) as (d & Ed & Sd & Ld & Nd);
    [lia|done|].
  destruct (getitems_in_range (lx_buf b) idxs (size b)) as (l & El & Sl & Ll & Nl);
    [lia|done|].
  destruct (getitems_in_range (gx_buf b) idxs (size b)) as (x & Ex & Sx & Lx & Nx);
    [lia|done|].
  eexists _, g'. split.
  { unfold sample_batch. cbn [fst snd]. rewrite Hri, Eo, Eo2, Ea, Er, Ed, El, Ex.
    reflexivity. }
  assert (Hn' : Z.of_nat (length idxs) = n) by lia.
  split.
  { repeat apply Forall_cons_2; try apply Forall_nil_2;
      (split; cbn; [congruence|lia]). }
  intros j Hj.
  destruct (lookup_lt_is_Some_2 idxs j) as [i Hi]; [lia|].
  pose proof (proj1 (Forall_lookup _ _) Hidx j i Hi) as Hir. cbn in Hir.
  destruct (Hfill (Z.to_nat i)) as (tr & Htr & Hin); [lia|].
  exists (Z.to_nat i), tr. split; [lia|]. split; [done|]. split; [done|].
  unfold entry. cbn.
  rewrite (No _ _ Hi), (No2 _ _ Hi), (Na _ _ Hi), (Nr _ _ Hi), (Nd _ _ Hi),
    (Nl _ _ Hi), (Nx _ _ Hi).
  exact Htr.
Qed.

End ReplayBufferFacts.

(** ** [ReplayBuffer.store] of the values a caller passes *)

Section ReplayBufferValuesFacts.
Import Np ReplayBuffer.
Context {Val Row : Type} `{RowType Row} `{NpValues.Conversion Val Row}.

(** Assigning a value that can be converted writes the row it is converted
    to. *)
Lemma setitem_converted (a : ndarray Row) (i : Z) (v : Val) (row : Row) :
  NpValues.convert (dt a) (tl (shape a)) v = Ok row ->
  NpValues.setitem a i v = setitem a i row.
Proof.
  intros Hc. unfold NpValues.setitem, setitem.
  destruct (index _ i); [|done]. by rewrite Hc.
Qed.

Lemma bind_assign_converted {B} (buf : t Row -> ndarray Row) set_buf
    (v : Val) (row : Row) (k k' : unit -> M (t Row) B) (b : t Row) :
  NpValues.convert (dt (buf b)) (tl (shape (buf b))) v = Ok row ->
  (forall a, k tt (set_buf a b) = k' tt (set_buf a b)) ->
  Py.bind (ReplayBufferValues.assign buf set_buf v) k b
  = Py.bind (assign buf set_buf row) k' b.
Proof.
  intros Hc Hk.
  unfold ReplayBufferValues.assign, assign, Py.bind, Py.get, Py.lift,
    Py.modify.
  rewrite (setitem_converted _ _ _ _ Hc).
  destruct (setitem (buf b) (ptr b) row); [apply Hk|done].
Qed.

(** A store of values that can be converted is the store of the rows they
    are converted to. *)
Lemma store_converted (b : t Row) (tr : Transition Val) (tr' : Transition Row) :
  ReplayBufferValues.as_stored b tr = Ok tr' ->
  ReplayBufferValues.store_transition tr b = store_transition tr' b.
Proof.
  unfold ReplayBufferValues.as_stored.
  destruct (NpValues.convert _ _ (t_obs tr)) as [o|] eqn:Eo; [|done].
  destruct (NpValues.convert _ _ (t_next_obs tr)) as [o2|] eqn:Eo2; [|done].
  destruct (NpValues.convert _ _ (t_act tr)) as [a|] eqn:Ea; [|done].
  destruct (NpValues.convert _ _ (t_rew tr)) as [r|] eqn:Er; [|done].
  destruct (NpValues.convert _ _ (t_done tr)) as [d|] eqn:Ed; [|done].
  destruct (NpValues.convert _ _ (t_lx tr)) as [l|] eqn:El; [|done].
  destruct (NpValues.convert _ _ (t_gx tr)) as [g|] eqn:Eg; [|done].
  cbn [rbind]. intros [= <-].
  unfold ReplayBufferValues.store_transition, store_transition,
    ReplayBufferValues.store, store.
  cbn [t_obs t_act t_rew t_next_obs t_done t_lx t_gx].
  apply bind_assign_converted; [done|]. intros a1.
  apply bind_assign_converted; [done|]. intros a2.
  apply bind_assign_converted; [done|]. intros a3.
  apply bind_assign_converted; [done|]. intros a4.
  apply bind_assign_converted; [done|]. intros a5.
  apply bind_assign_converted; [done|]. intros a6.
  apply bind_assign_converted; [done|]. intros a7.
  reflexivity.
Qed.

Lemma stored_layout (b : t Row) (tr : Transition Row) :
  ReplayBufferValues.same_layout b (stored b tr).
Proof. by repeat split. Qed.

Lemma same_layout_refl (b : t Row) : ReplayBufferValues.same_layout b b.
Proof. by repeat split. Qed.

Lemma same_layout_trans (b1 b2 b3 : t Row) :
  ReplayBufferValues.same_layout b1 b2 ->
  ReplayBufferValues.same_layout b2 b3 ->
  ReplayBufferValues.same_layout b1 b3.
Proof.
  unfold ReplayBufferValues.same_layout. intros ? ?. intuition congruence.
Qed.

Lemma as_stored_layout (b b' : t Row) (tr : Transition Val) :
  ReplayBufferValues.same_layout b b' ->
  ReplayBufferValues.as_stored b' tr = ReplayBufferValues.as_stored b tr.
Proof.
  intros (E1 & E2 & E3 & E4 & E5 & E6 & E7).
  unfold ReplayBufferValues.as_stored.
  injection E1 as -> ->. injection E2 as -> ->. injection E3 as -> ->.
  injection E4 as -> ->. injection E5 as -> ->. injection E6 as -> ->.
  injection E7 as -> ->. reflexivity.
Qed.

(** Stores of rows keep the dtypes and the shapes of the arrays. *)
Lemma stores_layout (C : Z) (b0 : t Row) (ts : list (Transition Row)) :
  1 <= C -> ring_inv C [] b0 ->
  exists b,
    stores ts b0 = (Ok tt, b) /\ ring_inv C ts b /\
    ReplayBufferValues.same_layout b0 b.
Proof.
  intros HC Hring. induction ts as [|tr ts IH] using rev_ind.
  - exists b0. split; [done|]. split; [done|]. apply same_layout_refl.
  - destruct IH as (b & Hrun & Hinv & Hlay).
    exists (stored b tr). split; [|split].
    + unfold stores in *. rewrite for_each_app.
      unfold Py.bind at 1. rewrite Hrun. cbn [for_each]. unfold Py.bind.
      rewrite store_wf by apply Hinv. done.
    + by apply stored_inv.
    + eapply same_layout_trans; [exact Hlay|apply stored_layout].
Qed.

(** The stores of values whose conversions are [ts'] are the stores of
    [ts']. *)
Lemma stores_converted (C : Z) (b0 : t Row) (ts : list (Transition Val))
    (ts' : list (Transition Row)) :
  1 <= C -> ring_inv C [] b0 ->
  Forall2 (fun tr tr' => ReplayBufferValues.as_stored b0 tr = Ok tr') ts ts' ->
  ReplayBufferValues.stores ts b0 = stores ts' b0.
Proof.
  intros HC Hring. revert ts'.
  induction ts as [|tr ts IH] using rev_ind; intros ts' Hconv.
  - by apply Forall2_nil_inv_l in Hconv as ->.
  - apply Forall2_app_inv_l in Hconv as (ts1 & ts2 & Hts & Htr & ->).
    apply Forall2_cons_inv_l in Htr as (tr' & ts3 & Htr & Hnil & ->).
    apply Forall2_nil_inv_l in Hnil as ->.
    destruct (stores_layout C b0 ts1 HC Hring) as (b & Hrun & _ & Hlay).
    unfold ReplayBufferValues.stores, stores in *. rewrite !for_each_app.
    unfold Py.bind at 1 2. rewrite (IH ts1 Hts), Hrun. cbn [for_each].
    unfold Py.bind.
    by rewrite (store_converted b tr tr')
      by (by rewrite (as_stored_layout b0 b)).
Qed.

(** C1: a buffer created with capacity [C >= 1] that receives [C + k] stores
    of values that its arrays can take ends with size [C]; the write pointer
    stands on the oldest retained transition; the [j]-th of the last [C]
    stored transitions sits in slot [(k + j) mod C], as the float32 arrays
    hold it ([ts'] are the transitions [ts] broadcast to the shapes of the
    slots and rounded to float32); so the [C] slots hold exactly the last
    [C] transitions and the older ones were evicted first. *)
Theorem replay_buffer_fifo (obs_dim act_dim : shape_arg) (C : Z) (k : nat)
    (ts : list (Transition Val)) (ts' : list (Transition Row)) (b0 : t Row) :
  1 <= C ->
  __init__ obs_dim act_dim C = Ok b0 ->
  length ts = (Z.to_nat C + k)%nat ->
  Forall2 (fun tr tr' => ReplayBufferValues.as_stored b0 tr = Ok tr') ts ts' ->
  exists b,
    ReplayBufferValues.stores ts b0 = (Ok tt, b) /\
    size b = C /\
    ptr b = Z.of_nat k mod C /\
    (forall j, (j < Z.to_nat C)%nat ->
       is_Some (ts' !! (k + j)%nat) /\
       slot b ((k + j) mod Z.to_nat C) = ts' !! (k + j)%nat) /\
    (forall i, (i < Z.to_nat C)%nat ->
       exists tr, slot b i = Some tr /\ tr ∈ drop k ts').
Proof.
  intros HC Hinit Hlen Hconv.
  rewrite (stores_converted C b0 ts ts' HC (init_inv _ _ _ _ HC Hinit) Hconv).
  destruct (stores_inv C b0 ts' HC (init_inv _ _ _ _ HC Hinit))
    as (b & Hrun & [Hwf Hcap Hptr Hsize Hrec Hfill]).
  apply Forall2_length in Hconv. rewrite Hconv in Hlen.
  exists b. split; [done|]. split; [lia|]. split.
  { rewrite Hptr, Hlen, Nat2Z.inj_add, Z2Nat.id by lia.
    rewrite <- Zplus_mod_idemp_l, Z.mod_same by lia. done. }
  assert (Hslots : forall j, (j < Z.to_nat C)%nat ->
     is_Some (ts' !! (k + j)%nat) /\
     slot b ((k + j) mod Z.to_nat C) = ts' !! (k + j)%nat).
  { intros j Hj.
    destruct (lookup_lt_is_Some_2 ts' (k + j)) as [tr Htr]; [lia|].
    split; [by exists tr|]. rewrite Htr. apply Hrec; [done|lia]. }
  split; [done|].
  intros i Hi.
  (* slot [i] is reached from the history position [k + j] with
     [j = (i + C - k mod C) mod C] *)
  set (c := Z.to_nat C) in *.
  set (j := ((i + c - k mod c) mod c)%nat).
  assert (Hj : (j < c)%nat) by (apply Nat.mod_upper_bound; lia).
  assert (Hkj : ((k + j) mod c = i)%nat).
  { unfold j. rewrite Nat.Div0.add_mod_idemp_r.
    pose proof (Nat.mod_upper_bound k c ltac:(lia)) as Hk.
    replace (k + (i + c - k mod c))%nat
      with ((k - k mod c) + i + 1 * c)%nat.
    2:{ pose proof (Nat.Div0.mod_le k c). lia. }
    rewrite Nat.Div0.mod_add.
    pose proof (Nat.div_mod_eq k c) as Hdm.
    replace (k - k mod c)%nat with (k / c * c)%nat by lia.
    rewrite Nat.add_comm, Nat.Div0.mod_add. apply Nat.mod_small. lia. }
  destruct (Hslots j Hj) as [[tr Htr] Hs].
  exists tr. rewrite <- Hkj, Hs. split; [done|].
  apply list_elem_of_lookup. exists j. by rewrite lookup_drop.
Qed.

End ReplayBufferValuesFacts.

(** ** Cost shaping and termination of [BaseMujocoEnv] *)

Section EnvFacts.
Import BaseMujocoEnv.
Context {F : Type} `{Scalar F}.
Context {Sim State : Type} `{Capabilities Sim State}.


Lemma eqb_ne (a b : string) : a ≠ b -> String.eqb a b = false.
Proof. apply String.eqb_neq. Qed.

(** C9: a [costType] outside the four recognised values makes [get_cost]
    raise [ValueError] and return no cost, and a [doneType] outside the five
    recognised values makes [get_done] raise [ValueError] and return no flag;
    neither call has changed anything when it raises. *)
Theorem invalid_configuration :
  (forall (self : t F Sim) l_x g_x success fail h,
     costType self ∉ cost_kinds ->
     get_cost self l_x g_x success fail h
     = (Raise (ValueError "invalid cost type!"), h)) /\
  (forall (self : t F Sim) (state : State) success fail,
     doneType self ∉ done_kinds ->
     get_done state success fail self
     = (Raise (ValueError "invalid done type!"), self)).
Proof.
  split.
  - intros self l_x g_x success fail h Hk. unfold cost_kinds in Hk.
    unfold get_cost, Py.bind.
    rewrite !eqb_ne by set_solver. done.
  - intros self state success fail Hk. unfold done_kinds in Hk.
    unfold get_done, Py.bind, Py.get.
    rewrite !eqb_ne by set_solver. done.
Qed.

Lemma elementwise_same_length (op : F -> F -> F) (l_x g_x : ref) (h : heap F)
    (l g : list F) :
  h !! l_x = Some l -> h !! g_x = Some g -> length l = length g ->
  elementwise op l_x g_x h = (Ok (VArr (length h)), h ++ [zip_with op l g]).
Proof.
  intros Hl Hg Hlen.
  unfold elementwise, Py.bind, deref, Py.lift, alloc, broadcast2, Py.ret.
  rewrite Hl, Hg, Hlen, Nat.eqb_refl. done.
Qed.

(** C2: without reward shaping, for each of the four cost kinds and whatever
    the return type, [get_cost] returns the documented cost of the margins it
    was given (the target margin itself, the elementwise sum, the float zero,
    the elementwise minimum in reward mode and maximum otherwise) and hands
    back the two margins as they were. *)
Theorem get_cost_formula (self : t F Sim) (l_x g_x : ref)
    (success fail : list bool) (h : heap F) (l g : list F) :
  costType self ∈ cost_kinds ->
  default false (shape_reward self) = false ->
  h !! l_x = Some l -> h !! g_x = Some g -> length l = length g ->
  exists cost h',
    get_cost self l_x g_x success fail h = (Ok (cost, l_x, g_x), h') /\
    read h' cost
    = documented_cost (costType self)
        (str_contains "reward" (return_type self)) l g /\
    h' !! l_x = Some l /\ h' !! g_x = Some g.
Proof.
  intros Hk Hshape Hl Hg Hlen.
  unfold get_cost, documented_cost. rewrite Hshape.
  assert (Hl' : forall x, (h ++ [x]) !! l_x = Some l)
    by (intros x; by apply lookup_app_l_Some).
  assert (Hg' : forall x, (h ++ [x]) !! g_x = Some g)
    by (intros x; by apply lookup_app_l_Some).
  unfold cost_kinds in Hk.
  repeat (apply elem_of_cons in Hk as [->|Hk]); [| | | |by apply elem_of_nil in Hk];
    cbn [String.eqb Ascii.eqb Bool.eqb].
  - eexists _, _. split; [reflexivity|]. cbn. by rewrite Hl.
  - unfold Py.bind at 1 2. rewrite (elementwise_same_length _ _ _ _ l g) by done.
    eexists _, _. split; [reflexivity|]. cbn.
    by rewrite lookup_app_r, Nat.sub_diag by lia.
  - eexists _, _. split; [reflexivity|]. by cbn.
  - destruct (str_contains "reward" (return_type self));
      unfold Py.bind at 1 2; rewrite (elementwise_same_length _ _ _ _ l g) by done;
      (eexists _, _; split; [reflexivity|]); cbn;
      by rewrite lookup_app_r, Nat.sub_diag by lia.
Qed.

Lemma setmask_bind {B} (r : ref) (mask : list bool) (x : F)
    (k : unit -> M (heap F) B) (h : heap F) (a : list F) :
  h !! r = Some a -> length mask = length a ->
  Py.bind (setmask (VArr r) mask x) k h = k tt (<[r := mask_write mask x a]> h).
Proof.
  intros Hr Hlen. unfold setmask, Py.bind, deref, Py.modify.
  by rewrite Hr, Hlen, Nat.eqb_refl.
Qed.

Lemma mask_write_length (mask : list bool) (x : F) (a : list F) :
  length mask = length a -> length (mask_write mask x a) = length a.
Proof. intros Hlen. unfold mask_write. rewrite length_zip_with. lia. Qed.

Lemma mask_write_true (mask : list bool) (x : F) (a : list F) (i : nat) :
  length mask = length a -> mask !! i = Some true ->
  mask_write mask x a !! i = Some x.
Proof.
  intros Hlen Hi. unfold mask_write. rewrite lookup_zip_with, Hi. cbn.
  destruct (lookup_lt_is_Some_2 a i) as [y ->]; [|done].
  apply lookup_lt_Some in Hi. lia.
Qed.

Lemma mask_write_false (mask : list bool) (x : F) (a : list F) (i : nat) :
  mask !! i = Some false -> mask_write mask x a !! i = a !! i.
Proof.
  intros Hi. unfold mask_write. rewrite lookup_zip_with, Hi. cbn.
  by destruct (a !! i).
Qed.

(** The four assignments of the shaping block, on a cost held in the array
    [c], which is the target margin itself or an array of its own. *)
Lemma shaping_block (c l_x g_x : ref) (success fail : list bool) (p q : F)
    (h : heap F) (cv l g : list F) :
  h !! c = Some cv -> h !! l_x = Some l -> h !! g_x = Some g ->
  l_x ≠ g_x -> c ≠ g_x ->
  length cv = length l -> length g = length l ->
  length success = length l -> length fail = length l ->
  exists h' c' l',
    (setmask (VArr c) success p >> setmask (VArr c) fail q >>
     setmask (VArr l_x) success p >> setmask (VArr g_x) fail q) h
    = (Ok tt, h') /\
    h' !! c = Some c' /\ h' !! l_x = Some l' /\
    forall i, success !! i = Some true ->
      l' !! i = Some p /\ (fail !! i = Some false -> c' !! i = Some p).
Proof.
  intros Hc Hl Hg Hlg Hcg Lc Lg Ls Lf.
  pose proof (lookup_lt_Some _ _ _ Hc) as Bc.
  pose proof (lookup_lt_Some _ _ _ Hl) as Bl.
  pose proof (lookup_lt_Some _ _ _ Hg) as Bg.
  set (c1 := mask_write success p cv).
  set (c2 := mask_write fail q c1).
  assert (L1 : length c1 = length l)
    by (unfold c1; rewrite mask_write_length; lia).
  assert (L2 : length c2 = length l)
    by (unfold c2; rewrite mask_write_length; lia).
  rewrite (setmask_bind c success p _ h cv) by (done || lia).
  rewrite (setmask_bind c fail q _ _ c1)
    by (by rewrite ?list_lookup_insert_eq || lia).
  rewrite list_insert_insert_eq. fold c2.
  destruct (decide (c = l_x)) as [->|Hcl].
  - (* the cost is the target margin itself *)
    set (l3 := mask_write success p c2).
    rewrite (setmask_bind l_x success p _ _ c2)
      by (by rewrite ?list_lookup_insert_eq || lia).
    rewrite list_insert_insert_eq. fold l3.
    assert (Hg3 : <[l_x := l3]> h !! g_x = Some g)
      by (by rewrite list_lookup_insert_ne).
    exists (<[g_x := mask_write fail q g]> (<[l_x := l3]> h)), l3, l3.
    split.
    { unfold setmask, Py.bind, deref, Py.modify. rewrite Hg3.
      replace (length fail =? length g)%nat with true; [done|].
      symmetry. apply Nat.eqb_eq. lia. }
    assert (Hl3 : <[g_x := mask_write fail q g]> (<[l_x := l3]> h) !! l_x = Some l3).
    { rewrite list_lookup_insert_ne by done. by rewrite list_lookup_insert_eq. }
    split; [done|]. split; [done|].
    intros i Hi.
    assert (l3 !! i = Some p) by (apply mask_write_true; [lia|done]).
    done.
  - set (l3 := mask_write success p l).
    assert (Hl2 : <[c := c2]> h !! l_x = Some l)
      by (by rewrite list_lookup_insert_ne).
    rewrite (setmask_bind l_x success p _ _ l) by (done || lia). fold l3.
    assert (Hg3 : <[l_x := l3]> (<[c := c2]> h) !! g_x = Some g)
      by (by rewrite !list_lookup_insert_ne).
    exists (<[g_x := mask_write fail q g]> (<[l_x := l3]> (<[c := c2]> h))), c2, l3.
    split.
    { unfold setmask, Py.bind, deref, Py.modify. rewrite Hg3.
      replace (length fail =? length g)%nat with true; [done|].
      symmetry. apply Nat.eqb_eq. lia. }
    split.
    { rewrite !list_lookup_insert_ne by done. by rewrite list_lookup_insert_eq. }
    split.
    { rewrite list_lookup_insert_ne by done.
      by rewrite list_lookup_insert_eq by (by rewrite length_insert). }
    intros i Hi. split.
    + apply mask_write_true; [lia|done].
    + intros Hf. unfold c2. rewrite mask_write_false by done.
      apply mask_write_true; [lia|done].
Qed.


Lemma bind_elementwise {B} (op : F -> F -> F) (l_x g_x : ref)
    (k : value -> M (heap F) B) (h : heap F) (l g : list F) :
  h !! l_x = Some l -> h !! g_x = Some g -> length l = length g ->
  Py.bind (elementwise op l_x g_x) k h
  = k (VArr (length h)) (h ++ [zip_with op l g]).
Proof.
  intros Hl Hg Hlen. unfold Py.bind at 1.
  by rewrite (elementwise_same_length _ _ _ _ l g).
Qed.

(** C3, as the code has it: with reward shaping on and a cost kind that
    yields an array, [get_cost] returns, and at every entry whose success
    flag is true the returned target margin is the bonus (negated in reward
    mode) whatever the margins and the failure flag were, and the returned
    cost is the bonus as well when the entry's failure flag is false.  The
    two margins are distinct arrays of the batch length. *)
Theorem shaped_success_entries (self : t F Sim) (l_x g_x : ref)
    (success fail : list bool) (h : heap F) (l g : list F) :
  default false (shape_reward self) = true ->
  costType self ∈ shaped_cost_kinds ->
  h !! l_x = Some l -> h !! g_x = Some g -> l_x ≠ g_x ->
  length g = length l -> length success = length l ->
  length fail = length l ->
  exists c h' c' l',
    get_cost self l_x g_x success fail h = (Ok (VArr c, l_x, g_x), h') /\
    h' !! c = Some c' /\ h' !! l_x = Some l' /\
    forall i, success !! i = Some true ->
      l' !! i = Some (bonus self) /\
      (fail !! i = Some false -> c' !! i = Some (bonus self)).
Proof.
  intros Hshape Hk Hl Hg Hlg Lg Ls Lf.
  pose proof (lookup_lt_Some _ _ _ Hl) as Bl.
  pose proof (lookup_lt_Some _ _ _ Hg) as Bg.
  unfold get_cost, bonus. rewrite Hshape.
  assert (Hfresh : forall op,
    exists h' c' l',
      (if str_contains "reward" (return_type self)
       then setmask (VArr (length h)) success (fmul fminus_one (reward self)) >>
            setmask (VArr (length h)) fail (fmul fminus_one (penalty self)) >>
            setmask (VArr l_x) success (fmul fminus_one (reward self)) >>
            setmask (VArr g_x) fail (fmul fminus_one (penalty self))
       else setmask (VArr (length h)) success (reward self) >>
            setmask (VArr (length h)) fail (penalty self) >>
            setmask (VArr l_x) success (reward self) >>
            setmask (VArr g_x) fail (penalty self))
        (h ++ [zip_with op l g]) = (Ok tt, h') /\
      h' !! length h = Some c' /\ h' !! l_x = Some l' /\
      forall i, success !! i = Some true ->
        l' !! i = Some (if str_contains "reward" (return_type self)
                        then fmul fminus_one (reward self) else reward self) /\
        (fail !! i = Some false ->
         c' !! i = Some (if str_contains "reward" (return_type self)
                         then fmul fminus_one (reward self) else reward self))).
  { intros op.
    destruct (str_contains "reward" (return_type self));
      apply (shaping_block _ _ _ _ _ _ _ _ (zip_with op l g) l g);
      try (by apply lookup_app_l_Some); try lia;
      try (by rewrite lookup_app_r, Nat.sub_diag by lia);
      rewrite length_zip_with; lia. }
  unfold shaped_cost_kinds in Hk.
  repeat (apply elem_of_cons in Hk as [->|Hk]); [| | |by apply elem_of_nil in Hk];
    cbn [String.eqb Ascii.eqb Bool.eqb].
  - (* dense_ell: the cost is the target margin array *)
    assert (exists h' c' l',
      (if str_contains "reward" (return_type self)
       then setmask (VArr l_x) success (fmul fminus_one (reward self)) >>
            setmask (VArr l_x) fail (fmul fminus_one (penalty self)) >>
            setmask (VArr l_x) success (fmul fminus_one (reward self)) >>
            setmask (VArr g_x) fail (fmul fminus_one (penalty self))
       else setmask (VArr l_x) success (reward self) >>
            setmask (VArr l_x) fail (penalty self) >>
            setmask (VArr l_x) success (reward self) >>
            setmask (VArr g_x) fail (penalty self)) h = (Ok tt, h') /\
      h' !! l_x = Some c' /\ h' !! l_x = Some l' /\
      forall i, success !! i = Some true ->
        l' !! i = Some (if str_contains "reward" (return_type self)
                        then fmul fminus_one (reward self) else reward self) /\
        (fail !! i = Some false ->
         c' !! i = Some (if str_contains "reward" (return_type self)
                         then fmul fminus_one (reward self) else reward self)))
      as (h' & c' & l' & Hrun & Hc' & Hl' & Hent).
    { destruct (str_contains "reward" (return_type self));
        by apply (shaping_block _ _ _ _ _ _ _ _ l l g). }
    exists l_x, h', c', l'. split; [|done].
    unfold Py.bind at 1 2. cbn [Py.ret]. by rewrite Hrun.
  - destruct (Hfresh fadd) as (h' & c' & l' & Hrun & Hc' & Hl' & Hent).
    exists (length h), h', c', l'. split; [|done].
    rewrite (bind_elementwise _ _ _ _ _ l g) by done.
    unfold Py.bind at 1. by rewrite Hrun.
  - destruct (str_contains "reward" (return_type self)) eqn:Hmode.
    + destruct (Hfresh fminimum) as (h' & c' & l' & Hrun & Hc' & Hl' & Hent).
      exists (length h), h', c', l'. split; [|done].
      rewrite (bind_elementwise _ _ _ _ _ l g) by done.
      unfold Py.bind at 1. by rewrite Hrun.
    + destruct (Hfresh fmaximum) as (h' & c' & l' & Hrun & Hc' & Hl' & Hent).
      exists (length h), h', c', l'. split; [|done].
      rewrite (bind_elementwise _ _ _ _ _ l g) by done.
      unfold Py.bind at 1. by rewrite Hrun.
Qed.

(** With the cost kind [sparse] the cost is the float [0.], which takes no
    item assignment: under reward shaping the call raises [TypeError] and
    returns nothing, with the margins untouched. *)
Lemma sparse_shaping_raises (self : t F Sim) (l_x g_x : ref)
    (success fail : list bool) (h : heap F) :
  costType self = "sparse" ->
  default false (shape_reward self) = true ->
  get_cost self l_x g_x success fail h = (Raise TypeError, h).
Proof.
  intros Hk Hshape. unfold get_cost. rewrite Hk, Hshape.
  cbn [String.eqb Ascii.eqb Bool.eqb].
  by destruct (str_contains "reward" (return_type self)).
Qed.

(** One call of [get_done] leaves the tag alone, or writes ["out_of_env"]
    over [None], or writes ["success"] in a call whose success flag is set. *)
Lemma get_done_tag (state : State) (success fail : bool) (s s' : t F Sim)
    (r : result bool) :
  get_done state success fail s = (r, s') ->
  s' = s \/
  (failure_mode s = None /\ s' = set_failure_mode (Some "out_of_env") s) \/
  (success = true /\ s' = set_failure_mode (Some "success") s).
Proof.
  unfold get_done, Py.bind, Py.get, Py.ret, Py.raise, Py.modify.
  destruct (String.eqb (doneType s) "toEnd"); [intros [= <- <-]; by left|].
  destruct (String.eqb (doneType s) "fail"); [intros [= <- <-]; by left|].
  destruct (String.eqb (doneType s) "TF"); [intros [= <- <-]; by left|].
  assert (Htag : forall d,
    (let (r0, s0) :=
       (if bool_decide (failure_mode s = None) && check_within_env (sim s) state
        then fun s1 => (Ok tt, set_failure_mode (Some "out_of_env") s1)
        else if success
             then fun s1 => (Ok tt, set_failure_mode (Some "success") s1)
             else fun s1 => (Ok tt, s1)) s in
     match r0 with
     | Ok _ => (Ok d, s0)
     | Raise e => (Raise e, s0)
     end) = (r, s') ->
    s' = s \/
    (failure_mode s = None /\ s' = set_failure_mode (Some "out_of_env") s) \/
    (success = true /\ s' = set_failure_mode (Some "success") s)).
  { intros d.
    destruct (bool_decide (failure_mode s = None)) eqn:Hn; cbn [andb].
    - apply bool_decide_eq_true in Hn.
      destruct (check_within_env (sim s) state); [intros [= <- <-]; auto|].
      destruct success; intros [= <- <-]; auto.
    - destruct success; intros [= <- <-]; auto. }
  destruct (String.eqb (doneType s) "all"); [apply Htag|].
  destruct (String.eqb (doneType s) "real"); [apply Htag|].
  intros [= <- <-]; by left.
Qed.


(** C4, as the code has it: along the [get_done] calls of an episode the tag
    stays among [None], ["out_of_env"] and ["success"]; it is never reset to
    [None]; ["out_of_env"] is only ever written over [None]; and once the tag
    is ["success"] it stays ["success"].  (A call whose success flag is set
    does write ["success"] over an earlier ["out_of_env"].) *)
Theorem failure_mode_episode (s s' : t F Sim) :
  episode (State := State) s s' ->
  (tag_allowed (failure_mode s) -> tag_allowed (failure_mode s')) /\
  (failure_mode s' = None -> failure_mode s = None) /\
  (failure_mode s' = Some "out_of_env" ->
   failure_mode s = None \/ failure_mode s = Some "out_of_env") /\
  (failure_mode s = Some "success" -> failure_mode s' = Some "success").
Proof.
  unfold tag_allowed.
  induction 1 as [s|s state success fail r s' s'' Hcall _ IH|s x s'' _ IH].
  - tauto.
  - apply get_done_tag in Hcall as [->|[[Hn ->]| [_ ->]]]; [done|..];
      cbn in IH; destruct IH as (IH1 & IH2 & IH3 & IH4).
    + rewrite Hn. split; [auto|]. split; [done|]. split; [auto|done].
    + split; [auto|]. split; [intros E; by specialize (IH2 E)|].
      split; [|auto].
      intros E. destruct (IH3 E) as [?|?]; done.
  - exact IH.
Qed.

End EnvFacts.

(** ** Asking an empty structure *)

Section Empty.
Import Np.
Context {Row : Type} `{RowType Row}.

(** C5, as the code has it: asking a buffer of size 0 for a batch of [n]
    entries, [n] other than zero, raises [ValueError], and asking an empty
    [TopKLogger] for its best checkpoint raises [IndexError]; the buffer, the
    random state and the logger are as they were before the call. *)
Theorem empty_structures_raise :
  (forall (b : ReplayBuffer.t Row) (n : Z) (g : Rng),
     ReplayBuffer.size b = 0 -> n ≠ 0 ->
     ReplayBuffer.sample_batch n (b, g)
     = (Raise (ValueError "high <= 0"), (b, g))) /\
  (forall self : TopKLogger.t,
     TopKLogger.checkpoint_queue self = [] ->
     TopKLogger.best_ckpt self = (Raise IndexError, self)).
Proof.
  split.
  - intros b n g Hs Hn. unfold ReplayBuffer.sample_batch, randint. cbn [fst snd].
    rewrite Hs.
    by destruct (Z.eqb_spec n 0).
  - intros self Hq. unfold TopKLogger.best_ckpt, Py.bind, Py.get.
    by rewrite Hq.
Qed.

End Empty.

(** ** Invariants of computations *)

Section Preserves.
Context {S : Type}.


Lemma preserves_ret {A} (P : S -> Prop) (a : A) : preserves P (Py.ret a).
Proof. by intros s. Qed.

Lemma preserves_raise {A} (P : S -> Prop) e : preserves P (Py.raise (A := A) e).
Proof. by intros s. Qed.

Lemma preserves_lift {A} (P : S -> Prop) (r : result A) : preserves P (Py.lift r).
Proof. by intros s. Qed.

Lemma preserves_modify (P : S -> Prop) (f : S -> S) :
  (forall s, P s -> P (f s)) -> preserves P (Py.modify f).
Proof. intros Hf s. apply Hf. Qed.

Lemma preserves_bind {A B} (P : S -> Prop) (c : M S A) (k : A -> M S B) :
  preserves P c -> (forall a, preserves P (k a)) -> preserves P (Py.bind c k).
Proof.
  intros Hc Hk s Hs. unfold Py.bind. specialize (Hc s Hs).
  destruct (c s) as [[a|e] s1]; [by apply Hk|done].
Qed.

(** After [self := get], the continuation runs on the state it was given. *)
Lemma preserves_get {B} (P : S -> Prop) (k : S -> M S B) :
  (forall s, P s -> P (k s s).2) -> preserves P (Py.bind Py.get k).
Proof. intros Hk s Hs. by apply Hk. Qed.

Lemma preserves_for_each {A} (P : S -> Prop) (xs : list A) (body : A -> M S unit) :
  (forall x, x ∈ xs -> preserves P (body x)) -> preserves P (for_each xs body).
Proof.
  induction xs as [|x xs IH]; intros Hb; [by intros s|].
  cbn [for_each]. apply preserves_bind; [apply Hb; set_solver|].
  intros _. apply IH. intros y Hy. apply Hb. set_solver.
Qed.


End Preserves.

(** ** The multimodal buffer *)

Section MultimodalFacts.
Import Np ReplayBufferMultimodal.
Context {Row : Type} `{RowType Row}.


Lemma zeros_spec (shp : list Z) (d : dtype) (a : ndarray Row) :
  zeros shp d = Ok a ->
  Forall (fun n => 0 <= n) shp /\ length (rows a) = Z.to_nat (hd 0 shp).
Proof.
  unfold zeros. destruct (forallb _ shp) eqn:E; [|done].
  intros [= <-]. split; [|apply length_replicate].
  apply Forall_forall. intros n Hn.
  apply list_elem_of_In in Hn.
  pose proof (proj1 (forallb_forall _ _) E n Hn) as Hle. cbn in Hle. lia.
Qed.

Lemma combined_shape_hd (n : Z) (sh : shape_arg) : hd 0 (combined_shape n sh) = n.
Proof. by destruct sh. Qed.

Lemma alloc_streams_spec (shapes : dict shape_arg) (C : Z)
    (m1 m2 m1' m2' : gmap string (ndarray Row)) :
  alloc_streams shapes C (m1, m2) = Ok (m1', m2') ->
  (forall k, is_Some (m1' !! k) <-> is_Some (m1 !! k) \/ k ∈ keys shapes) /\
  (forall k, is_Some (m2' !! k) <-> is_Some (m2 !! k) \/ k ∈ keys shapes) /\
  (forall k a, m1' !! k = Some a ->
     m1 !! k = Some a \/ length (rows a) = Z.to_nat C) /\
  (forall k a, m2' !! k = Some a ->
     m2 !! k = Some a \/ length (rows a) = Z.to_nat C).
Proof.
  revert m1 m2. induction shapes as [|[k0 sh] shapes IH]; intros m1 m2.
  - intros [= <- <-]. unfold keys. cbn.
    repeat split; auto; intros [?|Hk]; done || by apply elem_of_nil in Hk.
  - cbn [alloc_streams]. unfold Py.rbind.
    destruct (zeros (combined_shape C sh) (stream_dtype k0)) as [a0|] eqn:Ea; [|done].
    cbn [fst snd]. intros Hrest.
    apply zeros_spec in Ea as [_ Ea]. rewrite combined_shape_hd in Ea.
    apply IH in Hrest as (K1 & K2 & L1 & L2).
    unfold keys in *. cbn [fmap list_fmap fst].
    repeat split.
    + intros Hk.
      apply K1 in Hk as [Hk|Hk]; [|right; apply elem_of_cons; by right].
      destruct (decide (k0 = k)) as [->|Hne]; [right; apply elem_of_cons; by left|].
      rewrite lookup_insert_ne in Hk by done. by left.
    + intros [Hk|Hk]; apply K1.
      * left. destruct (decide (k0 = k)) as [->|Hne].
        -- by rewrite lookup_insert_eq.
        -- by rewrite lookup_insert_ne.
      * apply elem_of_cons in Hk as [->|Hk]; [|by right].
        left. by rewrite lookup_insert_eq.
    + intros Hk.
      apply K2 in Hk as [Hk|Hk]; [|right; apply elem_of_cons; by right].
      destruct (decide (k0 = k)) as [->|Hne]; [right; apply elem_of_cons; by left|].
      rewrite lookup_insert_ne in Hk by done. by left.
    + intros [Hk|Hk]; apply K2.
      * left. destruct (decide (k0 = k)) as [->|Hne].
        -- by rewrite lookup_insert_eq.
        -- by rewrite lookup_insert_ne.
      * apply elem_of_cons in Hk as [->|Hk]; [|by right].
        left. by rewrite lookup_insert_eq.
    + intros k a Hk. apply L1 in Hk as [Hk|Hk]; [|by right].
      destruct (decide (k0 = k)) as [->|Hne].
      * rewrite lookup_insert_eq in Hk. injection Hk as <-. by right.
      * rewrite lookup_insert_ne in Hk by done. by left.
    + intros k a Hk. apply L2 in Hk as [Hk|Hk]; [|by right].
      destruct (decide (k0 = k)) as [->|Hne].
      * rewrite lookup_insert_eq in Hk. injection Hk as <-. by right.
      * rewrite lookup_insert_ne in Hk by done. by left.
Qed.

Lemma init_consistent (shapes : dict shape_arg) (act_dim : shape_arg) (C : Z)
    (b : t Row) :
  __init__ shapes act_dim C = Ok b -> consistent b.
Proof.
  unfold __init__, Py.rbind.
  destruct (alloc_streams shapes C (∅, ∅)) as [[m1 m2]|] eqn:Ealloc; [|done].
  destruct (zeros (combined_shape C act_dim) float32) as [a|] eqn:Ea; [|done].
  destruct (zeros [C] float32) as [z|] eqn:Ez; [|done].
  intros [= <-].
  apply alloc_streams_spec in Ealloc as (K1 & K2 & L1 & L2).
  apply zeros_spec in Ea as [_ Ea]. rewrite combined_shape_hd in Ea.
  apply zeros_spec in Ez as [Hpos Ez]. cbn in Ez.
  apply Forall_cons in Hpos as [Hpos _].
  split; cbn; try done; try lia.
  - intros k. rewrite K1, lookup_empty. split; [intros [[? [=]]|?]; done|auto].
  - intros k. rewrite K2, lookup_empty. split; [intros [[? [=]]|?]; done|auto].
  - intros k x Hk. by apply L1 in Hk as [Hk|Hk].
  - intros k x Hk. by apply L2 in Hk as [Hk|Hk].
Qed.

Lemma index_lt (len : nat) (i : Z) (n : nat) :
  index len i = Ok n -> (n < len)%nat.
Proof.
  unfold index.
  destruct (Z.leb_spec 0 i), (Z.ltb_spec i (Z.of_nat len)); cbn;
    try (intros [= <-]; lia);
    destruct (Z.leb_spec (- Z.of_nat len) i), (Z.ltb_spec i 0); cbn;
    try done; intros [= <-]; lia.
Qed.

Lemma setitem_inv (a a' : ndarray Row) (i : Z) (row : Row) :
  setitem a i row = Ok a' ->
  length (rows a') = length (rows a) /\ getitem a' i = Ok row.
Proof.
  unfold setitem, getitem.
  destruct (index (length (rows a)) i) as [n|] eqn:Ei; [|done].
  intros [= <-]. cbn. rewrite length_insert, Ei.
  apply index_lt in Ei. by rewrite list_lookup_insert_eq.
Qed.

Lemma dict_get_key {V} (d : dict V) (k : string) :
  k ∈ keys d -> exists v, dict_get d k = Ok v.
Proof.
  unfold keys. induction d as [|[k' v] d IH]; cbn; intros Hk.
  - by apply elem_of_nil in Hk.
  - destruct (String.eqb_spec k' k) as [->|Hne]; [by eexists|].
    apply elem_of_cons in Hk as [->|Hk]; [done|by apply IH].
Qed.

(** [assign_stream] on the observation streams keeps the buffer consistent. *)
Lemma assign_obs_consistent (k : string) (src : dict Row) :
  preserves consistent (assign_stream obs_buf set_obs_buf k src).
Proof.
  unfold assign_stream. apply preserves_get. intros s Hs.
  unfold Py.bind, Py.lift, Py.modify, map_get.
  destruct (dict_get src k) as [row|]; [|done].
  destruct (obs_buf s !! k) as [a|] eqn:Ek; [|done].
  destruct (setitem a (ptr s) row) as [a'|] eqn:Ea; [|done]. cbn.
  apply setitem_inv in Ea as [Ea _].
  destruct Hs. split; cbn; try done.
  - intros k'. rewrite <- c_keys0. destruct (decide (k = k')) as [->|Hne].
    + by rewrite lookup_insert_eq, Ek.
    + by rewrite lookup_insert_ne.
  - intros k' x. destruct (decide (k = k')) as [->|Hne].
    + rewrite lookup_insert_eq. intros [= <-]. rewrite Ea. by eapply c_obs0.
    + rewrite lookup_insert_ne by done. apply c_obs0.
Qed.

Lemma assign_obs2_consistent (k : string) (src : dict Row) :
  preserves consistent (assign_stream obs2_buf set_obs2_buf k src).
Proof.
  unfold assign_stream. apply preserves_get. intros s Hs.
  unfold Py.bind, Py.lift, Py.modify, map_get.
  destruct (dict_get src k) as [row|]; [|done].
  destruct (obs2_buf s !! k) as [a|] eqn:Ek; [|done].
  destruct (setitem a (ptr s) row) as [a'|] eqn:Ea; [|done]. cbn.
  apply setitem_inv in Ea as [Ea _].
  destruct Hs. split; cbn; try done.
  - intros k'. rewrite <- c_keys3. destruct (decide (k = k')) as [->|Hne].
    + by rewrite lookup_insert_eq, Ek.
    + by rewrite lookup_insert_ne.
  - intros k' x. destruct (decide (k = k')) as [->|Hne].
    + rewrite lookup_insert_eq. intros [= <-]. rewrite Ea. by eapply c_obs3.
    + rewrite lookup_insert_ne by done. apply c_obs3.
Qed.


Lemma assign_preserves (P : t Row -> Prop) buf set_buf (row : Row) :
  (forall s a',
     P s -> length (rows a') = length (rows (buf s)) -> P (set_buf a' s)) ->
  preserves P (assign buf set_buf row).
Proof.
  intros Hset. unfold assign. apply preserves_get. intros s Hs.
  unfold Py.bind, Py.lift, Py.modify.
  destruct (setitem (buf s) (ptr s) row) as [a'|] eqn:Ea; [|done]. cbn.
  apply setitem_inv in Ea as [Ea _]. by apply Hset.
Qed.

Lemma store_tail_consistent (act rew done lx gx : Row) :
  preserves consistent (store_tail act rew done lx gx).
Proof.
  unfold store_tail.
  repeat (apply preserves_bind;
          [apply assign_preserves; intros s a' [] Ha; split; cbn; (done || lia)
          |intros _]).
  apply preserves_get. intros s Hs. unfold Py.bind, Py.lift, Py.modify, py_mod.
  destruct Hs.
  destruct (Z.eqb_spec (max_size s - ptr_start s) 0); [by split|]. cbn.
  split; cbn; try done; try lia.
  rewrite c_start0, !Z.sub_0_r, Z.add_0_l.
  pose proof (Z.mod_pos_bound (ptr s + 1) (max_size s) ltac:(lia)). lia.
Qed.

Lemma store_consistent (obs : dict Row) (act rew : Row) (next_obs : dict Row)
    (done lx gx : Row) :
  preserves consistent (store obs act rew next_obs done lx gx).
Proof.
  change (store obs act rew next_obs done lx gx) with
    (for_each (keys obs) (fun obs_type =>
       assign_stream obs_buf set_obs_buf obs_type obs >>
       assign_stream obs2_buf set_obs2_buf obs_type next_obs) >>
     store_tail act rew done lx gx).
  apply preserves_bind; [|intros _; apply store_tail_consistent].
  apply preserves_for_each. intros k _.
  apply preserves_bind; [apply assign_obs_consistent|].
  intros _. apply assign_obs2_consistent.
Qed.

Lemma reachable_consistent (b : t Row) : reachable b -> consistent b.
Proof.
  induction 1 as [shapes act_dim C b Hinit|b obs act rew next_obs done lx gx r b' _ IH Hst].
  - by eapply init_consistent.
  - pose proof (store_consistent obs act rew next_obs done lx gx b IH) as Hc.
    by rewrite Hst in Hc.
Qed.


Lemma store_tail_preserves (P : t Row -> Prop) (act rew done lx gx : Row) :
  (forall s a, P s -> P (set_act_buf a s)) ->
  (forall s a, P s -> P (set_rew_buf a s)) ->
  (forall s a, P s -> P (set_done_buf a s)) ->
  (forall s a, P s -> P (set_lx_buf a s)) ->
  (forall s a, P s -> P (set_gx_buf a s)) ->
  (forall s p, P s -> P (set_ptr p s)) ->
  (forall s n, P s -> P (set_size n s)) ->
  preserves P (store_tail act rew done lx gx).
Proof.
  intros Ha Hr Hd Hl Hg Hp Hn. unfold store_tail.
  repeat (apply preserves_bind; [apply assign_preserves; by auto|intros _]).
  apply preserves_get. intros s Hs. unfold Py.bind, Py.lift, Py.modify.
  destruct (py_mod _ _); cbn; auto.
Qed.





Lemma bind_assign_mm {B} (buf : t Row -> ndarray Row) set_buf (row : Row)
    (k : unit -> M (t Row) B) (b : t Row) :
  0 <= ptr b < Z.of_nat (length (rows (buf b))) ->
  Py.bind (assign buf set_buf row) k b
  = k tt (set_buf (write (buf b) (Z.to_nat (ptr b)) row) b).
Proof.
  intros Hi. unfold assign, Py.bind, Py.get, Py.lift, Py.modify.
  by rewrite setitem_in_range.
Qed.






Lemma sample_window_windowed (a : ndarray Row) (idxs : list Z) (d : dtype) (s : Z) :
  s <= Z.of_nat (length (rows a)) ->
  Forall (fun i => 0 <= i < s) idxs ->
  exists o, sample_window a idxs d = Ok o /\
            windowed (Z.of_nat (length idxs)) o.
Proof.
  intros Hs Hidx.
  destruct (gather_in_range (rows a) idxs) as (out & Hout & Hlen & _).
  { eapply Forall_impl; [exact Hidx|]. cbn. lia. }
  unfold sample_window, Py.rbind, getitems. rewrite Hout. cbn.
  eexists. split; [done|]. unfold windowed. cbn. by rewrite Nat2Z.id.
Qed.

Lemma sample_streams_windowed (b : t Row) (idxs : list Z) (s : Z)
    (ks : list string) (acc : gmap string (ndarray Row) * gmap string (ndarray Row)) :
  Forall (fun i => 0 <= i < s) idxs ->
  (forall k, k ∈ ks -> exists a a2,
     obs_buf b !! k = Some a /\ obs2_buf b !! k = Some a2 /\
     s <= Z.of_nat (length (rows a)) /\ s <= Z.of_nat (length (rows a2))) ->
  exists res,
    sample_streams b idxs ks acc = Ok res /\
    (forall k, k ∈ ks -> is_Some (res.1 !! k) /\ is_Some (res.2 !! k)) /\
    (forall k o, res.1 !! k = Some o ->
       acc.1 !! k = Some o \/ windowed (Z.of_nat (length idxs)) o) /\
    (forall k o, res.2 !! k = Some o ->
       acc.2 !! k = Some o \/ windowed (Z.of_nat (length idxs)) o).
Proof.
  intros Hidx. revert acc.
  induction ks as [|k0 ks IH]; intros acc Hks.
  - exists acc. cbn. split; [done|]. split; [|by auto].
    intros k Hk. by apply elem_of_nil in Hk.
  - destruct (Hks k0) as (a & a2 & Ha & Ha2 & La & La2);
      [apply elem_of_cons; by left|].
    destruct (sample_window_windowed a idxs (stream_dtype k0) s La Hidx)
      as (o & Ho & Wo).
    destruct (sample_window_windowed a2 idxs (stream_dtype k0) s La2 Hidx)
      as (o2 & Ho2 & Wo2).
    destruct (IH (<[k0 := o]> acc.1, <[k0 := o2]> acc.2))
      as (res & Hres & Hsome & H1 & H2).
    { intros k Hk. apply Hks, elem_of_cons. by right. }
    exists res. split.
    { cbn [sample_streams]. unfold Py.rbind, map_get. by rewrite Ha, Ho, Ha2, Ho2. }
    cbn [fst snd] in H1, H2.
    assert (Hkeep : forall k, is_Some (res.1 !! k) /\ is_Some (res.2 !! k) \/
                              (k ∉ ks)).
    { intros k. destruct (decide (k ∈ ks)); [left; by apply Hsome|by right]. }
    split; [|split].
    + intros k Hk. apply elem_of_cons in Hk as [->|Hk]; [|by apply Hsome].
      destruct (decide (k0 ∈ ks)) as [Hin|Hnin]; [by apply Hsome|].
      (* the entries written for [k0] are still there after the rest *)
      clear -Hres Hnin.
      assert (Hstay : forall ks acc res,
        k0 ∉ ks -> sample_streams b idxs ks acc = Ok res ->
        res.1 !! k0 = acc.1 !! k0 /\ res.2 !! k0 = acc.2 !! k0).
      { clear. induction ks as [|k ks IH]; intros acc res Hnin.
        - by intros [= <-].
        - cbn [sample_streams]. unfold Py.rbind.
          destruct (map_get _ k); [|done].
          destruct (sample_window _ _ _); [|done].
          destruct (map_get _ k); [|done].
          destruct (sample_window _ _ _); [|done].
          intros Hrest. apply IH in Hrest as [-> ->].
          2:{ intros Hin. apply Hnin, elem_of_cons. by right. }
          cbn. rewrite !lookup_insert_ne; [done|..];
            intros ->; apply Hnin, elem_of_cons; by left. }
      destruct (Hstay ks _ res Hnin Hres) as [-> ->]. cbn.
      by rewrite !lookup_insert_eq.
    + intros k x Hx. apply H1 in Hx as [Hx|Hx]; [|by right].
      destruct (decide (k0 = k)) as [->|Hne].
      * rewrite lookup_insert_eq in Hx. injection Hx as <-. by right.
      * rewrite lookup_insert_ne in Hx by done. by left.
    + intros k x Hx. apply H2 in Hx as [Hx|Hx]; [|by right].
      destruct (decide (k0 = k)) as [->|Hne].
      * rewrite lookup_insert_eq in Hx. injection Hx as <-. by right.
      * rewrite lookup_insert_ne in Hx by done. by left.
Qed.

(** C8: sampling [n] entries from a multimodal buffer of size at least one
    returns, for every configured stream and in both the observation and the
    next-observation mapping, an array whose outer dimension is [n] and
    whose second dimension, the inserted window, is one. *)
Theorem multimodal_sample_shapes (b : t Row) (n : Z) (g : Rng) :
  reachable b -> 1 <= size b -> 0 <= n ->
  exists batch g',
    sample_batch n (b, g) = (Ok batch, (b, g')) /\
    forall k, k ∈ keys (env_observation_shapes b) ->
      exists o o2,
        b_obs batch !! k = Some o /\ b_obs2 batch !! k = Some o2 /\
        windowed n o /\ windowed n o2.
Proof.
  intros Hreach Hs Hn.
  pose proof (reachable_consistent b Hreach) as Hc.
  destruct (randint_range (size b) n g Hs Hn) as (idxs & g' & Hri & Hlen & Hidx).
  assert (Hn' : Z.of_nat (length idxs) = n) by lia.
  pose proof (c_size b Hc) as Hsz.
  destruct (sample_streams_windowed b idxs (size b)
              (elements (dom (obs_buf b))) (∅, ∅) Hidx)
    as (res & Hres & Hsome & H1 & H2).
  { intros k Hk. apply elem_of_elements, elem_of_dom in Hk.
    pose proof (proj1 (c_keys b Hc k) Hk) as Hcfg.
    destruct Hk as [a Ha].
    destruct (proj2 (c_keys2 b Hc k) Hcfg) as [a2 Ha2].
    exists a, a2. repeat split; try done.
    - rewrite (c_obs b Hc k a Ha). lia.
    - rewrite (c_obs2 b Hc k a2 Ha2). lia. }
  destruct (sample_window_windowed (act_buf b) idxs float32 (size b))
    as (a & Ha & _); [rewrite (c_act b Hc); lia|done|].
  destruct (getitems_in_range (rew_buf b) idxs (size b)) as (r & Er & _);
    [rewrite (c_rew b Hc); lia|done|].
  destruct (getitems_in_range (done_buf b) idxs (size b)) as (d & Ed & _);
    [rewrite (c_done b Hc); lia|done|].
  destruct (getitems_in_range (lx_buf b) idxs (size b)) as (l & El & _);
    [rewrite (c_lx b Hc); lia|done|].
  destruct (getitems_in_range (gx_buf b) idxs (size b)) as (x & Ex & _);
    [rewrite (c_gx b Hc); lia|done|].
  eexists _, g'. split.
  { unfold sample_batch. cbn [fst snd]. rewrite Hri. unfold Py.rbind.
    rewrite Hres, Ha, Er, Ed, El, Ex. reflexivity. }
  intros k Hk. cbn.
  destruct (Hsome k) as [[o Ho] [o2 Ho2]].
  { apply elem_of_elements, elem_of_dom. by apply (c_keys b Hc k). }
  exists o, o2. split; [done|]. split; [done|].
  rewrite <- Hn'. split.
  - destruct (H1 k o Ho) as [Habs|?]; [|done].
    cbn in Habs. by rewrite lookup_empty in Habs.
  - destruct (H2 k o2 Ho2) as [Habs|?]; [|done].
    cbn in Habs. by rewrite lookup_empty in Habs.
Qed.

End MultimodalFacts.

Section Runs.
Import Np Examples.

Lemma replay_buffer_fifo_witness :
  1 <= 2 /\
  ReplayBuffer.__init__ (ShapeScalar 1) (ShapeScalar 1) 2 = Ok fresh2 /\
  length raw_three = (Z.to_nat 2 + 1)%nat /\
  Forall2 (fun x x' => ReplayBufferValues.as_stored fresh2 x = Ok x')
    raw_three held_three /\
  exists b,
    ReplayBufferValues.stores raw_three fresh2 = (Ok tt, b) /\
    ReplayBuffer.size b = 2 /\
    ReplayBuffer.ptr b = Z.of_nat 1 mod 2 /\
    (forall j, (j < Z.to_nat 2)%nat ->
       is_Some (held_three !! (1 + j)%nat) /\
       ReplayBuffer.slot b ((1 + j) mod Z.to_nat 2)
       = held_three !! (1 + j)%nat) /\
    (forall i, (i < Z.to_nat 2)%nat ->
       exists x, ReplayBuffer.slot b i = Some x /\ x ∈ drop 1 held_three).
Proof.
  split; [lia|]. split; [reflexivity|]. split; [reflexivity|].
  split; [repeat (apply List.Forall2_cons; [vm_compute; reflexivity|]);
          apply List.Forall2_nil|].
  apply (replay_buffer_fifo (ShapeScalar 1) (ShapeScalar 1) 2 1 raw_three
           held_three fresh2);
    [lia|reflexivity|reflexivity
    |repeat (apply List.Forall2_cons; [vm_compute; reflexivity|]);
     apply List.Forall2_nil].
Defined.

Lemma sample_batch_membership_witness :
  ReplayBuffer.stores three fresh2 = (Ok tt, after_three) /\
  1 <= ReplayBuffer.size after_three /\
  exists batch g',
    ReplayBuffer.sample_batch 4 (after_three, draws)
    = (Ok batch, (after_three, g')) /\
    Forall (Np.has_entries 4)
      [ReplayBuffer.b_obs batch; ReplayBuffer.b_obs2 batch;
       ReplayBuffer.b_act batch; ReplayBuffer.b_rew batch;
       ReplayBuffer.b_done batch; ReplayBuffer.b_lx batch;
       ReplayBuffer.b_gx batch] /\
    forall j, (j < Z.to_nat 4)%nat ->
      exists i x,
        (i < Z.to_nat (ReplayBuffer.size after_three))%nat /\
        ReplayBuffer.slot after_three i = Some x /\ x ∈ three /\
        ReplayBuffer.entry batch j = Some x.
Proof.
  split; [reflexivity|]. split; [cbn; lia|].
  apply (sample_batch_membership (ShapeScalar 1) (ShapeScalar 1) 2 three
           fresh2 after_three 4 draws);
    [reflexivity|reflexivity|cbn; lia|lia].
Defined.

Ltac elem_of_list :=
  repeat first [apply list_elem_of_here | apply list_elem_of_further].
Ltac not_elem_of_list :=
  let H := fresh in
  intros H; repeat (apply elem_of_cons in H as [H|H]; [discriminate H|]);
  by apply elem_of_nil in H.

Lemma get_cost_formula_witness :
  let self := env "max_ell_g" "all" "reward" false in
  exists cost h',
    BaseMujocoEnv.get_cost self 0%nat 1%nat [true] [true] margins
    = (Ok (cost, 0%nat, 1%nat), h') /\
    BaseMujocoEnv.read h' cost
    = BaseMujocoEnv.documented_cost "max_ell_g" true [1%float] [2%float] /\
    h' !! 0%nat = Some [1%float] /\ h' !! 1%nat = Some [2%float].
Proof.
  apply (get_cost_formula (env "max_ell_g" "all" "reward" false) 0%nat 1%nat
           [true] [true] margins [1%float] [2%float]);
    [unfold BaseMujocoEnv.cost_kinds; elem_of_list|reflexivity|reflexivity|reflexivity
    |reflexivity].
Defined.

Lemma shaped_success_entries_witness :
  let self := env "dense" "all" "cost" true in
  exists c h' c' l',
    BaseMujocoEnv.get_cost self 0%nat 1%nat [true] [false] margins
    = (Ok (BaseMujocoEnv.VArr c, 0%nat, 1%nat), h') /\
    h' !! c = Some c' /\ h' !! 0%nat = Some l' /\
    forall i, [true] !! i = Some true ->
      l' !! i = Some (BaseMujocoEnv.bonus self) /\
      ([false] !! i = Some false -> c' !! i = Some (BaseMujocoEnv.bonus self)).
Proof.
  apply (shaped_success_entries (env "dense" "all" "cost" true) 0%nat 1%nat
           [true] [false] margins [1%float] [2%float]);
    [reflexivity|unfold BaseMujocoEnv.shaped_cost_kinds; elem_of_list|reflexivity
    |reflexivity|lia|reflexivity|reflexivity|reflexivity].
Defined.

(** C3 as stated fails: with the cost kind [dense] in cost mode, a bonus of
    10 and a penalty of 5, an entry whose success and failure flags are both
    set comes back with the cost 5, not with the bonus. *)
Lemma shaped_cost_counterexample :
  let self := env "dense" "all" "cost" true in
  ~ (forall c h' c',
       BaseMujocoEnv.get_cost self 0%nat 1%nat [true] [true] margins
       = (Ok (BaseMujocoEnv.VArr c, 0%nat, 1%nat), h') ->
       h' !! c = Some c' ->
       forall i, [true] !! i = Some true ->
         c' !! i = Some (BaseMujocoEnv.bonus self)).
Proof.
  intros self Hclaim.
  specialize (Hclaim 2%nat _ [5%float] eq_refl eq_refl 0%nat eq_refl).
  apply (f_equal (fun o => match o with
                         | Some x => PrimFloat.eqb x 5
                         | None => false
                         end)) in Hclaim.
  vm_compute in Hclaim. discriminate Hclaim.
Qed.

Lemma failure_mode_episode_witness :
  let s0 := env "dense" "all" "cost" false in
  let s2 := BaseMujocoEnv.set_failure_mode (Some "success") s0 in
  BaseMujocoEnv.episode (State := bool) s0 s2 /\
  (BaseMujocoEnv.tag_allowed (BaseMujocoEnv.failure_mode s0) ->
   BaseMujocoEnv.tag_allowed (BaseMujocoEnv.failure_mode s2)) /\
  (BaseMujocoEnv.failure_mode s2 = None -> BaseMujocoEnv.failure_mode s0 = None) /\
  (BaseMujocoEnv.failure_mode s2 = Some "out_of_env" ->
   BaseMujocoEnv.failure_mode s0 = None \/
   BaseMujocoEnv.failure_mode s0 = Some "out_of_env") /\
  (BaseMujocoEnv.failure_mode s0 = Some "success" ->
   BaseMujocoEnv.failure_mode s2 = Some "success").
Proof.
  intros s0 s2.
  assert (Hep : BaseMujocoEnv.episode (State := bool) s0 s2).
  { set (s1 := BaseMujocoEnv.set_failure_mode (Some "out_of_env") s0).
    apply (BaseMujocoEnv.ep_done s0 true false false (Ok true) s1 s2);
      [reflexivity|].
    apply (BaseMujocoEnv.ep_done s1 false true false (Ok true) s2 s2);
      [reflexivity|].
    apply BaseMujocoEnv.ep_refl. }
  split; [exact Hep|].
  exact (failure_mode_episode s0 s2 Hep).
Defined.

(** C4 as stated fails: a call that finds the state out of bounds writes
    ["out_of_env"], and a later call of the same episode whose success flag
    is set writes ["success"] over it. *)
Lemma failure_mode_counterexample :
  let s0 := env "dense" "all" "cost" false in
  exists s1 s2,
    BaseMujocoEnv.get_done true false false s0 = (Ok true, s1) /\
    BaseMujocoEnv.failure_mode s1 = Some "out_of_env" /\
    BaseMujocoEnv.get_done false true false s1 = (Ok true, s2) /\
    BaseMujocoEnv.failure_mode s2 = Some "success" /\
    BaseMujocoEnv.failure_mode s2 ≠ BaseMujocoEnv.failure_mode s1.
Proof.
  intros s0.
  exists (BaseMujocoEnv.set_failure_mode (Some "out_of_env") s0),
         (BaseMujocoEnv.set_failure_mode (Some "success") s0).
  split; [reflexivity|]. split; [reflexivity|].
  split; [reflexivity|]. split; [reflexivity|]. discriminate.
Qed.

Lemma empty_structures_raise_witness :
  ReplayBuffer.sample_batch 4 (fresh2, draws)
  = (Raise (ValueError "high <= 0"), (fresh2, draws)) /\
  TopKLogger.best_ckpt (TopKLogger.__init__ 2)
  = (Raise IndexError, TopKLogger.__init__ 2).
Proof.
  split.
  - apply (proj1 (empty_structures_raise (Row := list float)) fresh2 4 draws);
      [reflexivity|lia].
  - apply (proj2 (empty_structures_raise (Row := list float))
             (TopKLogger.__init__ 2)).
    reflexivity.
Defined.

(** C5 as stated fails: a batch of zero entries is handed out by a buffer
    of size 0 without an error. *)
Lemma empty_sample_counterexample :
  ReplayBuffer.size fresh2 = 0 /\
  exists batch,
    ReplayBuffer.sample_batch 0 (fresh2, draws) = (Ok batch, (fresh2, draws)).
Proof.
  split; [reflexivity|].
  exists (ReplayBuffer.Build_Batch
            (NdArray float32 [0; 1] []) (NdArray float32 [0; 1] [])
            (NdArray float32 [0; 1] []) (NdArray float32 [0] [])
            (NdArray float32 [0] []) (NdArray float32 [0] [])
            (NdArray float32 [0] [])).
  reflexivity.
Qed.

Lemma invalid_configuration_witness :
  BaseMujocoEnv.get_cost (env "quadratic" "all" "cost" false) 0%nat 1%nat
    [true] [true] margins
  = (Raise (ValueError "invalid cost type!"), margins) /\
  BaseMujocoEnv.get_done true false false (env "dense" "never" "cost" false)
  = (Raise (ValueError "invalid done type!"), env "dense" "never" "cost" false).
Proof.
  split.
  - apply (proj1 (invalid_configuration (F := float) (Sim := unit) (State := bool))
             (env "quadratic" "all" "cost" false)).
    unfold BaseMujocoEnv.cost_kinds. not_elem_of_list.
  - apply (proj2 (invalid_configuration (F := float) (Sim := unit) (State := bool))
             (env "dense" "never" "cost" false)).
    unfold BaseMujocoEnv.done_kinds. not_elem_of_list.
Defined.

Lemma mm_after_reachable : ReplayBufferMultimodal.reachable mm_after.
Proof.
  apply (ReplayBufferMultimodal.reach_store mm_fresh
           [("state", [4%float])] [5%float] [6%float] [("state", [7%float])]
           [1%float] [8%float] [9%float] (Ok tt) mm_after).
  - by apply (ReplayBufferMultimodal.reach_init streams (ShapeScalar 1) 2).
  - reflexivity.
Defined.

Lemma multimodal_sample_shapes_witness :
  1 <= ReplayBufferMultimodal.size mm_after /\
  exists batch g',
    ReplayBufferMultimodal.sample_batch 3 (mm_after, draws)
    = (Ok batch, (mm_after, g')) /\
    forall k, k ∈ keys streams ->
      exists o o2,
        ReplayBufferMultimodal.b_obs batch !! k = Some o /\
        ReplayBufferMultimodal.b_obs2 batch !! k = Some o2 /\
        ReplayBufferMultimodal.windowed 3 o /\ ReplayBufferMultimodal.windowed 3 o2.
Proof.
  split; [cbn; lia|].
  apply (multimodal_sample_shapes mm_after 3 draws);
    [exact mm_after_reachable|cbn; lia|lia].
Defined.


End Runs.

(** * Further properties *)

(** ** [ReplayBuffer]: filling up, and buffers without room *)

Section ReplayBufferMore.
Import Np ReplayBuffer ReplayBufferViews.
Context {Val Row : Type} `{RowType Row} `{NpValues.Conversion Val Row}.

(** After any number [m] of stores into a buffer created with capacity
    [C >= 1], of values that its arrays can take, every store has returned,
    the size is [min m C] and the write pointer is [m mod C]. *)
Theorem replay_buffer_counts (obs_dim act_dim : shape_arg) (C : Z)
    (ts : list (Transition Val)) (ts' : list (Transition Row)) (b0 : t Row) :
  1 <= C ->
  __init__ obs_dim act_dim C = Ok b0 ->
  Forall2 (fun tr tr' => ReplayBufferValues.as_stored b0 tr = Ok tr') ts ts' ->
  exists b,
    ReplayBufferValues.stores ts b0 = (Ok tt, b) /\
    size b = Z.min (Z.of_nat (length ts)) C /\
    ptr b = Z.of_nat (length ts) mod C /\
    max_size b = C.
Proof.
  intros HC Hinit Hconv.
  rewrite (stores_converted C b0 ts ts' HC (init_inv _ _ _ _ HC Hinit) Hconv).
  destruct (stores_inv C b0 ts' HC (init_inv _ _ _ _ HC Hinit))
    as (b & Hrun & [Hwf Hcap Hptr Hsize _ _]).
  rewrite (Forall2_length _ _ _ Hconv). by exists b.
Qed.

Lemma init_slots (obs_dim act_dim : shape_arg) (C : Z) (b0 : t Row) (i : nat) :
  __init__ obs_dim act_dim C = Ok b0 -> (i < Z.to_nat C)%nat ->
  slot b0 i = Some (zero_transition obs_dim act_dim C).
Proof.
  unfold __init__, zeros.
  assert (Hhd : forall sh, hd 0 (combined_shape C sh) = C) by (by intros []).
  destruct (forallb _ (combined_shape C obs_dim)); [|done].
  destruct (forallb _ (combined_shape C act_dim)); [|done].
  destruct (forallb _ [C]); [|done].
  intros [= <-] Hi. unfold slot, zero_transition. cbn.
  rewrite !Hhd, !lookup_replicate_2 by done. done.
Qed.

Lemma init_counters (obs_dim act_dim : shape_arg) (C : Z) (b0 : t Row) :
  __init__ obs_dim act_dim C = Ok b0 ->
  ptr b0 = 0 /\ size b0 = 0 /\ max_size b0 = C /\
  length (rows (obs_buf b0)) = Z.to_nat C.
Proof.
  unfold __init__.
  destruct (zeros (combined_shape C obs_dim) float32) as [o|] eqn:Eo; [|done].
  destruct (zeros (combined_shape C act_dim) float32) as [a|]; [|done].
  destruct (zeros [C] float32) as [z|]; [|done].
  intros [= <-]. cbn. apply zeros_rows in Eo. by destruct obs_dim.
Qed.

(** The rows stored before the ring wraps around sit in the slots in the
    order they were stored. *)
Lemma stores_fill_order (obs_dim act_dim : shape_arg) (C : Z)
    (ts : list (Transition Row)) (b0 : t Row) :
  __init__ obs_dim act_dim C = Ok b0 ->
  Z.of_nat (length ts) <= C ->
  exists b,
    stores ts b0 = (Ok tt, b) /\
    size b = Z.of_nat (length ts) /\
    (forall i tr, ts !! i = Some tr -> slot b i = Some tr) /\
    (forall i, (length ts <= i < Z.to_nat C)%nat ->
       slot b i = Some (zero_transition obs_dim act_dim C)).
Proof.
  intros Hinit. induction ts as [|tr ts IH] using rev_ind; intros Hlen.
  - exists b0. split; [done|].
    split; [by apply init_counters in Hinit as (_ & -> & _)|].
    split; [done|]. intros i Hi. apply (init_slots _ _ _ _ _ Hinit). lia.
  - rewrite length_app in Hlen. cbn in Hlen.
    assert (HC : 1 <= C) by lia.
    destruct IH as (b & Hrun & Hsize & Hfilled & Hzero); [lia|].
    destruct (stores_inv C b0 ts HC (init_inv _ _ _ _ HC Hinit))
      as (b' & Hrun' & [Hwf Hcap Hptr _ _ _]).
    rewrite Hrun in Hrun'. injection Hrun' as <-.
    assert (Hp : Z.to_nat (ptr b) = length ts).
    { rewrite Hptr, Z.mod_small by lia. apply Nat2Z.id. }
    exists (stored b tr). split.
    { unfold stores in *. rewrite for_each_app. unfold Py.bind at 1.
      rewrite Hrun. cbn [for_each]. unfold Py.bind.
      by rewrite store_wf. }
    split; [cbn; rewrite Hcap, Hsize, length_app; cbn; lia|].
    split.
    + intros i x Hi. destruct (decide (i = length ts)) as [->|Hne].
      * rewrite lookup_app_r, Nat.sub_diag in Hi by lia. injection Hi as <-.
        rewrite <- Hp. by apply slot_stored_eq.
      * assert (i < length ts)%nat.
        { apply lookup_lt_Some in Hi. rewrite length_app in Hi. cbn in Hi. lia. }
        rewrite lookup_app_l in Hi by done.
        rewrite slot_stored_ne by lia. by apply Hfilled.
    + intros i Hi. rewrite length_app in Hi. cbn in Hi.
      rewrite slot_stored_ne by lia. apply Hzero. lia.
Qed.

(** Before the ring wraps around, that is after [m <= C] stores of values
    that the arrays can take, the transitions sit in the slots [0 .. m-1] in
    the order they were stored, each as the float32 arrays hold it ([ts']),
    and the remaining slots still hold the zero rows of [__init__]. *)
Theorem replay_buffer_fill_order (obs_dim act_dim : shape_arg) (C : Z)
    (ts : list (Transition Val)) (ts' : list (Transition Row)) (b0 : t Row) :
  __init__ obs_dim act_dim C = Ok b0 ->
  Z.of_nat (length ts) <= C ->
  Forall2 (fun tr tr' => ReplayBufferValues.as_stored b0 tr = Ok tr') ts ts' ->
  exists b,
    ReplayBufferValues.stores ts b0 = (Ok tt, b) /\
    size b = Z.of_nat (length ts) /\
    (forall i tr', ts' !! i = Some tr' -> slot b i = Some tr') /\
    (forall i, (length ts <= i < Z.to_nat C)%nat ->
       slot b i = Some (zero_transition obs_dim act_dim C)).
Proof.
  intros Hinit Hlen Hconv.
  pose proof (Forall2_length _ _ _ Hconv) as Hl. rewrite Hl in *.
  assert (Hrun : ReplayBufferValues.stores ts b0 = stores ts' b0).
  { destruct Hconv as [|tr tr' ts ts' Htr Hts]; [done|].
    cbn in Hlen. assert (HC : 1 <= C) by lia.
    apply (stores_converted C); [done|by apply (init_inv obs_dim act_dim)|].
    by apply Forall2_cons. }
  rewrite Hrun. by apply stores_fill_order.
Qed.

(** A negative capacity is refused by [__init__]; a capacity of zero is
    accepted, but the buffer it makes refuses every store with [IndexError]
    and is left as it was. *)
Theorem replay_buffer_no_room (obs_dim act_dim : shape_arg) :
  (forall C, C < 0 ->
     __init__ (Row := Row) obs_dim act_dim C
     = Raise (ValueError "negative dimensions are not allowed")) /\
  (forall (b0 : t Row) (tr : Transition Row),
     __init__ obs_dim act_dim 0 = Ok b0 ->
     size b0 = 0 /\ store_transition tr b0 = (Raise IndexError, b0)).
Proof.
  split.
  - intros C HC. unfold __init__, zeros.
    assert (Hneg : forall sh, forallb (fun n => 0 <=? n) (combined_shape C sh) = false).
    { intros sh. destruct sh; cbn; destruct (Z.leb_spec 0 C); done || lia. }
    by rewrite !Hneg.
  - intros b0 tr Hinit.
    apply init_counters in Hinit as (_ & Hs & _ & Hrows).
    split; [done|]. by apply store_no_slot.
Qed.

Lemma bind_assign_value {B} (buf : t Row -> ndarray Row) set_buf (v : Val)
    (row : Row) (k : unit -> M (t Row) B) (b : t Row) :
  0 <= ptr b < Z.of_nat (length (rows (buf b))) ->
  NpValues.convert (dt (buf b)) (tl (shape (buf b))) v = Ok row ->
  Py.bind (ReplayBufferValues.assign buf set_buf v) k b
  = k tt (set_buf (write (buf b) (Z.to_nat (ptr b)) row) b).
Proof.
  intros Hi Hc.
  unfold ReplayBufferValues.assign, Py.bind, Py.get, Py.lift, Py.modify.
  by rewrite (setitem_converted _ _ _ _ Hc), setitem_in_range.
Qed.

Lemma bind_assign_misfit {B} (buf : t Row -> ndarray Row) set_buf (v : Val)
    (e : exn) (k : unit -> M (t Row) B) (b : t Row) :
  0 <= ptr b < Z.of_nat (length (rows (buf b))) ->
  NpValues.convert (dt (buf b)) (tl (shape (buf b))) v = Raise e ->
  Py.bind (ReplayBufferValues.assign buf set_buf v) k b = (Raise e, b).
Proof.
  intros Hi Hc.
  unfold ReplayBufferValues.assign, Py.bind, Py.get, Py.lift, Py.modify,
    NpValues.setitem.
  by rewrite index_in_range, Hc.
Qed.

Lemma store_misfit (b : t Row) (tr : Transition Val) (e : exn) :
  wf b -> ReplayBufferValues.as_stored b tr = Raise e ->
  exists b',
    ReplayBufferValues.store_transition tr b = (Raise e, b') /\
    ptr b' = ptr b /\ size b' = size b /\
    forall o,
      NpValues.convert (dt (obs_buf b)) (tl (shape (obs_buf b))) (t_obs tr)
      = Ok o ->
      rows (obs_buf b') !! Z.to_nat (ptr b) = Some o.
Proof.
  intros [Hs Hp Hsz Ho Ho2 Ha Hr Hd Hl Hg].
  unfold ReplayBufferValues.as_stored,
    ReplayBufferValues.store_transition, ReplayBufferValues.store.
  destruct (NpValues.convert _ _ (t_obs tr)) as [o|e1] eqn:Eo.
  2:{ cbn [rbind]. intros [= <-].
      rewrite (bind_assign_misfit _ _ _ e1) by (done || cbn; lia).
      by exists b. }
  rewrite (bind_assign_value _ _ _ o) by (done || cbn; lia).
  assert (Hget : forall q : t Row,
    obs_buf q = write (obs_buf b) (Z.to_nat (ptr b)) o ->
    forall o', Ok o = Ok o' -> rows (obs_buf q) !! Z.to_nat (ptr b) = Some o').
  { intros q -> o' [= <-]. cbn. apply list_lookup_insert_eq. lia. }
  destruct (NpValues.convert _ _ (t_next_obs tr)) as [o2|e1] eqn:Eo2.
  2:{ cbn [rbind]. intros [= <-].
      rewrite (bind_assign_misfit _ _ _ e1) by (done || cbn; lia).
      eexists. split; [reflexivity|]. split; [done|]. split; [done|].
      by apply Hget. }
  rewrite (bind_assign_value _ _ _ o2) by (done || cbn; lia).
  destruct (NpValues.convert _ _ (t_act tr)) as [a|e1] eqn:Ea.
  2:{ cbn [rbind]. intros [= <-].
      rewrite (bind_assign_misfit _ _ _ e1) by (done || cbn; lia).
      eexists. split; [reflexivity|]. split; [done|]. split; [done|].
      by apply Hget. }
  rewrite (bind_assign_value _ _ _ a) by (done || cbn; lia).
  destruct (NpValues.convert _ _ (t_rew tr)) as [r|e1] eqn:Er.
  2:{ cbn [rbind]. intros [= <-].
      rewrite (bind_assign_misfit _ _ _ e1) by (done || cbn; lia).
      eexists. split; [reflexivity|]. split; [done|]. split; [done|].
      by apply Hget. }
  rewrite (bind_assign_value _ _ _ r) by (done || cbn; lia).
  destruct (NpValues.convert _ _ (t_done tr)) as [d|e1] eqn:Ed.
  2:{ cbn [rbind]. intros [= <-].
      rewrite (bind_assign_misfit _ _ _ e1) by (done || cbn; lia).
      eexists. split; [reflexivity|]. split; [done|]. split; [done|].
      by apply Hget. }
  rewrite (bind_assign_value _ _ _ d) by (done || cbn; lia).
  destruct (NpValues.convert _ _ (t_lx tr)) as [l|e1] eqn:El.
  2:{ cbn [rbind]. intros [= <-].
      rewrite (bind_assign_misfit _ _ _ e1) by (done || cbn; lia).
      eexists. split; [reflexivity|]. split; [done|]. split; [done|].
      by apply Hget. }
  rewrite (bind_assign_value _ _ _ l) by (done || cbn; lia).
  destruct (NpValues.convert _ _ (t_gx tr)) as [g|e1] eqn:Eg; [done|].
  cbn [rbind]. intros [= <-].
  rewrite (bind_assign_misfit _ _ _ e1) by (done || cbn; lia).
  eexists. split; [reflexivity|]. split; [done|]. split; [done|].
  by apply Hget.
Qed.

(** A value that cannot be assigned makes [store] raise: after any stores
    that returned, a store of a transition that does not fit the arrays
    raises the exception of its first value that does not fit, in the order
    of the assignments; the write pointer and the size are as before the
    call, and an observation that does fit has been written to the slot all
    the same. *)
Theorem replay_buffer_store_misfit (obs_dim act_dim : shape_arg) (C : Z)
    (ts : list (Transition Val)) (ts' : list (Transition Row)) (b0 : t Row)
    (tr : Transition Val) (e : exn) :
  1 <= C ->
  __init__ obs_dim act_dim C = Ok b0 ->
  Forall2 (fun tr tr' => ReplayBufferValues.as_stored b0 tr = Ok tr') ts ts' ->
  ReplayBufferValues.as_stored b0 tr = Raise e ->
  exists b b',
    ReplayBufferValues.stores ts b0 = (Ok tt, b) /\
    ReplayBufferValues.store_transition tr b = (Raise e, b') /\
    ptr b' = ptr b /\ size b' = size b /\
    forall o,
      NpValues.convert (dt (obs_buf b0)) (tl (shape (obs_buf b0))) (t_obs tr)
      = Ok o ->
      rows (obs_buf b') !! Z.to_nat (ptr b) = Some o.
Proof.
  intros HC Hinit Hconv Hbad.
  pose proof (init_inv _ _ _ _ HC Hinit) as Hring.
  rewrite (stores_converted C b0 ts ts' HC Hring Hconv).
  destruct (stores_layout C b0 ts' HC Hring) as (b & Hrun & Hinv & Hlay).
  rewrite <- (as_stored_layout b0 b tr Hlay) in Hbad.
  destruct (store_misfit b tr e (ri_wf _ _ _ Hinv) Hbad)
    as (b' & Hst & Hptr & Hsize & Hobs).
  exists b, b'. split; [done|]. split; [done|]. split; [done|].
  split; [done|].
  destruct Hlay as (E1 & _). injection E1 as Edt Esh.
  intros o Ho. apply Hobs. by rewrite Edt, Esh.
Qed.

End ReplayBufferMore.

(** ** [ReplayBufferMultimodal]: a store that fails half way *)

Section MultimodalMore.
Import Np ReplayBufferMultimodal MultimodalViews.
Context {Row : Type} `{RowType Row}.

Lemma assign_stream_run bufs set_bufs (k : string) (src : dict Row) (s : t Row) :
  assign_stream bufs set_bufs k src s
  = match dict_get src k with
    | Raise e => (Raise e, s)
    | Ok row =>
        match bufs s !! k with
        | None => (Raise (KeyError k), s)
        | Some a =>
            match setitem a (ptr s) row with
            | Raise e => (Raise e, s)
            | Ok a' => (Ok tt, set_bufs (<[k := a']> (bufs s)) s)
            end
        end
    end.
Proof.
  unfold assign_stream, Py.bind, Py.get, Py.lift, Py.modify, map_get.
  destruct (dict_get src k); [|done].
  destruct (bufs s !! k); [|done].
  by destruct (setitem _ _ _).
Qed.

Lemma nothing_recorded_refl (s : t Row) : nothing_recorded s s.
Proof. by repeat split. Qed.

Lemma nothing_recorded_trans (s1 s2 s3 : t Row) :
  nothing_recorded s1 s2 -> nothing_recorded s2 s3 -> nothing_recorded s1 s3.
Proof. unfold nothing_recorded. intros ? ?. intuition congruence. Qed.

(** One round of the loop on a key that is configured and present in both
    dictionaries. *)
Lemma store_round (obs next_obs : dict Row) (k : string) (s : t Row) :
  consistent s -> 1 <= max_size s ->
  k ∈ keys obs -> k ∈ keys next_obs -> k ∈ keys (env_observation_shapes s) ->
  exists s',
    (assign_stream obs_buf set_obs_buf k obs >>
     assign_stream obs2_buf set_obs2_buf k next_obs) s = (Ok tt, s') /\
    consistent s' /\ nothing_recorded s s' /\
    written (obs_buf s') (ptr s) obs k /\
    written (obs2_buf s') (ptr s) next_obs k /\
    (forall k', k' ≠ k ->
       obs_buf s' !! k' = obs_buf s !! k' /\ obs2_buf s' !! k' = obs2_buf s !! k').
Proof.
  intros Hc Hcap Hobs Hnext Hcfg.
  destruct (dict_get_key obs k Hobs) as [row Hrow].
  destruct (dict_get_key next_obs k Hnext) as [row2 Hrow2].
  destruct (proj2 (c_keys s Hc k) Hcfg) as [a Ha].
  destruct (proj2 (c_keys2 s Hc k) Hcfg) as [a2 Ha2].
  pose proof (c_obs s Hc k a Ha) as La. pose proof (c_obs2 s Hc k a2 Ha2) as La2.
  pose proof (c_ptr s Hc) as Hp.
  assert (Hset : setitem a (ptr s) row = Ok (write a (Z.to_nat (ptr s)) row))
    by (apply setitem_in_range; lia).
  assert (Hset2 : setitem a2 (ptr s) row2 = Ok (write a2 (Z.to_nat (ptr s)) row2))
    by (apply setitem_in_range; lia).
  set (s1 := set_obs_buf (<[k := write a (Z.to_nat (ptr s)) row]> (obs_buf s)) s).
  set (s2 := set_obs2_buf (<[k := write a2 (Z.to_nat (ptr s)) row2]> (obs2_buf s1)) s1).
  exists s2.
  assert (Hrun : (assign_stream obs_buf set_obs_buf k obs >>
     assign_stream obs2_buf set_obs2_buf k next_obs) s = (Ok tt, s2)).
  { unfold Py.bind. rewrite assign_stream_run, Hrow, Ha, Hset.
    rewrite assign_stream_run, Hrow2. cbn [obs2_buf s1 set_obs_buf ptr].
    by rewrite Ha2, Hset2. }
  split; [done|]. split.
  { pose proof (assign_obs_consistent k obs s Hc) as H1.
    rewrite assign_stream_run, Hrow, Ha, Hset in H1.
    pose proof (assign_obs2_consistent k next_obs _ H1) as H2.
    rewrite assign_stream_run, Hrow2 in H2. cbn [snd obs2_buf set_obs_buf ptr] in H2.
    by rewrite Ha2, Hset2 in H2. }
  split; [by repeat split|].
  split; [|split].
  - exists (write a (Z.to_nat (ptr s)) row), row. cbn.
    rewrite lookup_insert_eq. split; [done|]. split; [done|].
    by apply setitem_inv in Hset as [_ ?].
  - exists (write a2 (Z.to_nat (ptr s)) row2), row2. cbn.
    rewrite lookup_insert_eq. split; [done|]. split; [done|].
    by apply setitem_inv in Hset2 as [_ ?].
  - intros k' Hne. cbn. by rewrite !lookup_insert_ne.
Qed.



Lemma store_unfold (obs : dict Row) (act rew : Row) (next_obs : dict Row)
    (done lx gx : Row) :
  store obs act rew next_obs done lx gx
  = (for_each (keys obs) (fun obs_type =>
       assign_stream obs_buf set_obs_buf obs_type obs >>
       assign_stream obs2_buf set_obs2_buf obs_type next_obs) >>
     store_tail act rew done lx gx).
Proof. reflexivity. Qed.



Lemma store_tail_run (act rew done lx gx : Row) (s : t Row) :
  consistent s -> 1 <= max_size s ->
  exists s',
    store_tail act rew done lx gx s = (Ok tt, s') /\
    obs_buf s' = obs_buf s /\ obs2_buf s' = obs2_buf s /\
    ptr s' = (ptr s + 1) mod max_size s /\
    size s' = Z.min (size s + 1) (max_size s).
Proof.
  intros [] Hcap. unfold store_tail.
  do 5 (rewrite bind_assign_mm by (cbn; lia); cbn [ptr set_act_buf set_rew_buf
    set_done_buf set_lx_buf set_gx_buf]).
  unfold Py.bind, Py.get, Py.lift, Py.modify, py_mod. cbn.
  destruct (Z.eqb_spec (max_size s - ptr_start s) 0); [lia|].
  eexists. split; [reflexivity|]. cbn.
  rewrite c_start0, !Z.sub_0_r, Z.add_0_l. done.
Qed.

End MultimodalMore.

(** ** [ReplayBufferMultimodal.store] of the values a caller passes *)

Section MultimodalValuesFacts.
Import Np ReplayBufferMultimodal MultimodalViews.
Import ReplayBufferMultimodalValues (value_fits, stream_fits, stream_holds).
Context {Val Row : Type} `{RowType Row} `{NpValues.Conversion Val Row}.

Local Abbreviation assign_stream_v := ReplayBufferMultimodalValues.assign_stream.
Local Abbreviation assign_v := ReplayBufferMultimodalValues.assign.
Local Abbreviation store_v := ReplayBufferMultimodalValues.store.

Lemma setitem_value_cases (a : ndarray Row) (i : Z) (v : Val) :
  (exists e, NpValues.setitem a i v = Raise e) \/
  (exists row, NpValues.setitem a i v = setitem a i row).
Proof.
  destruct (NpValues.convert (dt a) (tl (shape a)) v) as [row|e] eqn:Hc.
  - right. exists row. by apply setitem_converted.
  - left. unfold NpValues.setitem. rewrite Hc.
    destruct (index _ i); by eexists.
Qed.

Lemma dict_get_singleton (k : string) (row : Row) :
  dict_get [(k, row)] k = Ok row.
Proof. cbn. by rewrite String.eqb_refl. Qed.

(** An assignment to a stream either raises and leaves the buffer as it
    was, or is the assignment of a row. *)
Lemma assign_stream_value_cases bufs set_bufs (k : string) (src : dict Val)
    (s : t Row) :
  (exists e, assign_stream_v bufs set_bufs k src s = (Raise e, s)) \/
  (exists row, assign_stream_v bufs set_bufs k src s
               = assign_stream bufs set_bufs k [(k, row)] s).
Proof.
  unfold ReplayBufferMultimodalValues.assign_stream, assign_stream.
  unfold Py.bind, Py.get, Py.lift, Py.modify, map_get.
  destruct (dict_get src k) as [v|e]; [|left; by eexists].
  destruct (bufs s !! k) as [a|] eqn:Ea; [|left; by eexists].
  destruct (setitem_value_cases a (ptr s) v) as [[e He]|[row Hrow]].
  - left. exists e. by rewrite He.
  - right. exists row. by rewrite dict_get_singleton, ?Ea, Hrow.
Qed.

Lemma assign_stream_converted bufs set_bufs (k : string) (src : dict Val)
    (s : t Row) (v : Val) (row : Row) (a : ndarray Row) :
  dict_get src k = Ok v -> bufs s !! k = Some a ->
  NpValues.convert (dt a) (tl (shape a)) v = Ok row ->
  assign_stream_v bufs set_bufs k src s
  = assign_stream bufs set_bufs k [(k, row)] s.
Proof.
  intros Hv Ha Hc.
  unfold ReplayBufferMultimodalValues.assign_stream, assign_stream.
  unfold Py.bind, Py.get, Py.lift, Py.modify, map_get.
  by rewrite Hv, dict_get_singleton, Ha, (setitem_converted _ _ _ _ Hc).
Qed.

Lemma assign_value_cases buf set_buf (v : Val) (s : t Row) :
  (exists e, assign_v buf set_buf v s = (Raise e, s)) \/
  (exists row, assign_v buf set_buf v s = assign buf set_buf row s).
Proof.
  unfold ReplayBufferMultimodalValues.assign, assign.
  unfold Py.bind, Py.get, Py.lift, Py.modify.
  destruct (setitem_value_cases (buf s) (ptr s) v) as [[e He]|[row Hrow]].
  - left. exists e. by rewrite He.
  - right. exists row. by rewrite Hrow.
Qed.

Lemma preserves_cases {A} (P : t Row -> Prop) (c : M (t Row) A)
    (c' : Row -> M (t Row) A) :
  (forall s, (exists e, c s = (Raise e, s)) \/ (exists row, c s = c' row s)) ->
  (forall row, preserves P (c' row)) -> preserves P c.
Proof.
  intros Hcases Hc' s Hs. destruct (Hcases s) as [[e ->]|[row ->]]; [done|].
  by apply Hc'.
Qed.

(** [store] keeps the invariant of the buffers, however it ends. *)
Lemma store_values_consistent (obs : dict Val) (act rew : Val)
    (next_obs : dict Val) (done lx gx : Val) :
  preserves consistent (store_v obs act rew next_obs done lx gx).
Proof.
  unfold ReplayBufferMultimodalValues.store.
  apply preserves_bind.
  { apply preserves_for_each. intros k _. apply preserves_bind.
    - apply (preserves_cases _ _ (fun row =>
        assign_stream obs_buf set_obs_buf k [(k, row)]));
        [apply assign_stream_value_cases|intros row; apply assign_obs_consistent].
    - intros _. apply (preserves_cases _ _ (fun row =>
        assign_stream obs2_buf set_obs2_buf k [(k, row)]));
        [apply assign_stream_value_cases|intros row; apply assign_obs2_consistent]. }
  intros _.
  repeat (apply preserves_bind;
          [eapply preserves_cases;
             [apply assign_value_cases
             |intros row; apply assign_preserves; intros s a' [] Ha; split; cbn;
              (done || lia)]
          |intros _]).
  apply preserves_get. intros s Hs. unfold Py.bind, Py.lift, Py.modify, py_mod.
  destruct Hs.
  destruct (Z.eqb_spec (max_size s - ptr_start s) 0); [by split|]. cbn.
  split; cbn; try done; try lia.
  rewrite c_start0, !Z.sub_0_r, Z.add_0_l.
  pose proof (Z.mod_pos_bound (ptr s + 1) (max_size s) ltac:(lia)). lia.
Qed.

Lemma reachable_values_consistent (b : t Row) :
  ReplayBufferMultimodalValues.reachable b -> consistent b.
Proof.
  induction 1 as [shapes act_dim C b Hinit
                 |b obs act rew next_obs done lx gx r b' _ IH Hst].
  - by eapply init_consistent.
  - pose proof (store_values_consistent obs act rew next_obs done lx gx b IH)
      as Hc.
    by rewrite Hst in Hc.
Qed.

(** One round of the loop on a key whose two entries can be assigned. *)
Lemma store_round_values (obs next_obs : dict Val) (k : string) (s : t Row) :
  consistent s -> 1 <= max_size s ->
  stream_fits (obs_buf s) obs k -> stream_fits (obs2_buf s) next_obs k ->
  exists s',
    (assign_stream_v obs_buf set_obs_buf k obs >>
     assign_stream_v obs2_buf set_obs2_buf k next_obs) s = (Ok tt, s') /\
    consistent s' /\ nothing_recorded s s' /\
    stream_holds (obs_buf s) (obs_buf s') (ptr s) obs k /\
    stream_holds (obs2_buf s) (obs2_buf s') (ptr s) next_obs k /\
    (forall k', k' ≠ k ->
       obs_buf s' !! k' = obs_buf s !! k' /\ obs2_buf s' !! k' = obs2_buf s !! k').
Proof.
  intros Hc Hcap (v & a & Hv & Ha & row & Hrow)
    (v2 & a2 & Hv2 & Ha2 & row2 & Hrow2).
  assert (Hcfg : k ∈ keys (env_observation_shapes s)).
  { apply (c_keys s Hc). by rewrite Ha. }
  destruct (store_round [(k, row)] [(k, row2)] k s Hc Hcap)
    as (s' & Hrun & Hc' & Hn & Hw & Hw2 & Hf);
    [apply list_elem_of_here|apply list_elem_of_here|done|].
  exists s'. split.
  { rewrite <- Hrun. unfold Py.bind.
    rewrite (assign_stream_converted _ _ _ _ _ _ _ _ Hv Ha Hrow).
    rewrite assign_stream_run, dict_get_singleton, Ha.
    destruct (setitem a (ptr s) row) as [a'|]; [|done].
    by apply (assign_stream_converted _ _ _ _ _ v2 row2 a2). }
  split; [done|]. split; [done|]. split; [|split; [|done]].
  - destruct Hw as (a' & row' & Ha' & Hget & Hitem).
    rewrite dict_get_singleton in Hget. injection Hget as <-.
    by exists v, a, row, a'.
  - destruct Hw2 as (a' & row' & Ha' & Hget & Hitem).
    rewrite dict_get_singleton in Hget. injection Hget as <-.
    by exists v2, a2, row2, a'.
Qed.

(** The loop over distinct keys whose entries can all be assigned returns,
    having written every one of them in both mappings. *)
Lemma store_rounds_values (obs next_obs : dict Val) (ks : list string)
    (s : t Row) :
  consistent s -> 1 <= max_size s -> NoDup ks ->
  (forall k, k ∈ ks ->
     stream_fits (obs_buf s) obs k /\ stream_fits (obs2_buf s) next_obs k) ->
  exists s',
    for_each ks (fun obs_type =>
      assign_stream_v obs_buf set_obs_buf obs_type obs >>
      assign_stream_v obs2_buf set_obs2_buf obs_type next_obs) s = (Ok tt, s') /\
    consistent s' /\ nothing_recorded s s' /\
    (forall k, k ∈ ks ->
       stream_holds (obs_buf s) (obs_buf s') (ptr s) obs k /\
       stream_holds (obs2_buf s) (obs2_buf s') (ptr s) next_obs k) /\
    (forall k, k ∉ ks ->
       obs_buf s' !! k = obs_buf s !! k /\ obs2_buf s' !! k = obs2_buf s !! k).
Proof.
  revert s. induction ks as [|k ks IH]; intros s Hc Hcap Hnd Hks.
  - exists s. split; [done|]. split; [done|].
    split; [apply nothing_recorded_refl|].
    split; [|done]. intros k Hk. by apply elem_of_nil in Hk.
  - apply NoDup_cons in Hnd as [Hk Hnd].
    destruct (Hks k) as (Hfo & Hfn); [apply list_elem_of_here|].
    destruct (store_round_values obs next_obs k s Hc Hcap Hfo Hfn)
      as (s1 & Hrun1 & Hc1 & Hn1 & Hw1 & Hw1' & Hf1).
    pose proof Hn1 as (Hp1 & _ & Hm1 & _).
    destruct (IH s1) as (s2 & Hrun2 & Hc2 & Hn2 & Hw2 & Hf2); [done|lia|done|..].
    { intros k' Hk'.
      assert (k' ≠ k) by (by intros ->).
      destruct (Hf1 k') as [E1 E2]; [done|].
      unfold stream_fits. rewrite E1, E2.
      apply Hks. by apply list_elem_of_further. }
    exists s2. split.
    { cbn [for_each]. unfold Py.bind at 1. by rewrite Hrun1. }
    split; [done|]. split; [by eapply nothing_recorded_trans|].
    rewrite Hp1 in Hw2. split.
    + intros k' Hk'. apply elem_of_cons in Hk' as [->|Hk'].
      * destruct (Hf2 k Hk) as [E1 E2].
        destruct Hw1 as (v & a & row & a' & ? & ? & ? & ? & ?).
        destruct Hw1' as (v' & a2 & row' & a2' & ? & ? & ? & ? & ?).
        split; [exists v, a, row, a'|exists v', a2, row', a2'];
          by rewrite ?E1, ?E2.
      * assert (k' ≠ k) by (by intros ->).
        destruct (Hf1 k') as [E1 E2]; [done|].
        destruct (Hw2 k' Hk') as [Ho Ho2].
        destruct Ho as (v & a & row & a' & ? & ? & ? & ? & ?).
        destruct Ho2 as (v' & a2 & row' & a2' & ? & ? & ? & ? & ?).
        split; [exists v, a, row, a'|exists v', a2, row', a2'];
          by rewrite <- ?E1, <- ?E2.
    + intros k' Hk'.
      assert (k' ≠ k) by (intros ->; apply Hk', list_elem_of_here).
      assert (k' ∉ ks) by (intros ?; by apply Hk', list_elem_of_further).
      destruct (Hf2 k') as [-> ->]; [done|]. by apply Hf1.
Qed.

Lemma bind_assign_value_converted {B} (buf : t Row -> ndarray Row) set_buf
    (v : Val) (row : Row) (k k' : unit -> M (t Row) B) (s : t Row) :
  NpValues.convert (dt (buf s)) (tl (shape (buf s))) v = Ok row ->
  (forall a, k tt (set_buf a s) = k' tt (set_buf a s)) ->
  Py.bind (assign_v buf set_buf v) k s = Py.bind (assign buf set_buf row) k' s.
Proof.
  intros Hc Hk.
  unfold ReplayBufferMultimodalValues.assign, assign, Py.bind, Py.get, Py.lift,
    Py.modify.
  rewrite (setitem_converted _ _ _ _ Hc).
  destruct (setitem (buf s) (ptr s) row); [apply Hk|done].
Qed.

(** A store whose observation has distinct keys, each a stream of the buffer
    and present in the next observation, and whose values can all be assigned
    to their slots, returns; each of those streams then holds the stored
    observation and next observation, as converted for the stream, at the old
    write position; the pointer has moved one slot round the ring and the
    size has grown by one up to the capacity. *)
Theorem multimodal_store_round_trip (obs : dict Val) (act rew : Val)
    (next_obs : dict Val) (done lx gx : Val) (b : t Row) :
  ReplayBufferMultimodalValues.reachable b -> 1 <= max_size b ->
  NoDup (keys obs) ->
  (forall k, k ∈ keys obs ->
     stream_fits (obs_buf b) obs k /\ stream_fits (obs2_buf b) next_obs k) ->
  value_fits (act_buf b) act -> value_fits (rew_buf b) rew ->
  value_fits (done_buf b) done -> value_fits (lx_buf b) lx ->
  value_fits (gx_buf b) gx ->
  exists b',
    store_v obs act rew next_obs done lx gx b = (Ok tt, b') /\
    ptr b' = (ptr b + 1) mod max_size b /\
    size b' = Z.min (size b + 1) (max_size b) /\
    forall k, k ∈ keys obs ->
      stream_holds (obs_buf b) (obs_buf b') (ptr b) obs k /\
      stream_holds (obs2_buf b) (obs2_buf b') (ptr b) next_obs k.
Proof.
  intros Hreach Hcap Hnd Hfits Ha Hr Hd Hl Hg.
  pose proof (reachable_values_consistent b Hreach) as Hc.
  destruct (store_rounds_values obs next_obs (keys obs) b Hc Hcap Hnd Hfits)
    as (s1 & Hrun & Hc1 & Hn1 & Hw & _).
  destruct Hn1 as (Hp1 & Hs1 & Hm1 & _ & _ & Ea & Er & Ed & El & Eg).
  rewrite <- Ea in Ha. rewrite <- Er in Hr. rewrite <- Ed in Hd.
  rewrite <- El in Hl. rewrite <- Eg in Hg.
  assert (Htail : exists act' rew' done' lx' gx',
    (assign_v act_buf set_act_buf act >>
     assign_v rew_buf set_rew_buf rew >>
     assign_v done_buf set_done_buf done >>
     assign_v lx_buf set_lx_buf lx >>
     assign_v gx_buf set_gx_buf gx >>
     let! self := get in
     let! m := lift (py_mod (ptr self + 1 - ptr_start self)
                            (max_size self - ptr_start self)) in
     modify (set_ptr (ptr_start self + m)) >>
     let! self := get in
     modify (set_size (Z.min (size self + 1) (max_size self)))) s1
    = store_tail act' rew' done' lx' gx' s1).
  { destruct Ha as [act' Ha], Hr as [rew' Hr], Hd as [done' Hd],
      Hl as [lx' Hl], Hg as [gx' Hg].
    exists act', rew', done', lx', gx'. unfold store_tail.
    apply bind_assign_value_converted; [exact Ha|]. intros a1.
    apply bind_assign_value_converted; [exact Hr|]. intros a2.
    apply bind_assign_value_converted; [exact Hd|]. intros a3.
    apply bind_assign_value_converted; [exact Hl|]. intros a4.
    apply bind_assign_value_converted; [exact Hg|]. intros a5.
    reflexivity. }
  destruct Htail as (act' & rew' & done' & lx' & gx' & Htail).
  destruct (store_tail_run act' rew' done' lx' gx' s1 Hc1 ltac:(lia))
    as (b' & Hrun' & Ho & Ho2 & Hptr & Hsize).
  exists b'. split.
  { unfold ReplayBufferMultimodalValues.store. unfold Py.bind at 1.
    rewrite Hrun. rewrite <- Hrun', <- Htail. reflexivity. }
  rewrite Hptr, Hsize, Hp1, Hs1, Hm1, Ho, Ho2. done.
Qed.

End MultimodalValuesFacts.

(** ** [ReplayBufferMultimodal]: dtype and shape of the streams *)

Section MultimodalLayout.
Import Np ReplayBufferMultimodal MultimodalViews.
Context {Row : Type} `{RowType Row}.

Lemma zeros_layout (shp : list Z) (d : dtype) (a : ndarray Row) :
  zeros shp d = Ok a -> dt a = d /\ shape a = shp.
Proof. unfold zeros. destruct (forallb _ shp); [|done]. by intros [= <-]. Qed.

Lemma alloc_streams_layout (shapes : dict shape_arg) (C : Z)
    (m1 m2 m1' m2' : gmap string (ndarray Row)) :
  alloc_streams shapes C (m1, m2) = Ok (m1', m2') ->
  (forall k a, m1' !! k = Some a ->
     m1 !! k = Some a \/
     (dt a = stream_dtype k /\
      exists sh, (k, sh) ∈ shapes /\ shape a = combined_shape C sh)) /\
  (forall k a, m2' !! k = Some a ->
     m2 !! k = Some a \/
     (dt a = stream_dtype k /\
      exists sh, (k, sh) ∈ shapes /\ shape a = combined_shape C sh)).
Proof.
  revert m1 m2. induction shapes as [|[k0 sh0] shapes IH]; intros m1 m2.
  - intros [= <- <-]. by split; left.
  - cbn [alloc_streams]. unfold Py.rbind.
    destruct (zeros (combined_shape C sh0) (stream_dtype k0)) as [a0|] eqn:Ea; [|done].
    cbn [fst snd]. intros Hrest.
    apply zeros_layout in Ea as [Hd Hs].
    apply IH in Hrest as [L1 L2].
    assert (Hnew : dt a0 = stream_dtype k0 /\
      exists sh, (k0, sh) ∈ (k0, sh0) :: shapes /\ shape a0 = combined_shape C sh).
    { split; [done|]. exists sh0. split; [apply elem_of_cons; by left|done]. }
    split; intros k a Hk.
    + apply L1 in Hk as [Hk|(? & sh & ? & ?)].
      * destruct (decide (k0 = k)) as [<-|Hne].
        -- rewrite lookup_insert_eq in Hk. injection Hk as <-. by right.
        -- rewrite lookup_insert_ne in Hk by done. by left.
      * right. split; [done|]. exists sh. split; [apply elem_of_cons; by right|done].
    + apply L2 in Hk as [Hk|(? & sh & ? & ?)].
      * destruct (decide (k0 = k)) as [<-|Hne].
        -- rewrite lookup_insert_eq in Hk. injection Hk as <-. by right.
        -- rewrite lookup_insert_ne in Hk by done. by left.
      * right. split; [done|]. exists sh. split; [apply elem_of_cons; by right|done].
Qed.

Lemma init_laid_out (shapes : dict shape_arg) (act_dim : shape_arg) (C : Z)
    (b : t Row) :
  __init__ shapes act_dim C = Ok b -> laid_out b.
Proof.
  unfold __init__, Py.rbind.
  destruct (alloc_streams shapes C (∅, ∅)) as [[m1 m2]|] eqn:Ealloc; [|done].
  destruct (zeros (combined_shape C act_dim) float32) as [a|]; [|done].
  destruct (zeros [C] float32) as [z|]; [|done].
  intros [= <-].
  apply alloc_streams_layout in Ealloc as [L1 L2].
  split; intros k x Hk; cbn in Hk.
  - by apply L1 in Hk as [Hk|?]; [rewrite lookup_empty in Hk|].
  - by apply L2 in Hk as [Hk|?]; [rewrite lookup_empty in Hk|].
Qed.

Lemma setitem_layout (a a' : ndarray Row) (i : Z) (row : Row) :
  setitem a i row = Ok a' -> dt a' = dt a /\ shape a' = shape a.
Proof.
  unfold setitem. destruct (index _ _); [|done]. by intros [= <-].
Qed.

Lemma assign_obs_laid_out (k : string) (src : dict Row) :
  preserves laid_out (assign_stream obs_buf set_obs_buf k src).
Proof.
  intros s [L1 L2]. rewrite assign_stream_run.
  destruct (dict_get src k) as [row|]; [|done].
  destruct (obs_buf s !! k) as [a|] eqn:Ea; [|done].
  destruct (setitem a (ptr s) row) as [a'|] eqn:Es; [|done].
  apply setitem_layout in Es as [Hd Hs]. cbn. split; [|done].
  intros k' x. cbn. destruct (decide (k = k')) as [<-|Hne].
  - rewrite lookup_insert_eq. intros [= <-].
    unfold stream_laid_out. cbn. rewrite Hd, Hs. by apply (L1 k a).
  - rewrite lookup_insert_ne by done. apply L1.
Qed.

Lemma assign_obs2_laid_out (k : string) (src : dict Row) :
  preserves laid_out (assign_stream obs2_buf set_obs2_buf k src).
Proof.
  intros s [L1 L2]. rewrite assign_stream_run.
  destruct (dict_get src k) as [row|]; [|done].
  destruct (obs2_buf s !! k) as [a|] eqn:Ea; [|done].
  destruct (setitem a (ptr s) row) as [a'|] eqn:Es; [|done].
  apply setitem_layout in Es as [Hd Hs]. cbn. split; [done|].
  intros k' x. cbn. destruct (decide (k = k')) as [<-|Hne].
  - rewrite lookup_insert_eq. intros [= <-].
    unfold stream_laid_out. cbn. rewrite Hd, Hs. by apply (L2 k a).
  - rewrite lookup_insert_ne by done. apply L2.
Qed.

Lemma store_laid_out (obs : dict Row) (act rew : Row) (next_obs : dict Row)
    (done lx gx : Row) :
  preserves laid_out (store obs act rew next_obs done lx gx).
Proof.
  rewrite store_unfold. apply preserves_bind.
  - apply preserves_for_each. intros k _.
    apply preserves_bind; [apply assign_obs_laid_out|].
    intros _. apply assign_obs2_laid_out.
  - intros _. by apply store_tail_preserves.
Qed.

Lemma reachable_laid_out (b : t Row) : reachable b -> laid_out b.
Proof.
  induction 1 as [shapes act_dim C b Hinit|b obs act rew next_obs done lx gx r b' _ IH Hst].
  - by eapply init_laid_out.
  - pose proof (store_laid_out obs act rew next_obs done lx gx b IH) as Hl.
    by rewrite Hst in Hl.
Qed.

Lemma sample_window_layout (a o : ndarray Row) (idxs : list Z) (d : dtype) :
  sample_window a idxs d = Ok o ->
  dt o = d /\ shape o = Z.of_nat (length idxs) :: 1 :: tl (shape a).
Proof.
  unfold sample_window, Py.rbind, getitems.
  destruct (gather (rows a) idxs); [|done]. cbn. by intros [= <-].
Qed.

(** Where the entries of the sampled mappings come from. *)
Lemma sample_streams_origin (b : t Row) (idxs : list Z) (ks : list string)
    (acc res : gmap string (ndarray Row) * gmap string (ndarray Row)) :
  sample_streams b idxs ks acc = Ok res ->
  (forall k o, res.1 !! k = Some o ->
     acc.1 !! k = Some o \/
     exists a, obs_buf b !! k = Some a /\
               sample_window a idxs (stream_dtype k) = Ok o) /\
  (forall k o, res.2 !! k = Some o ->
     acc.2 !! k = Some o \/
     exists a, obs2_buf b !! k = Some a /\
               sample_window a idxs (stream_dtype k) = Ok o).
Proof.
  revert acc. induction ks as [|k0 ks IH]; intros acc.
  - intros [= <-]. by split; left.
  - cbn [sample_streams]. unfold Py.rbind, map_get.
    destruct (obs_buf b !! k0) as [a|] eqn:Ea; [|done].
    destruct (sample_window a idxs (stream_dtype k0)) as [o1|] eqn:Eo; [|done].
    destruct (obs2_buf b !! k0) as [a2|] eqn:Ea2; [|done].
    destruct (sample_window a2 idxs (stream_dtype k0)) as [o2|] eqn:Eo2; [|done].
    intros Hrest. apply IH in Hrest as [H1 H2]. cbn [fst snd] in H1, H2.
    split; intros k o Hk.
    + apply H1 in Hk as [Hk|?]; [|by right].
      destruct (decide (k0 = k)) as [<-|Hne].
      * rewrite lookup_insert_eq in Hk. injection Hk as <-. right. by exists a.
      * rewrite lookup_insert_ne in Hk by done. by left.
    + apply H2 in Hk as [Hk|?]; [|by right].
      destruct (decide (k0 = k)) as [<-|Hne].
      * rewrite lookup_insert_eq in Hk. injection Hk as <-. right. by exists a2.
      * rewrite lookup_insert_ne in Hk by done. by left.
Qed.

(** [sample_batch] on a buffer with a transition in it: it returns, both
    mappings have an entry for every configured stream, and every entry comes
    from the stream array of its key. *)
Lemma sample_batch_streams (b : t Row) (n : Z) (g : Rng) :
  reachable b -> 1 <= size b -> 0 <= n ->
  exists batch g' idxs,
    sample_batch n (b, g) = (Ok batch, (b, g')) /\
    Z.of_nat (length idxs) = n /\
    (forall k, k ∈ keys (env_observation_shapes b) ->
       is_Some (b_obs batch !! k) /\ is_Some (b_obs2 batch !! k)) /\
    (forall k o, b_obs batch !! k = Some o ->
       exists a, obs_buf b !! k = Some a /\
                 sample_window a idxs (stream_dtype k) = Ok o) /\
    (forall k o, b_obs2 batch !! k = Some o ->
       exists a, obs2_buf b !! k = Some a /\
                 sample_window a idxs (stream_dtype k) = Ok o).
Proof.
  intros Hreach Hs Hn.
  pose proof (reachable_consistent b Hreach) as Hc.
  destruct (randint_range (size b) n g Hs Hn) as (idxs & g' & Hri & Hlen & Hidx).
  pose proof (c_size b Hc) as Hsz.
  destruct (sample_streams_windowed b idxs (size b)
              (elements (dom (obs_buf b))) (∅, ∅) Hidx)
    as (res & Hres & Hsome & _ & _).
  { intros k Hk. apply elem_of_elements, elem_of_dom in Hk.
    pose proof (proj1 (c_keys b Hc k) Hk) as Hcfg.
    destruct Hk as [a Ha].
    destruct (proj2 (c_keys2 b Hc k) Hcfg) as [a2 Ha2].
    exists a, a2. repeat split; try done.
    - rewrite (c_obs b Hc k a Ha). lia.
    - rewrite (c_obs2 b Hc k a2 Ha2). lia. }
  destruct (sample_window_windowed (act_buf b) idxs float32 (size b))
    as (a & Ha & _); [rewrite (c_act b Hc); lia|done|].
  destruct (getitems_in_range (rew_buf b) idxs (size b)) as (r & Er & _);
    [rewrite (c_rew b Hc); lia|done|].
  destruct (getitems_in_range (done_buf b) idxs (size b)) as (d & Ed & _);
    [rewrite (c_done b Hc); lia|done|].
  destruct (getitems_in_range (lx_buf b) idxs (size b)) as (l & El & _);
    [rewrite (c_lx b Hc); lia|done|].
  destruct (getitems_in_range (gx_buf b) idxs (size b)) as (x & Ex & _);
    [rewrite (c_gx b Hc); lia|done|].
  pose proof (sample_streams_origin _ _ _ _ _ Hres) as [O1 O2].
  eexists _, g', idxs. split.
  { unfold sample_batch. cbn [fst snd]. rewrite Hri. unfold Py.rbind.
    rewrite Hres, Ha, Er, Ed, El, Ex. reflexivity. }
  split; [lia|]. cbn. split; [|split].
  - intros k Hk. apply Hsome, elem_of_elements, elem_of_dom.
    by apply (c_keys b Hc k).
  - intros k o Hk. destruct (O1 k o Hk) as [Habs|?]; [|done].
    cbn in Habs. by rewrite lookup_empty in Habs.
  - intros k o Hk. destruct (O2 k o Hk) as [Habs|?]; [|done].
    cbn in Habs. by rewrite lookup_empty in Habs.
Qed.

(** Sampling keeps the layout of the streams: the sampled array of a
    stream, observation or next observation, has the dtype of the stream
    (bytes when the name contains "rgb", float32 otherwise) and the shape
    [(n, 1) + env_observation_shapes[k]] of a batch of [n] windows of one
    slot each. *)
Theorem multimodal_sample_layout (b : t Row) (n : Z) (g : Rng) :
  reachable b -> 1 <= size b -> 0 <= n ->
  exists batch g',
    sample_batch n (b, g) = (Ok batch, (b, g')) /\
    forall k o,
      b_obs batch !! k = Some o \/ b_obs2 batch !! k = Some o ->
      dt o = (if str_contains "rgb" k then uint8 else float32) /\
      exists sh, (k, sh) ∈ env_observation_shapes b /\
                 shape o = n :: 1 :: tl (combined_shape (max_size b) sh).
Proof.
  intros Hreach Hs Hn.
  destruct (sample_batch_streams b n g Hreach Hs Hn)
    as (batch & g' & idxs & Hrun & Hlen & _ & O1 & O2).
  destruct (reachable_laid_out b Hreach) as [L1 L2].
  exists batch, g'. split; [done|].
  intros k o [Hk|Hk].
  - destruct (O1 k o Hk) as (a & Ha & Hw).
    apply sample_window_layout in Hw as [Hd Hsh].
    destruct (L1 k a Ha) as (_ & sh & Hin & Hsa).
    split; [done|]. exists sh. split; [done|]. by rewrite Hsh, Hsa, Hlen.
  - destruct (O2 k o Hk) as (a & Ha & Hw).
    apply sample_window_layout in Hw as [Hd Hsh].
    destruct (L2 k a Ha) as (_ & sh & Hin & Hsa).
    split; [done|]. exists sh. split; [done|]. by rewrite Hsh, Hsa, Hlen.
Qed.

Lemma get_batch_lookup_aux (o : dict (array_like Row)) (acc : gmap string (ndarray Row))
    (k : string) :
  k ∉ keys o ->
  foldl (fun o_new kv => <[kv.1 := lone_window kv.2]> o_new) acc o !! k = acc !! k.
Proof.
  revert acc. unfold keys. induction o as [|[k0 v0] o IH]; intros acc Hk; [done|].
  cbn. rewrite IH.
  - apply lookup_insert_ne. intros ->. apply Hk. cbn. apply elem_of_cons. by left.
  - intros Hin. apply Hk. cbn. apply elem_of_cons. by right.
Qed.

Lemma get_batch_lookup (o : dict (array_like Row)) (k : string) (v : array_like Row) :
  NoDup (keys o) -> (k, v) ∈ o ->
  get_batch_from_obs o !! k = Some (lone_window v).
Proof.
  unfold get_batch_from_obs. generalize (∅ : gmap string (ndarray Row)).
  unfold keys. induction o as [|[k0 v0] o IH]; intros acc Hnd Hin.
  - by apply elem_of_nil in Hin.
  - cbn in Hnd. apply NoDup_cons in Hnd as [Hk0 Hnd]. cbn.
    apply elem_of_cons in Hin as [[= -> ->]|Hin].
    + rewrite (get_batch_lookup_aux o _ k0 Hk0). apply lookup_insert_eq.
    + by apply IH.
Qed.

(** [get_batch_from_obs] wraps an observation the way [sample_batch] lays out
    a batch of one: for a stream of the buffer and an observation that has the
    shape of one slot of that stream, both give the same shape [(1, 1) + slot
    shape].  The dtypes differ for image streams: [get_batch_from_obs] always
    makes float32, [sample_batch] makes bytes when the name contains "rgb". *)
Theorem get_batch_from_obs_matches_sample (b : t Row) (g : Rng)
    (o : dict (array_like Row)) (k : string) (v : array_like Row) (a : ndarray Row) :
  reachable b -> 1 <= size b ->
  NoDup (keys o) -> (k, v) ∈ o ->
  obs_buf b !! k = Some a -> al_shape v = tl (shape a) ->
  exists batch g' t s,
    sample_batch 1 (b, g) = (Ok batch, (b, g')) /\
    get_batch_from_obs o !! k = Some t /\
    b_obs batch !! k = Some s /\
    shape t = shape s /\
    dt t = float32 /\
    dt s = (if str_contains "rgb" k then uint8 else float32).
Proof.
  intros Hreach Hs Hnd Hin Ha Hshape.
  destruct (sample_batch_streams b 1 g Hreach Hs ltac:(lia))
    as (batch & g' & idxs & Hrun & Hlen & Hsome & O1 & _).
  pose proof (reachable_consistent b Hreach) as Hc.
  destruct (Hsome k) as [[s Hk] _].
  { apply (c_keys b Hc k). by rewrite Ha. }
  destruct (O1 k s Hk) as (a' & Ha' & Hw).
  rewrite Ha in Ha'. injection Ha' as <-.
  apply sample_window_layout in Hw as [Hd Hsh].
  exists batch, g', (lone_window v), s.
  split; [done|]. split; [by apply get_batch_lookup|]. split; [done|].
  split; [|done]. cbn. by rewrite Hsh, Hlen, Hshape.
Qed.

End MultimodalLayout.

(** ** [get_cost]: what reward shaping writes where *)

Section EnvMore.
Import BaseMujocoEnv CostShaping.
Context {F : Type} `{Scalar F}.
Context {Sim State : Type} `{Capabilities Sim State}.

Lemma mask_write_lookup (mask : list bool) (x : F) (a : list F) (i : nat) :
  mask_write mask x a !! i
  = match mask !! i, a !! i with
    | Some m, Some y => Some (if (m : bool) then x else y)
    | _, _ => None
    end.
Proof.
  unfold mask_write. rewrite lookup_zip_with.
  destruct (mask !! i) as [m|]; [|done]. cbn. by destruct (a !! i).
Qed.

(** The heap after the four assignments of the shaping block. *)
Lemma shaping_block_run (c l_x g_x : ref) (success fail : list bool) (p q : F)
    (h : heap F) (cv l g : list F) :
  h !! c = Some cv -> h !! l_x = Some l -> h !! g_x = Some g ->
  l_x ≠ g_x -> c ≠ g_x ->
  length cv = length l -> length g = length l ->
  length success = length l -> length fail = length l ->
  exists h',
    (setmask (VArr c) success p >> setmask (VArr c) fail q >>
     setmask (VArr l_x) success p >> setmask (VArr g_x) fail q) h
    = (Ok tt, h') /\
    h' !! g_x = Some (mask_write fail q g) /\
    (c = l_x ->
     h' !! l_x
     = Some (mask_write success p (mask_write fail q (mask_write success p l)))) /\
    (c ≠ l_x ->
     h' !! l_x = Some (mask_write success p l) /\
     h' !! c = Some (mask_write fail q (mask_write success p cv))).
Proof.
  intros Hc Hl Hg Hlg Hcg Lc Lg Ls Lf.
  pose proof (lookup_lt_Some _ _ _ Hc) as Bc.
  pose proof (lookup_lt_Some _ _ _ Hl) as Bl.
  pose proof (lookup_lt_Some _ _ _ Hg) as Bg.
  set (c1 := mask_write success p cv).
  set (c2 := mask_write fail q c1).
  assert (L1 : length c1 = length l)
    by (unfold c1; rewrite mask_write_length; lia).
  assert (L2 : length c2 = length l)
    by (unfold c2; rewrite mask_write_length; lia).
  rewrite (setmask_bind c success p _ h cv) by (done || lia).
  rewrite (setmask_bind c fail q _ _ c1)
    by (by rewrite ?list_lookup_insert_eq || lia).
  rewrite list_insert_insert_eq. fold c2.
  destruct (decide (c = l_x)) as [->|Hcl].
  - assert (cv = l) as -> by congruence.
    set (l3 := mask_write success p c2).
    rewrite (setmask_bind l_x success p _ _ c2)
      by (by rewrite ?list_lookup_insert_eq || lia).
    rewrite list_insert_insert_eq. fold l3.
    assert (Hg3 : <[l_x := l3]> h !! g_x = Some g)
      by (by rewrite list_lookup_insert_ne).
    exists (<[g_x := mask_write fail q g]> (<[l_x := l3]> h)).
    split.
    { unfold setmask, Py.bind, deref, Py.modify. rewrite Hg3.
      replace (length fail =? length g)%nat with true; [done|].
      symmetry. apply Nat.eqb_eq. lia. }
    split; [by rewrite list_lookup_insert_eq by (by rewrite length_insert)|].
    split; [|done]. intros _.
    rewrite list_lookup_insert_ne by done. by rewrite list_lookup_insert_eq.
  - set (l3 := mask_write success p l).
    assert (Hl2 : <[c := c2]> h !! l_x = Some l)
      by (by rewrite list_lookup_insert_ne).
    rewrite (setmask_bind l_x success p _ _ l) by (done || lia). fold l3.
    assert (Hg3 : <[l_x := l3]> (<[c := c2]> h) !! g_x = Some g)
      by (by rewrite !list_lookup_insert_ne).
    exists (<[g_x := mask_write fail q g]> (<[l_x := l3]> (<[c := c2]> h))).
    split.
    { unfold setmask, Py.bind, deref, Py.modify. rewrite Hg3.
      replace (length fail =? length g)%nat with true; [done|].
      symmetry. apply Nat.eqb_eq. lia. }
    split; [by rewrite list_lookup_insert_eq by (by rewrite !length_insert)|].
    split; [done|]. intros _. split.
    + rewrite list_lookup_insert_ne by done.
      by rewrite list_lookup_insert_eq by (by rewrite length_insert).
    + rewrite !list_lookup_insert_ne by done. by rewrite list_lookup_insert_eq.
Qed.

(** [get_cost] under reward shaping runs the four assignments with the bonus
    and the penalty of the mode. *)
Lemma get_cost_shaping (self : t F Sim) (l_x g_x : ref)
    (success fail : list bool) :
  default false (shape_reward self) = true ->
  get_cost self l_x g_x success fail
  = (let! cost :=
       if String.eqb (costType self) "dense_ell" then ret (VArr l_x)
       else if String.eqb (costType self) "dense" then elementwise fadd l_x g_x
       else if String.eqb (costType self) "sparse" then ret (VFloat fzero)
       else if String.eqb (costType self) "max_ell_g" then
         if str_contains "reward" (return_type self)
         then elementwise fminimum l_x g_x
         else elementwise fmaximum l_x g_x
       else raise (ValueError "invalid cost type!") in
     shaping cost l_x g_x success fail (bonus self) (penalty_value self) >>
     ret (cost, l_x, g_x)).
Proof.
  intros Hshape. unfold get_cost, shaping, bonus, penalty_value.
  rewrite Hshape. by destruct (str_contains "reward" (return_type self)).
Qed.

(** [get_cost] under reward shaping, for the cost kinds that make an array:
    what it returns and what the three arrays hold afterwards.  [d] is the
    documented cost before shaping. *)
Lemma get_cost_shaped_run (self : t F Sim) (l_x g_x : ref)
    (success fail : list bool) (h : heap F) (l g : list F) :
  default false (shape_reward self) = true ->
  costType self ∈ shaped_cost_kinds ->
  h !! l_x = Some l -> h !! g_x = Some g -> l_x ≠ g_x ->
  length g = length l -> length success = length l ->
  length fail = length l ->
  exists c h' d,
    get_cost self l_x g_x success fail h = (Ok (VArr c, l_x, g_x), h') /\
    documented_cost (costType self) (str_contains "reward" (return_type self)) l g
    = Some (inr d) /\
    length d = length l /\
    h' !! g_x = Some (mask_write fail (penalty_value self) g) /\
    (costType self = "dense_ell" ->
     c = l_x /\
     h' !! l_x
     = Some (mask_write success (bonus self)
               (mask_write fail (penalty_value self)
                  (mask_write success (bonus self) l)))) /\
    (costType self ≠ "dense_ell" ->
     c ≠ l_x /\
     h' !! l_x = Some (mask_write success (bonus self) l) /\
     h' !! c = Some (mask_write fail (penalty_value self)
                       (mask_write success (bonus self) d))).
Proof.
  intros Hshape Hk Hl Hg Hlg Lg Ls Lf.
  pose proof (lookup_lt_Some _ _ _ Hl) as Bl.
  pose proof (lookup_lt_Some _ _ _ Hg) as Bg.
  rewrite get_cost_shaping by done. unfold documented_cost.
  set (p := bonus self). set (q := penalty_value self).
  assert (Hfresh : forall op,
    exists h',
      (shaping (VArr (length h)) l_x g_x success fail p q >>
       ret (@VArr F (length h), l_x, g_x)) (h ++ [zip_with op l g])
      = (Ok (@VArr F (length h), l_x, g_x), h') /\
      h' !! g_x = Some (mask_write fail q g) /\
      h' !! l_x = Some (mask_write success p l) /\
      h' !! length h
      = Some (mask_write fail q (mask_write success p (zip_with op l g)))).
  { intros op.
    destruct (shaping_block_run (length h) l_x g_x success fail p q
                (h ++ [zip_with op l g]) (zip_with op l g) l g)
      as (h' & Hrun & Hg' & _ & Hne);
      [by rewrite lookup_app_r, Nat.sub_diag by lia
      |by apply lookup_app_l_Some|by apply lookup_app_l_Some|done|lia
      |rewrite length_zip_with; lia|done|done|done|].
    exists h'. destruct Hne as [? ?]; [lia|].
    split; [|done]. unfold Py.bind at 1. unfold shaping. by rewrite Hrun. }
  assert (Hzip : forall op : F -> F -> F, length (zip_with op l g) = length l)
    by (intros op; rewrite length_zip_with; lia).
  unfold shaped_cost_kinds in Hk.
  repeat (apply elem_of_cons in Hk as [Hk|Hk]); [| | |by apply elem_of_nil in Hk];
    rewrite Hk; cbn [String.eqb Ascii.eqb Bool.eqb].
  - destruct (shaping_block_run l_x l_x g_x success fail p q h l l g)
      as (h' & Hrun & Hg' & Heq & _); try done.
    exists l_x, h', l. split.
    { unfold Py.bind at 1 2. cbn [Py.ret]. unfold shaping. by rewrite Hrun. }
    split; [done|]. split; [done|]. split; [done|].
    split; [intros _; split; [done|by apply Heq]|done].
  - destruct (Hfresh fadd) as (h' & Hrun & Hg' & Hl' & Hc').
    exists (length h), h', (zip_with fadd l g). split.
    { by rewrite (bind_elementwise _ _ _ _ _ l g). }
    split; [done|]. split; [done|]. split; [done|].
    split; [intros [=]|]. intros _. split; [lia|done].
  - destruct (str_contains "reward" (return_type self)) eqn:Hmode.
    + destruct (Hfresh fminimum) as (h' & Hrun & Hg' & Hl' & Hc').
      exists (length h), h', (zip_with fminimum l g). split.
      { by rewrite (bind_elementwise _ _ _ _ _ l g). }
      split; [done|]. split; [done|]. split; [done|].
      split; [intros [=]|]. intros _. split; [lia|done].
    + destruct (Hfresh fmaximum) as (h' & Hrun & Hg' & Hl' & Hc').
      exists (length h), h', (zip_with fmaximum l g). split.
      { by rewrite (bind_elementwise _ _ _ _ _ l g). }
      split; [done|]. split; [done|]. split; [done|].
      split; [intros [=]|]. intros _. split; [lia|done].
Qed.

(** Under reward shaping (cost kinds [dense_ell], [dense], [max_ell_g]), at
    every entry whose failure flag is set the returned safety margin is the
    penalty (negated in reward mode), whatever the success flag; the returned
    cost is the penalty there as well, except with [dense_ell] at entries that
    are also successful. *)
Theorem get_cost_failed_entries (self : t F Sim) (l_x g_x : ref)
    (success fail : list bool) (h : heap F) (l g : list F) :
  default false (shape_reward self) = true ->
  costType self ∈ shaped_cost_kinds ->
  h !! l_x = Some l -> h !! g_x = Some g -> l_x ≠ g_x ->
  length g = length l -> length success = length l ->
  length fail = length l ->
  exists c h' c' g',
    get_cost self l_x g_x success fail h = (Ok (VArr c, l_x, g_x), h') /\
    h' !! c = Some c' /\ h' !! g_x = Some g' /\
    forall i, fail !! i = Some true ->
      g' !! i = Some (penalty_value self) /\
      (costType self ≠ "dense_ell" \/ success !! i = Some false ->
       c' !! i = Some (penalty_value self)).
Proof.
  intros Hshape Hk Hl Hg Hlg Lg Ls Lf.
  destruct (get_cost_shaped_run self l_x g_x success fail h l g)
    as (c & h' & d & Hrun & Hd & Ld & Hg' & Hell & Hother); try done.
  destruct (decide (costType self = "dense_ell")) as [He|Hne].
  - destruct (Hell He) as [-> Hl'].
    eexists l_x, h', _, _. split; [done|]. split; [done|]. split; [done|].
    intros i Hi. split; [apply mask_write_true; [lia|done]|].
    intros [?|Hs]; [done|].
    rewrite mask_write_false by done.
    apply mask_write_true; [|done].
    rewrite mask_write_length; lia.
  - destruct (Hother Hne) as (Hcl & Hl' & Hc').
    eexists c, h', _, _. split; [done|]. split; [done|]. split; [done|].
    intros i Hi. split; [apply mask_write_true; [lia|done]|].
    intros _. apply mask_write_true; [|done].
    rewrite mask_write_length; lia.
Qed.

(** Under reward shaping, an entry with neither flag set comes back as it
    went in: its cost is the documented cost of the margins, and both margins
    are the input margins.  More generally the safety margin changes only at
    failed entries, and the target margin only at successful ones unless the
    cost kind is [dense_ell]. *)
Theorem get_cost_untouched_entries (self : t F Sim) (l_x g_x : ref)
    (success fail : list bool) (h : heap F) (l g : list F) :
  default false (shape_reward self) = true ->
  costType self ∈ shaped_cost_kinds ->
  h !! l_x = Some l -> h !! g_x = Some g -> l_x ≠ g_x ->
  length g = length l -> length success = length l ->
  length fail = length l ->
  exists c h' c' l' g' d,
    get_cost self l_x g_x success fail h = (Ok (VArr c, l_x, g_x), h') /\
    h' !! c = Some c' /\ h' !! l_x = Some l' /\ h' !! g_x = Some g' /\
    documented_cost (costType self) (str_contains "reward" (return_type self)) l g
    = Some (inr d) /\
    forall i,
      (fail !! i = Some false -> g' !! i = g !! i) /\
      (success !! i = Some false -> costType self ≠ "dense_ell" ->
       l' !! i = l !! i) /\
      (success !! i = Some false -> fail !! i = Some false ->
       c' !! i = d !! i /\ l' !! i = l !! i).
Proof.
  intros Hshape Hk Hl Hg Hlg Lg Ls Lf.
  destruct (get_cost_shaped_run self l_x g_x success fail h l g)
    as (c & h' & d & Hrun & Hd & Ld & Hg' & Hell & Hother); try done.
  destruct (decide (costType self = "dense_ell")) as [He|Hne].
  - destruct (Hell He) as [-> Hl'].
    assert (d = l) as ->.
    { revert Hd. unfold documented_cost. rewrite He. cbn. congruence. }
    eexists l_x, h', _, _, _, l. repeat (split; [done|]).
    intros i. split; [intros Hf; by apply mask_write_false|].
    split; [done|]. intros Hs Hf.
    by rewrite !mask_write_false.
  - destruct (Hother Hne) as (Hcl & Hl' & Hc').
    eexists c, h', _, _, _, d. repeat (split; [done|]).
    intros i. split; [intros Hf; by apply mask_write_false|].
    split; [intros Hs _; by apply mask_write_false|].
    intros Hs Hf. by rewrite !mask_write_false.
Qed.

(** With the cost kind [dense_ell] the cost is the target margin array
    itself, so under reward shaping the penalty written into the cost lands
    in the returned target margin: at entries that failed without success,
    the target margin comes back as the penalty.  With the other cost kinds
    the target margin of such an entry is left alone. *)
Theorem dense_ell_penalty_in_target_margin (self : t F Sim) (l_x g_x : ref)
    (success fail : list bool) (h : heap F) (l g : list F) :
  default false (shape_reward self) = true ->
  costType self = "dense_ell" ->
  h !! l_x = Some l -> h !! g_x = Some g -> l_x ≠ g_x ->
  length g = length l -> length success = length l ->
  length fail = length l ->
  exists h' l',
    get_cost self l_x g_x success fail h = (Ok (VArr l_x, l_x, g_x), h') /\
    h' !! l_x = Some l' /\
    forall i, success !! i = Some false -> fail !! i = Some true ->
      l' !! i = Some (penalty_value self).
Proof.
  intros Hshape He Hl Hg Hlg Lg Ls Lf.
  destruct (get_cost_shaped_run self l_x g_x success fail h l g)
    as (c & h' & d & Hrun & Hd & Ld & Hg' & Hell & _); try done.
  { rewrite He. unfold shaped_cost_kinds. apply elem_of_cons. by left. }
  destruct (Hell He) as [-> Hl'].
  eexists h', _. split; [done|]. split; [done|].
  intros i Hs Hf. rewrite mask_write_false by done.
  apply mask_write_true; [|done]. rewrite mask_write_length; lia.
Qed.

Lemma setmask_wrong_length {B} (r : ref) (mask : list bool) (x : F)
    (k : unit -> M (heap F) B) (h : heap F) (a : list F) :
  h !! r = Some a -> mask ≠ [] -> length mask ≠ length a ->
  Py.bind (setmask (VArr r) mask x) k h = (Raise IndexError, h).
Proof.
  intros Hr Hne Hlen. unfold setmask, Py.bind, deref, Py.raise. rewrite Hr.
  destruct (Nat.eqb_spec (length mask) (length a)) as [|_]; [done|].
  by destruct mask.
Qed.

Lemma setmask_empty_run (r : ref) (x : F) (h : heap F) (a : list F) :
  h !! r = Some a -> setmask (VArr r) [] x h = (Ok tt, h).
Proof.
  intros Hr. unfold setmask, Py.bind, deref, Py.modify, Py.ret. rewrite Hr.
  destruct a as [|y a]; cbn; [|done].
  by rewrite list_insert_id.
Qed.

Lemma setmask_empty {B} (r : ref) (x : F) (k : unit -> M (heap F) B)
    (h : heap F) (a : list F) :
  h !! r = Some a ->
  Py.bind (setmask (VArr r) [] x) k h = k tt h.
Proof.
  intros Hr. unfold Py.bind. by rewrite (setmask_empty_run r x h a).
Qed.

(** A mask that is not empty and of the wrong length stops reward shaping
    with [IndexError].  When it is the success mask, both margins are still
    as they were.  When the success mask fits and the failure mask does not,
    the successful entries have been written before the error: with the cost
    kind [dense_ell], whose cost is the target margin array, the caller's
    target margin has changed although the call raised.  Two empty masks are
    no mismatch, whatever the length of the margins: they select nothing, the
    call returns and both margins are as they were. *)
Theorem get_cost_mask_mismatch (self : t F Sim) (l_x g_x : ref)
    (success fail : list bool) (h : heap F) (l g : list F) :
  default false (shape_reward self) = true ->
  costType self ∈ shaped_cost_kinds ->
  h !! l_x = Some l -> h !! g_x = Some g ->
  length g = length l ->
  (success ≠ [] -> length success ≠ length l ->
   exists h',
     get_cost self l_x g_x success fail h = (Raise IndexError, h') /\
     h' !! l_x = Some l /\ h' !! g_x = Some g) /\
  (length success = length l -> fail ≠ [] -> length fail ≠ length l ->
   costType self = "dense_ell" -> l_x ≠ g_x ->
   exists h',
     get_cost self l_x g_x success fail h = (Raise IndexError, h') /\
     h' !! l_x = Some (mask_write success (bonus self) l) /\
     h' !! g_x = Some g) /\
  (success = [] -> fail = [] ->
   exists c h',
     get_cost self l_x g_x success fail h = (Ok (c, l_x, g_x), h') /\
     h' !! l_x = Some l /\ h' !! g_x = Some g).
Proof.
  intros Hshape Hk Hl Hg Lg.
  pose proof (lookup_lt_Some _ _ _ Hl) as Bl.
  pose proof (lookup_lt_Some _ _ _ Hg) as Bg.
  rewrite get_cost_shaping by done.
  set (p := bonus self). set (q := penalty_value self).
  split; [|split].
  - intros Hne Hs. unfold shaped_cost_kinds in Hk.
    assert (Hfresh : forall op : F -> F -> F,
      (shaping (VArr (length h)) l_x g_x success fail p q >>
       ret (@VArr F (length h), l_x, g_x)) (h ++ [zip_with op l g])
      = (Raise IndexError, h ++ [zip_with op l g])).
    { intros op. unfold Py.bind at 1. unfold shaping.
      rewrite (setmask_wrong_length (length h) success p _ _ (zip_with op l g));
        [done|..|done|].
      - by rewrite lookup_app_r, Nat.sub_diag by lia.
      - rewrite length_zip_with. lia. }
    repeat (apply elem_of_cons in Hk as [Hk|Hk]); [| | |by apply elem_of_nil in Hk];
      rewrite Hk; cbn [String.eqb Ascii.eqb Bool.eqb].
    + exists h. split; [|done].
      unfold Py.bind at 1 2. cbn [Py.ret]. unfold shaping.
      by rewrite (setmask_wrong_length l_x success p _ _ l).
    + exists (h ++ [zip_with fadd l g]).
      rewrite (bind_elementwise _ _ _ _ _ l g) by done.
      split; [apply Hfresh|]. split; by apply lookup_app_l_Some.
    + destruct (str_contains "reward" (return_type self)).
      * exists (h ++ [zip_with fminimum l g]).
        rewrite (bind_elementwise _ _ _ _ _ l g) by done.
        split; [apply Hfresh|]. split; by apply lookup_app_l_Some.
      * exists (h ++ [zip_with fmaximum l g]).
        rewrite (bind_elementwise _ _ _ _ _ l g) by done.
        split; [apply Hfresh|]. split; by apply lookup_app_l_Some.
  - intros Hs Hne Hf He Hlg. rewrite He. cbn [String.eqb Ascii.eqb Bool.eqb].
    exists (<[l_x := mask_write success p l]> h).
    split; [|split].
    + unfold Py.bind at 1 2. cbn [Py.ret]. unfold shaping.
      rewrite (setmask_bind l_x success p _ h l) by done.
      rewrite (setmask_wrong_length l_x fail q _ _ (mask_write success p l));
        [done|..|done|].
      * by rewrite list_lookup_insert_eq.
      * rewrite mask_write_length; lia.
    + by rewrite list_lookup_insert_eq.
    + by rewrite list_lookup_insert_ne.
  - intros -> ->. unfold shaped_cost_kinds in Hk.
    assert (Hfresh : forall op : F -> F -> F,
      (shaping (VArr (length h)) l_x g_x [] [] p q >>
       ret (@VArr F (length h), l_x, g_x)) (h ++ [zip_with op l g])
      = (Ok (VArr (length h), l_x, g_x), h ++ [zip_with op l g])).
    { intros op. unfold Py.bind at 1. unfold shaping.
      assert (Hc : (h ++ [zip_with op l g]) !! length h = Some (zip_with op l g))
        by (by rewrite lookup_app_r, Nat.sub_diag by lia).
      rewrite (setmask_empty _ _ _ _ _ Hc), (setmask_empty _ _ _ _ _ Hc).
      rewrite (setmask_empty l_x _ _ _ l) by (by apply lookup_app_l_Some).
      by rewrite (setmask_empty_run g_x _ _ g) by (by apply lookup_app_l_Some). }
    repeat (apply elem_of_cons in Hk as [Hk|Hk]); [| | |by apply elem_of_nil in Hk];
      rewrite Hk; cbn [String.eqb Ascii.eqb Bool.eqb].
    + exists (VArr l_x), h. split; [|done].
      unfold Py.bind at 1 2. cbn [Py.ret]. unfold shaping.
      rewrite !(setmask_empty l_x _ _ _ l) by done.
      by rewrite (setmask_empty_run g_x _ _ g) by done.
    + exists (VArr (length h)), (h ++ [zip_with fadd l g]).
      rewrite (bind_elementwise _ _ _ _ _ l g) by done.
      split; [apply Hfresh|]. split; by apply lookup_app_l_Some.
    + destruct (str_contains "reward" (return_type self)).
      * exists (VArr (length h)), (h ++ [zip_with fminimum l g]).
        rewrite (bind_elementwise _ _ _ _ _ l g) by done.
        split; [apply Hfresh|]. split; by apply lookup_app_l_Some.
      * exists (VArr (length h)), (h ++ [zip_with fmaximum l g]).
        rewrite (bind_elementwise _ _ _ _ _ l g) by done.
        split; [apply Hfresh|]. split; by apply lookup_app_l_Some.
Qed.

End EnvMore.

(** ** [get_done]: the flag and the tag *)

Section DoneMore.
Import BaseMujocoEnv.
Context {F : Type} `{Scalar F}.
Context {Sim State : Type} `{Capabilities Sim State}.

(** [get_done] with the kinds [all] and [real], as one case analysis. *)
Lemma get_done_all_real (state : State) (success fail : bool) (s : t F Sim) :
  doneType s ∈ ["all"; "real"] ->
  get_done state success fail s
  = (Ok (((if String.eqb (doneType s) "all" then fail
           else check_real_failure (sim s)) || success)
         || check_within_env (sim s) state),
     if bool_decide (failure_mode s = None) && check_within_env (sim s) state
     then set_failure_mode (Some "out_of_env") s
     else if success then set_failure_mode (Some "success") s else s).
Proof.
  intros Hk. unfold get_done, Py.bind, Py.get, Py.ret, Py.modify.
  repeat (apply elem_of_cons in Hk as [Hk|Hk]); [| |by apply elem_of_nil in Hk];
    rewrite Hk; cbn [String.eqb Ascii.eqb Bool.eqb];
    destruct (bool_decide (failure_mode s = None) && check_within_env (sim s) state);
    try done; by destruct success.
Qed.

(** With the kinds [all] and [real], a call that changes [failure_mode]
    returns [True]: the tag is only written on a step that ends the episode.
    A step that is done by failure alone (no success, inside the bounds)
    leaves the tag as it was. *)
Theorem get_done_tag_means_done (state : State) (success fail : bool)
    (s s' : t F Sim) (r : result bool) :
  doneType s ∈ ["all"; "real"] ->
  get_done state success fail s = (r, s') ->
  (failure_mode s' ≠ failure_mode s -> r = Ok true) /\
  (success = false -> check_within_env (sim s) state = false -> s' = s).
Proof.
  intros Hk. rewrite get_done_all_real by done. intros [= <- <-].
  split.
  - destruct (bool_decide (failure_mode s = None)); cbn [andb];
      destruct (check_within_env (sim s) state), success;
      cbn; rewrite ?orb_true_r; try done.
  - intros -> ->. by rewrite andb_false_r.
Qed.

(** With the kind [real] the failure flag passed by the caller has no
    influence at all: the flag returned and the state left behind are those of
    the same call with any other failure flag. *)
Theorem get_done_real_ignores_fail (state : State) (success fail fail' : bool)
    (s : t F Sim) :
  doneType s = "real" ->
  get_done state success fail s = get_done state success fail' s.
Proof.
  intros Hk.
  rewrite !get_done_all_real
    by (rewrite Hk; apply elem_of_cons; right; apply elem_of_cons; by left).
  by rewrite Hk.
Qed.

(** [get_done] writes no field of the environment other than
    [failure_mode], and with a kind other than [all] and [real] it writes
    nothing at all, whether it returns or raises. *)
Theorem get_done_frame (state : State) (success fail : bool)
    (s s' : t F Sim) (r : result bool) :
  get_done state success fail s = (r, s') ->
  s' = set_failure_mode (failure_mode s') s /\
  (doneType s ∉ ["all"; "real"] -> s' = s).
Proof.
  intros Hrun. split.
  - apply get_done_tag in Hrun as [->|[[_ ->]|[_ ->]]]; by destruct s.
  - intros Hk. revert Hrun.
    unfold get_done, Py.bind, Py.get, Py.ret, Py.raise.
    destruct (String.eqb (doneType s) "toEnd"); [by intros [= _ <-]|].
    destruct (String.eqb (doneType s) "fail"); [by intros [= _ <-]|].
    destruct (String.eqb (doneType s) "TF"); [by intros [= _ <-]|].
    destruct (String.eqb_spec (doneType s) "all") as [E|_].
    { exfalso. apply Hk. rewrite E. apply elem_of_cons. by left. }
    destruct (String.eqb_spec (doneType s) "real") as [E|_].
    { exfalso. apply Hk. rewrite E. apply elem_of_cons. right.
      apply elem_of_cons. by left. }
    by intros [= _ <-].
Qed.

End DoneMore.

(** ** [TopKLogger]: what is kept, for any sequence of offers *)

Section FloatOrder.
Import HeapOrder.

Lemma lex3_Lt a b : lex3 a b = Lt <-> lt3 a b.
Proof.
  unfold lex3, lt3.
  destruct (Z.compare_spec a.1.1 b.1.1), (Z.compare_spec a.1.2 b.1.2),
    (Z.compare_spec a.2 b.2); split; intros; try done; try lia.
Qed.

Lemma SFcompare_lex (f1 f2 : spec_float) :
  f1 <> S754_nan -> f2 <> S754_nan ->
  SFcompare f1 f2 = Some (lex3 (num f1) (num f2)).
Proof.
  destruct f1 as [s1|s1| |s1 m1 e1], f2 as [s2|s2| |s2 m2 e2];
    intros H1 H2; try done; cbn;
    try (destruct s1; try destruct s2; done).
  destruct s1, s2; try done; unfold lex3; cbn;
    rewrite ?Z.compare_opp, ?(Z.compare_antisym e1 e2);
    by destruct (e1 ?= e2).
Qed.

Lemma nan_or_not (f : spec_float) : f = S754_nan \/ f <> S754_nan.
Proof. destruct f; auto. Qed.

Lemma SFltb_lt3 (f1 f2 : spec_float) :
  SFltb f1 f2 = true <->
  f1 <> S754_nan /\ f2 <> S754_nan /\ lt3 (num f1) (num f2).
Proof.
  unfold SFltb. split.
  - destruct (nan_or_not f1) as [->|H1]; [done|].
    destruct (nan_or_not f2) as [->|H2]; [by destruct f1|].
    rewrite SFcompare_lex by done.
    destruct (lex3 (num f1) (num f2)) eqn:E; try done.
    intros _. by apply lex3_Lt in E.
  - intros (H1 & H2 & Hlt). rewrite SFcompare_lex by done.
    apply lex3_Lt in Hlt. by rewrite Hlt.
Qed.

Lemma ltb_lt3 (x y : float) :
  PrimFloat.ltb x y = true <->
  Prim2SF x <> S754_nan /\ Prim2SF y <> S754_nan /\
  lt3 (num (Prim2SF x)) (num (Prim2SF y)).
Proof. rewrite FloatAxioms.ltb_spec. apply SFltb_lt3. Qed.

Lemma SFcompare_refl (f : spec_float) :
  f <> S754_nan -> SFcompare f f = Some Eq.
Proof.
  destruct f as [s|s| |s m e]; intros H; try done; cbn; destruct s;
    rewrite ?Z.compare_refl, ?Pos.compare_cont_refl; done.
Qed.

Lemma is_nan_spec (x : float) :
  PrimFloat.is_nan x = false <-> Prim2SF x <> S754_nan.
Proof.
  unfold is_nan. rewrite FloatAxioms.eqb_spec. unfold SFeqb.
  destruct (nan_or_not (Prim2SF x)) as [E|H].
  - rewrite E. cbn. split; done.
  - rewrite SFcompare_refl by done. cbn. split; done.
Qed.

Lemma ltb_asym (x y : float) : PrimFloat.ltb x y = true -> fle x y.
Proof.
  unfold fle. intros Hxy. apply ltb_lt3 in Hxy as (H1 & H2 & Hlt).
  apply not_true_is_false. intros Hyx.
  apply ltb_lt3 in Hyx as (_ & _ & Hlt'). unfold lt3 in *. lia.
Qed.

Lemma eqb_fle (x y : float) : PrimFloat.eqb x y = true -> fle x y /\ fle y x.
Proof.
  rewrite FloatAxioms.eqb_spec. unfold SFeqb, fle. intros Heq.
  destruct (nan_or_not (Prim2SF x)) as [E|H1]; [by rewrite E in Heq|].
  destruct (nan_or_not (Prim2SF y)) as [E|H2].
  { rewrite E in Heq. by destruct (Prim2SF x). }
  rewrite SFcompare_lex in Heq by done.
  assert (Hne : ~ lt3 (num (Prim2SF x)) (num (Prim2SF y)) /\
                ~ lt3 (num (Prim2SF y)) (num (Prim2SF x))).
  { revert Heq. unfold lex3, lt3.
    destruct (Z.compare_spec (num (Prim2SF x)).1.1 (num (Prim2SF y)).1.1),
      (Z.compare_spec (num (Prim2SF x)).1.2 (num (Prim2SF y)).1.2),
      (Z.compare_spec (num (Prim2SF x)).2 (num (Prim2SF y)).2);
      intros; try done; lia. }
  split; apply not_true_is_false; intros Hlt;
    apply ltb_lt3 in Hlt as (_ & _ & Hlt); tauto.
Qed.

Lemma fle_refl (x : float) : fle x x.
Proof.
  unfold fle. apply not_true_is_false. intros Hlt.
  apply ltb_lt3 in Hlt as (_ & _ & Hlt). unfold lt3 in Hlt. lia.
Qed.

Lemma fle_trans (x y z : float) :
  PrimFloat.is_nan y = false -> fle x y -> fle y z -> fle x z.
Proof.
  unfold fle. intros Hy Hxy Hyz. apply is_nan_spec in Hy.
  apply not_true_is_false. intros Hzx.
  apply ltb_lt3 in Hzx as (Hz & Hx & Hlt).
  assert (~ lt3 (num (Prim2SF y)) (num (Prim2SF x))) as N1.
  { intros Hl. assert (PrimFloat.ltb y x = true) by (by apply ltb_lt3).
    congruence. }
  assert (~ lt3 (num (Prim2SF z)) (num (Prim2SF y))) as N2.
  { intros Hl. assert (PrimFloat.ltb z y = true) by (by apply ltb_lt3).
    congruence. }
  unfold lt3 in *. lia.
Qed.

End FloatOrder.

Section HeapPerm.
Import Heapq.

Lemma insert_cons_perm {A} (l : list A) (j : nat) (x y : A) :
  l !! j = Some y -> y :: <[j := x]> l ≡ₚ x :: l.
Proof.
  revert j. induction l as [|a l IH]; intros [|j] H; try done.
  - simplify_eq/=. apply Permutation_swap.
  - cbn in *. rewrite (Permutation_swap a y), (IH _ H). apply Permutation_swap.
Qed.

Lemma insert_swap_perm {A} (l : list A) (i j : nat) (x y : A) :
  l !! j = Some y -> i <> j -> (i < length l)%nat ->
  <[j := x]> (<[i := y]> l) ≡ₚ <[i := x]> l.
Proof.
  intros Hj Hij Hi.
  destruct (lookup_lt_is_Some_2 l i Hi) as [z Hz].
  apply (Permutation_cons_inv (a := z)), (Permutation_cons_inv (a := y)).
  rewrite (insert_cons_perm l i x z Hz).
  rewrite (Permutation_swap z y).
  rewrite (insert_cons_perm (<[i:=y]> l) j x y)
    by (by rewrite list_lookup_insert_ne).
  rewrite (Permutation_swap x z).
  rewrite (insert_cons_perm l i y z Hz).
  apply Permutation_swap.
Qed.

Lemma parent_lt (pos : nat) :
  (0 < pos)%nat -> (Nat.shiftr (pos - 1) 1 < pos)%nat.
Proof.
  intros H. rewrite Nat.shiftr_div_pow2. cbn [Nat.pow Nat.mul].
  apply Nat.Div0.div_lt_upper_bound. lia.
Qed.

Lemma siftdown_loop_perm fuel (heap : list item) startpos pos newitem h' p' x :
  (pos < length heap)%nat ->
  siftdown_loop fuel heap startpos pos newitem = (h', p') ->
  <[p' := x]> h' ≡ₚ <[pos := x]> heap /\ (p' < length h')%nat.
Proof.
  revert heap pos. induction fuel as [|fuel IH]; intros heap pos Hpos;
    cbn [siftdown_loop].
  { by intros [= <- <-]. }
  destruct (startpos <? pos)%nat eqn:Hs; [|by intros [= <- <-]].
  destruct (heap !! Nat.shiftr (pos - 1) 1) as [parent|] eqn:Hp;
    [|by intros [= <- <-]].
  destruct (item_lt newitem parent); [|by intros [= <- <-]].
  intros Hr. apply Nat.ltb_lt in Hs.
  assert (Hlt : (Nat.shiftr (pos - 1) 1 < pos)%nat) by (apply parent_lt; lia).
  destruct (IH (<[pos := parent]> heap) (Nat.shiftr (pos - 1) 1)) as [IH1 IH2];
    [rewrite length_insert; lia|done|].
  split; [|done]. rewrite IH1.
  apply insert_swap_perm; [done|lia|done].
Qed.

Lemma siftdown_perm (heap : list item) startpos pos :
  _siftdown heap startpos pos ≡ₚ heap.
Proof.
  unfold _siftdown. destruct (heap !! pos) as [newitem|] eqn:Hn; [|done].
  destruct (siftdown_loop pos heap startpos pos newitem) as [h' p'] eqn:Hr.
  apply (siftdown_loop_perm _ _ _ _ _ _ _ newitem) in Hr as [Hr _];
    [|by eapply lookup_lt_Some].
  by rewrite Hr, list_insert_id.
Qed.

Lemma heappush_perm (heap : list item) (it : item) :
  heappush heap it ≡ₚ it :: heap.
Proof.
  unfold heappush. rewrite siftdown_perm.
  by rewrite Permutation_app_comm.
Qed.

Lemma siftup_loop_perm fuel (heap : list item) endpos pos h' p' x :
  (pos < length heap)%nat ->
  siftup_loop fuel heap endpos pos = (h', p') ->
  <[p' := x]> h' ≡ₚ <[pos := x]> heap /\ (p' < length h')%nat.
Proof.
  revert heap pos. induction fuel as [|fuel IH]; intros heap pos Hpos;
    cbn [siftup_loop].
  { by intros [= <- <-]. }
  destruct (2 * pos + 1 <? endpos)%nat eqn:Hs; [|by intros [= <- <-]].
  set (child := match heap !! (2 * pos + 1)%nat,
                      heap !! (2 * pos + 1 + 1)%nat with
                | Some l, Some r =>
                    if (2 * pos + 1 + 1 <? endpos)%nat
                       && negb (item_lt l r)
                    then (2 * pos + 1 + 1)%nat
                    else (2 * pos + 1)%nat
                | _, _ => (2 * pos + 1)%nat
                end).
  assert (Hc : (pos < child)%nat).
  { unfold child. repeat case_match; lia. }
  destruct (heap !! child) as [c|] eqn:Hcl; [|by intros [= <- <-]].
  intros Hr.
  destruct (IH (<[pos := c]> heap) child) as [IH1 IH2];
    [rewrite length_insert; by eapply lookup_lt_Some|done|].
  split; [|done]. rewrite IH1.
  apply insert_swap_perm; [done|lia|done].
Qed.

Lemma siftup_perm (heap : list item) pos : _siftup heap pos ≡ₚ heap.
Proof.
  unfold _siftup. destruct (heap !! pos) as [newitem|] eqn:Hn; [|done].
  destruct (siftup_loop (length heap) heap (length heap) pos) as [h' p'] eqn:Hr.
  apply (siftup_loop_perm _ _ _ _ _ _ newitem) in Hr as [Hr _];
    [|by eapply lookup_lt_Some].
  by rewrite siftdown_perm, Hr, list_insert_id.
Qed.

Lemma last_removelast {A} (l : list A) (x : A) :
  last l = Some x -> l = removelast l ++ [x].
Proof.
  intros H. apply last_Some in H as [l' ->].
  by rewrite removelast_last.
Qed.

Lemma heappop_perm (heap : list item) :
  match heappop heap with
  | Ok (x, rest) => x :: rest ≡ₚ heap /\ heap !! 0%nat = Some x
  | Raise e => e = IndexError /\ heap = []
  end.
Proof.
  unfold heappop. destruct (last heap) as [lastelt|] eqn:Hl.
  - pose proof (last_removelast _ _ Hl) as Hh.
    destruct (removelast heap) as [|returnitem tl] eqn:Hrm.
    + rewrite Hh. done.
    + cbn [insert list_insert]. rewrite siftup_perm.
      split.
      * rewrite Hh. cbn. f_equiv.
        by rewrite (Permutation_app_comm tl).
      * by rewrite Hh.
  - apply last_None in Hl. by subst.
Qed.

End HeapPerm.

Section HeapOrderFacts.
Import Heapq HeapOrder.

Lemma par_div (i : nat) : par i = ((i - 1) / 2)%nat.
Proof. unfold par. by rewrite Nat.shiftr_div_pow2. Qed.

Lemma item_lt_true (a b : item) : item_lt a b = true -> le_item a b.
Proof.
  unfold item_lt, le_item.
  destruct (PrimFloat.eqb a.1 b.1) eqn:E; cbn.
  - intros _. exact (proj1 (eqb_fle _ _ E)).
  - apply ltb_asym.
Qed.

Lemma item_lt_false (a b : item) : item_lt a b = false -> le_item b a.
Proof.
  unfold item_lt, le_item.
  destruct (PrimFloat.eqb a.1 b.1) eqn:E; cbn.
  - intros _. exact (proj2 (eqb_fle _ _ E)).
  - done.
Qed.

Lemma le_item_trans (a b c : item) :
  PrimFloat.is_nan b.1 = false -> le_item a b -> le_item b c -> le_item a c.
Proof. apply fle_trans. Qed.

Lemma no_nan_lookup (l : list item) i x :
  no_nan l -> l !! i = Some x -> PrimFloat.is_nan x.1 = false.
Proof. intros H Hi. by apply (Forall_lookup_1 _ _ _ _ H Hi). Qed.

Lemma siftdown_loop_ok fuel (l : list item) pos newitem h' p' :
  (pos <= fuel)%nat -> (pos < length l)%nat -> no_nan l ->
  down_inv l pos newitem ->
  siftdown_loop fuel l 0 pos newitem = (h', p') ->
  heap_ok (<[p' := newitem]> h').
Proof.
  revert l pos. induction fuel as [|fuel IH]; intros l pos Hf Hpos Hn Hinv;
    cbn [siftdown_loop].
  { intros [= <- <-]. assert (pos = 0)%nat as -> by lia.
    destruct Hinv as (Ha & Hb & Hc). intros i p x Hi Hpi Hxi.
    rewrite list_lookup_insert_ne in Hxi by lia.
    destruct (decide (par i = 0%nat)) as [E|E].
    - rewrite E, list_lookup_insert_eq in Hpi by done.
      injection Hpi as <-. by eapply Hc.
    - rewrite list_lookup_insert_ne in Hpi by done.
      eapply Ha; eauto. lia. }
  destruct (0 <? pos)%nat eqn:Hs.
  2:{ intros [= <- <-]. apply Nat.ltb_ge in Hs.
      assert (pos = 0)%nat as -> by lia.
      destruct Hinv as (Ha & Hb & Hc). intros i p x Hi Hpi Hxi.
      rewrite list_lookup_insert_ne in Hxi by lia.
      destruct (decide (par i = 0%nat)) as [E|E].
      - rewrite E, list_lookup_insert_eq in Hpi by done.
        injection Hpi as <-. by eapply Hc.
      - rewrite list_lookup_insert_ne in Hpi by done.
        eapply Ha; eauto. lia. }
  apply Nat.ltb_lt in Hs. fold (par pos).
  assert (Hlt : (par pos < pos)%nat) by (by apply parent_lt).
  destruct (l !! par pos) as [parent|] eqn:Hp.
  2:{ apply lookup_ge_None in Hp. lia. }
  destruct Hinv as (Ha & Hb & Hc).
  destruct (item_lt newitem parent) eqn:Hcmp.
  - apply IH; [lia|rewrite length_insert; lia|by apply Forall_insert;
      [|eapply no_nan_lookup]|].
    pose proof (no_nan_lookup _ _ _ Hn Hp) as Hpn.
    split; [|split].
    + intros i p x Hi Hne Hpne Hpi Hxi.
      destruct (decide (i = pos)) as [->|Hip]; [done|].
      rewrite list_lookup_insert_ne in Hxi by done.
      destruct (decide (par i = pos)) as [E|E].
      * rewrite E, list_lookup_insert_eq in Hpi by done.
        injection Hpi as <-. eapply Hb; eauto.
      * rewrite list_lookup_insert_ne in Hpi by done. eapply Ha; eauto.
    + intros c g x Hpp Hc0 Hpc Hg Hx.
      assert (par (par pos) < par pos)%nat by (by apply parent_lt).
      rewrite list_lookup_insert_ne in Hg by lia.
      destruct (decide (c = pos)) as [->|Hcp].
      * rewrite list_lookup_insert_eq in Hx by done. injection Hx as <-.
        eapply (Ha (par pos)); eauto; lia.
      * rewrite list_lookup_insert_ne in Hx by done.
        eapply (le_item_trans _ parent); [done| |].
        -- eapply (Ha (par pos)); eauto; lia.
        -- eapply (Ha c); eauto; [lia|by rewrite Hpc].
    + intros c x Hc0 Hpc Hx.
      destruct (decide (c = pos)) as [->|Hcp].
      * rewrite list_lookup_insert_eq in Hx by done. injection Hx as <-.
        by apply item_lt_true.
      * rewrite list_lookup_insert_ne in Hx by done.
        eapply (le_item_trans _ parent); [done|by apply item_lt_true|].
        eapply (Ha c); eauto; [lia|by rewrite Hpc].
  - intros [= <- <-]. intros i p x Hi Hpi Hxi.
    destruct (decide (i = pos)) as [->|Hip].
    + rewrite list_lookup_insert_eq in Hxi by done. injection Hxi as <-.
      rewrite list_lookup_insert_ne in Hpi by lia.
      rewrite Hp in Hpi. injection Hpi as <-. by apply item_lt_false.
    + rewrite list_lookup_insert_ne in Hxi by done.
      destruct (decide (par i = pos)) as [E|E].
      * rewrite E, list_lookup_insert_eq in Hpi by done.
        injection Hpi as <-. by eapply Hc.
      * rewrite list_lookup_insert_ne in Hpi by done. eapply Ha; eauto.
Qed.

Lemma siftdown_ok (l : list item) pos newitem :
  l !! pos = Some newitem -> no_nan l -> down_inv l pos newitem ->
  heap_ok (_siftdown l 0 pos).
Proof.
  intros Hp Hn Hinv. unfold _siftdown. rewrite Hp.
  destruct (siftdown_loop pos l 0 pos newitem) as [h' p'] eqn:Hr.
  eapply siftdown_loop_ok; [| | | |exact Hr]; try done.
  by eapply lookup_lt_Some.
Qed.

Lemma par_child (c pos : nat) :
  (0 < c)%nat -> par c = pos -> (c = 2 * pos + 1 \/ c = 2 * pos + 2)%nat.
Proof.
  rewrite par_div. intros Hc <-.
  pose proof (Nat.div_mod_eq (c - 1) 2).
  pose proof (Nat.mod_upper_bound (c - 1) 2). lia.
Qed.

Lemma par_left (pos : nat) : par (2 * pos + 1) = pos.
Proof.
  rewrite par_div. replace (2 * pos + 1 - 1)%nat with (pos * 2)%nat by lia.
  by rewrite Nat.div_mul.
Qed.

Lemma par_right (pos : nat) : par (2 * pos + 1 + 1) = pos.
Proof.
  rewrite par_div.
  replace (2 * pos + 1 + 1 - 1)%nat with (1 + pos * 2)%nat by lia.
  by rewrite Nat.div_add.
Qed.

Lemma heappush_ok (heap : list item) (it : item) :
  heap_ok heap -> no_nan heap -> PrimFloat.is_nan it.1 = false ->
  heap_ok (heappush heap it).
Proof.
  intros Hh Hn Hit. unfold heappush.
  rewrite length_app, Nat.add_sub. cbn [length].
  apply (siftdown_ok _ _ it).
  - by rewrite lookup_app_r, Nat.sub_diag.
  - apply Forall_app. split; [done|]. by apply Forall_singleton.
  - split; [|split].
    + intros i p x Hi Hne Hpne Hpi Hxi.
      assert (i < length heap)%nat.
      { apply lookup_lt_Some in Hxi. rewrite length_app in Hxi.
        cbn in Hxi. lia. }
      pose proof (parent_lt i Hi). fold (par i) in *.
      rewrite lookup_app_l in Hpi, Hxi by lia. eapply Hh; eauto.
    + intros c g x _ Hc Hpc _ Hx. apply lookup_lt_Some in Hx.
      rewrite length_app in Hx. cbn in Hx.
      apply par_child in Hpc; lia.
    + intros c x Hc Hpc Hx. apply lookup_lt_Some in Hx.
      rewrite length_app in Hx. cbn in Hx.
      apply par_child in Hpc; lia.
Qed.

Lemma siftup_loop_ok fuel (l : list item) pos h' p' :
  (length l <= fuel + pos)%nat -> (pos < length l)%nat ->
  up_inv l pos ->
  siftup_loop fuel l (length l) pos = (h', p') ->
  up_inv h' p' /\ length h' = length l /\ (p' < length l <= 2 * p' + 1)%nat
  /\ (forall x, x ∈ h' -> x ∈ l).
Proof.
  revert l pos. induction fuel as [|fuel IH]; intros l pos Hf Hpos Hinv;
    cbn [siftup_loop].
  { intros [= <- <-]. lia. }
  destruct (2 * pos + 1 <? length l)%nat eqn:Hs.
  2:{ intros [= <- <-]. apply Nat.ltb_ge in Hs.
      split; [done|]. split; [done|]. split; [lia|done]. }
  apply Nat.ltb_lt in Hs.
  destruct (lookup_lt_is_Some_2 l (2 * pos + 1)%nat Hs) as [lc Hlc].
  rewrite Hlc.
  set (child := match l !! (2 * pos + 1 + 1)%nat with
                | Some r =>
                    if (2 * pos + 1 + 1 <? length l)%nat
                       && negb (item_lt lc r)
                    then (2 * pos + 1 + 1)%nat
                    else (2 * pos + 1)%nat
                | None => (2 * pos + 1)%nat
                end).
  assert (Hchild :
    (exists c, l !! child = Some c /\ (0 < child)%nat /\ par child = pos /\
      forall s y, (0 < s)%nat -> par s = pos -> l !! s = Some y ->
        le_item c y)).
  { unfold child.
    destruct (l !! (2 * pos + 1 + 1)%nat) as [r|] eqn:Hr.
    - destruct ((2 * pos + 1 + 1 <? length l)%nat && negb (item_lt lc r))
        eqn:Hcmp.
      + apply andb_true_iff in Hcmp as [_ Hcmp].
        apply negb_true_iff in Hcmp.
        exists r. split; [done|]. split; [lia|].
        split; [by rewrite ?par_left, ?par_right|].
        intros s y Hs0 Hps Hy. apply par_child in Hps as [->| ->]; [| |done].
        * rewrite Hlc in Hy. injection Hy as <-. by apply item_lt_false.
        * replace (2 * pos + 2)%nat with (2 * pos + 1 + 1)%nat in Hy by lia.
          rewrite Hr in Hy. injection Hy as <-. apply fle_refl.
      + apply lookup_lt_Some in Hr as Hrl.
        apply Nat.ltb_lt in Hrl. rewrite Hrl in Hcmp. cbn in Hcmp.
        apply negb_false_iff in Hcmp.
        exists lc. split; [done|]. split; [lia|].
        split; [by rewrite ?par_left, ?par_right|].
        intros s y Hs0 Hps Hy. apply par_child in Hps as [->| ->]; [| |done].
        * rewrite Hlc in Hy. injection Hy as <-. apply fle_refl.
        * replace (2 * pos + 2)%nat with (2 * pos + 1 + 1)%nat in Hy by lia.
          rewrite Hr in Hy. injection Hy as <-. by apply item_lt_true.
    - exists lc. split; [done|]. split; [lia|].
      split; [by rewrite ?par_left, ?par_right|].
      intros s y Hs0 Hps Hy. apply par_child in Hps as [->| ->]; [| |done].
      + rewrite Hlc in Hy. injection Hy as <-. apply fle_refl.
      + replace (2 * pos + 2)%nat with (2 * pos + 1 + 1)%nat in Hy by lia.
        congruence. }
  destruct Hchild as (c & Hc & Hc0 & Hpc & Hmin). rewrite Hc.
  assert (Hcl : (child < length l)%nat) by (by eapply lookup_lt_Some).
  assert (Hpl : (pos < child)%nat).
  { pose proof (parent_lt child Hc0). fold (par child) in *. lia. }
  intros Hr.
  destruct (IH (<[pos := c]> l) child) as (I1 & I2 & I3 & I4).
  - rewrite length_insert. lia.
  - by rewrite length_insert.
  - destruct Hinv as [Ha Hb]. split.
    + intros i p x Hi Hne Hpne Hpi Hxi.
      destruct (decide (i = pos)) as [->|Hip].
      * rewrite list_lookup_insert_eq in Hxi by done. injection Hxi as <-.
        pose proof (parent_lt pos Hi). fold (par pos) in *.
        rewrite list_lookup_insert_ne in Hpi by lia.
        eapply (Hb child); eauto.
      * rewrite list_lookup_insert_ne in Hxi by done.
        destruct (decide (par i = pos)) as [E|E].
        -- rewrite E, list_lookup_insert_eq in Hpi by done.
           injection Hpi as <-. by eapply Hmin.
        -- rewrite list_lookup_insert_ne in Hpi by done. eapply Ha; eauto.
    + intros s g x _ Hs0 Hps Hg Hx. rewrite Hpc in Hg.
      rewrite list_lookup_insert_eq in Hg by done. injection Hg as <-.
      pose proof (parent_lt s Hs0). fold (par s) in *.
      rewrite list_lookup_insert_ne in Hx by lia.
      eapply (Ha s); eauto; [lia|lia|by rewrite Hps].
  - by rewrite length_insert.
  - rewrite length_insert in *.
    split; [done|]. split; [done|]. split; [lia|].
    intros x Hx. apply I4 in Hx.
    apply list_elem_of_lookup in Hx as [j Hj].
    destruct (decide (j = pos)) as [->|Hjp].
    + rewrite list_lookup_insert_eq in Hj by done. injection Hj as <-.
      by eapply list_elem_of_lookup_2.
    + rewrite list_lookup_insert_ne in Hj by done.
      by eapply list_elem_of_lookup_2.
Qed.

Lemma siftup_ok (l : list item) :
  no_nan l -> up_inv l 0 -> heap_ok (_siftup l 0).
Proof.
  intros Hn Hinv. unfold _siftup.
  destruct (l !! 0%nat) as [newitem|] eqn:H0.
  2:{ apply lookup_ge_None in H0. destruct l; [|cbn in H0; lia].
      intros i p x _ Hp. done. }
  destruct (siftup_loop (length l) l (length l) 0) as [h' p'] eqn:Hr.
  apply siftup_loop_ok in Hr as ([Ha Hb] & Hlen & Hp' & Hin);
    [|lia|by eapply lookup_lt_Some|done].
  apply (siftdown_ok _ _ newitem).
  - apply list_lookup_insert_eq. lia.
  - apply Forall_insert.
    + apply Forall_forall. intros x Hx. apply Hin in Hx.
      revert x Hx. by apply Forall_forall.
    + by eapply no_nan_lookup.
  - split; [|split].
    + intros i p x Hi Hne Hpne Hpi Hxi.
      rewrite list_lookup_insert_ne in Hpi, Hxi by done. eapply Ha; eauto.
    + intros c g x _ Hc Hpc _ Hx. apply lookup_lt_Some in Hx.
      rewrite length_insert in Hx. apply par_child in Hpc; lia.
    + intros c x Hc Hpc Hx. apply lookup_lt_Some in Hx.
      rewrite length_insert in Hx. apply par_child in Hpc; lia.
Qed.

Lemma heappop_ok (heap : list item) x rest :
  heap_ok heap -> no_nan heap -> heappop heap = Ok (x, rest) -> heap_ok rest.
Proof.
  intros Hh Hn. unfold heappop.
  destruct (last heap) as [lastelt|] eqn:Hl; [|done].
  pose proof (last_removelast _ _ Hl) as Hheap.
  destruct (removelast heap) as [|returnitem tl] eqn:Hrm.
  { intros [= <- <-]. intros i p y _ Hp. done. }
  intros [= <- <-].
  change (<[0%nat := lastelt]> (returnitem :: tl)) with (lastelt :: tl).
  rewrite Hheap in Hn. apply Forall_app in Hn as [Hn1 Hn2].
  apply Forall_cons in Hn1 as [_ Hn1]. apply Forall_inv in Hn2.
  apply siftup_ok; [by apply Forall_cons_2|]. split.
  - intros i p y Hi Hne Hpne Hpi Hyi.
    assert (par i <> 0)%nat by done.
    destruct i as [|i]; [done|]. destruct (par (S i)) as [|j] eqn:Ej; [done|].
    cbn in Hpi, Hyi. apply (Hh (S i) p y); [lia| |].
    + rewrite Ej, Hheap. cbn. by apply lookup_app_l_Some.
    + rewrite Hheap. cbn. by apply lookup_app_l_Some.
  - intros c g y Hlt. lia.
Qed.

Lemma heap_root_min (l : list item) r :
  heap_ok l -> no_nan l -> l !! 0%nat = Some r ->
  forall x, x ∈ l -> le_item r x.
Proof.
  intros Hh Hn Hr x Hx. apply list_elem_of_lookup in Hx as [i Hi].
  revert x Hi. induction (lt_wf i) as [i _ IH]. intros x Hi.
  destruct (decide (i = 0%nat)) as [->|Hne].
  { rewrite Hr in Hi. injection Hi as <-. apply fle_refl. }
  assert (Hlt : (par i < i)%nat) by (apply parent_lt; lia).
  destruct (lookup_lt_is_Some_2 l (par i)) as [p Hp].
  { apply lookup_lt_Some in Hi. lia. }
  eapply (le_item_trans _ p).
  - by eapply no_nan_lookup.
  - by eapply IH.
  - apply (Hh i p x); [lia|done|done].
Qed.

Lemma item_gt_true (a b : item) : item_gt a b = true -> le_item b a.
Proof.
  unfold item_gt, le_item.
  destruct (PrimFloat.eqb a.1 b.1) eqn:E; cbn.
  - intros _. exact (proj2 (eqb_fle _ _ E)).
  - apply ltb_asym.
Qed.

Lemma item_gt_false (a b : item) : item_gt a b = false -> le_item a b.
Proof.
  unfold item_gt, le_item.
  destruct (PrimFloat.eqb a.1 b.1) eqn:E; cbn.
  - intros _. exact (proj1 (eqb_fle _ _ E)).
  - done.
Qed.

Lemma max_from_spec (best : item) (rest : list item) :
  no_nan (best :: rest) ->
  max_from best rest ∈ best :: rest /\
  forall x, x ∈ best :: rest -> le_item x (max_from best rest).
Proof.
  revert best. induction rest as [|y rest IH]; intros best Hn; cbn.
  { split; [by apply list_elem_of_here|].
    intros x Hx. apply list_elem_of_singleton in Hx as ->. apply fle_refl. }
  apply Forall_cons in Hn as [Hb Hn]. apply Forall_cons in Hn as [Hy Hn].
  destruct (item_gt y best) eqn:Hcmp.
  - destruct (IH y) as [I1 I2]; [by apply Forall_cons|]. split.
    + by apply list_elem_of_further.
    + intros x Hx. apply elem_of_cons in Hx as [->|Hx]; [|by apply I2].
      eapply (le_item_trans _ y); [done|by apply item_gt_true|].
      apply I2, list_elem_of_here.
  - destruct (IH best) as [I1 I2]; [by apply Forall_cons|]. split.
    + apply elem_of_cons in I1 as [->|I1]; [by apply list_elem_of_here|].
      by do 2 apply list_elem_of_further.
    + intros x Hx. apply elem_of_cons in Hx as [->|Hx];
        [apply I2, list_elem_of_here|].
      apply elem_of_cons in Hx as [->|Hx].
      * eapply (le_item_trans _ best); [done|by apply item_gt_false|].
        apply I2, list_elem_of_here.
      * by apply I2, list_elem_of_further.
Qed.

End HeapOrderFacts.

Section TopKFacts.
Import Heapq HeapOrder TopKLogger TopKRuns.

Lemma no_nan_perm (l l' : list item) : l ≡ₚ l' -> no_nan l -> no_nan l'.
Proof. intros Hp. unfold no_nan. by rewrite Hp. Qed.

Lemma push_keeps_best K seen self ckpt success :
  1 <= K -> keeps_best K seen self -> PrimFloat.is_nan success = false ->
  exists r self', push ckpt success self = (Ok r, self') /\
    keeps_best K ((success, ckpt) :: seen) self'.
Proof.
  intros HK (HKs & Hh & Hn & Hlen & dropped & Hperm & Hord) Hs.
  unfold push, bind, get. rewrite HKs.
  destruct (Z.of_nat (length (checkpoint_queue self)) <? K) eqn:Hfull.
  - apply Z.ltb_lt in Hfull.
    assert (dropped = []) as ->.
    { apply Permutation_length in Hperm. rewrite length_app in Hperm.
      destruct dropped; [done|]. cbn in Hperm. lia. }
    rewrite app_nil_r in Hperm.
    eexists _, _. split; [reflexivity|].
    unfold keeps_best. cbn [checkpoint_queue max_to_keep set_queue].
    split; [done|]. split; [by apply heappush_ok|].
    split; [|split].
    + eapply no_nan_perm; [symmetry; apply heappush_perm|].
      by apply Forall_cons_2.
    + rewrite (Permutation_length (heappush_perm _ _)). cbn [length]. lia.
    + exists []. split; [|intros d k Hd; by apply elem_of_nil in Hd].
      by rewrite app_nil_r, heappush_perm, Hperm.
  - apply Z.ltb_ge in Hfull.
    destruct (checkpoint_queue self) as [|[m c] q] eqn:Hq.
    { cbn in Hfull. lia. }
    pose proof (heap_root_min _ (m, c) Hh Hn eq_refl) as Hmin.
    pose proof (Forall_inv Hn) as Hm. cbn in Hm.
    destruct (PrimFloat.ltb m success) eqn:Hcmp.
    + pose proof (heappop_perm (((m, c) : item) :: q)) as Hpop.
      destruct (heappop (((m, c) : item) :: q)) as [[x rest]|e] eqn:Hp;
        [|by destruct Hpop].
      destruct Hpop as [Hpp Hx]. cbn in Hx. injection Hx as <-.
      unfold lift, modify. cbn -[heappop heappush]. unfold ret.
      eexists _, _. split; [reflexivity|].
      unfold keeps_best. cbn [checkpoint_queue max_to_keep set_queue snd].
      assert (Hnr : no_nan rest).
      { eapply Forall_cons_1, no_nan_perm; [symmetry; exact Hpp|done]. }
      split; [done|]. split.
      { apply heappush_ok; [by eapply heappop_ok|done|done]. }
      split; [|split].
      * eapply no_nan_perm; [symmetry; apply heappush_perm|].
        by apply Forall_cons_2.
      * rewrite (Permutation_length (heappush_perm _ _)).
        apply Permutation_length in Hpp. cbn [length] in *. lia.
      * exists ((m, c) :: dropped). split.
        -- rewrite heappush_perm, Hperm, <- Hpp. cbn.
           f_equiv. apply Permutation_middle.
        -- intros d k Hd Hk.
           assert (Hk' : k = (success, ckpt) \/ k ∈ (m, c) :: q).
           { rewrite heappush_perm in Hk.
             apply elem_of_cons in Hk as [->|Hk]; [by left|right].
             rewrite <- Hpp. by apply list_elem_of_further. }
           apply elem_of_cons in Hd as [->|Hd].
           ++ destruct Hk' as [->|Hk']; [by apply ltb_asym|by apply Hmin].
           ++ destruct Hk' as [->|Hk']; [|by apply Hord].
              eapply (le_item_trans _ (m, c)); [done| |by apply ltb_asym].
              apply Hord; [done|apply list_elem_of_here].
    + unfold ret. eexists _, _. split; [reflexivity|].
      unfold keeps_best. rewrite Hq.
      split; [done|]. split; [done|]. split; [done|]. split.
      * cbn [length] in *. lia.
      * exists ((success, ckpt) :: dropped). split.
        -- by rewrite Hperm, Permutation_middle.
        -- intros d k Hd Hk. apply elem_of_cons in Hd as [->|Hd];
             [|by apply Hord].
           eapply (le_item_trans _ (m, c)); [done|done|by apply Hmin].
Qed.

Lemma init_keeps_best K : 1 <= K -> keeps_best K [] (__init__ K).
Proof.
  intros HK. split; [done|]. split; [intros i p x _ Hp; done|].
  split; [apply Forall_nil_2|]. split; [cbn; lia|].
  exists []. split; [done|]. intros d k Hd. by apply elem_of_nil in Hd.
Qed.

Lemma push_all_keeps_best K xs seen self :
  1 <= K -> keeps_best K seen self ->
  Forall (fun x => PrimFloat.is_nan x.2 = false) xs ->
  exists rs self', push_all xs self = (Ok rs, self') /\
    length rs = length xs /\
    keeps_best K (rev (offered xs) ++ seen) self'.
Proof.
  intros HK. revert seen self.
  induction xs as [|[ckpt success] xs IH]; intros seen self Hinv Hn.
  { by exists [], self. }
  apply Forall_cons in Hn as [Hs Hn].
  destruct (push_keeps_best K seen self ckpt success HK Hinv Hs)
    as (r & self1 & Hr & Hinv1).
  destruct (IH _ _ Hinv1 Hn) as (rs & self2 & Hrs & Hl & Hinv2).
  exists (r :: rs), self2. cbn [push_all]. unfold bind at 1. rewrite Hr.
  unfold bind at 1. rewrite Hrs. split; [done|]. split; [cbn; lia|].
  cbn [offered map rev]. by rewrite <- app_assoc.
Qed.

(** With a bound of at least one and scores that are numbers, a tracker never
    raises and ends with the [min n K] best of the [n] entries offered: no
    entry it holds scores below an entry it refused or evicted. *)
Theorem topk_keeps_best (K : Z) (xs : list (string * float)) :
  1 <= K -> Forall (fun x => PrimFloat.is_nan x.2 = false) xs ->
  exists rs q dropped,
    push_all xs (__init__ K) = (Ok rs, Build K q) /\
    length rs = length xs /\
    Z.of_nat (length q) = Z.min (Z.of_nat (length xs)) K /\
    offered xs ≡ₚ q ++ dropped /\
    forall d k, d ∈ dropped -> k ∈ q -> PrimFloat.ltb k.1 d.1 = false.
Proof.
  intros HK Hn.
  destruct (push_all_keeps_best K xs [] (__init__ K) HK (init_keeps_best K HK) Hn)
    as (rs & [K' q] & Hr & Hl & HK' & _ & _ & Hlen & dropped & Hperm & Hord).
  cbn in *. subst K'. exists rs, q, dropped. split; [done|]. split; [done|].
  rewrite app_nil_r in *. rewrite length_rev in Hlen.
  unfold offered in Hlen. rewrite length_map in Hlen.
  split; [done|]. split; [|done].
  rewrite <- Hperm. apply Permutation_rev.
Qed.

Lemma push_size K seen self ckpt success :
  1 <= K -> max_to_keep self = K ->
  Z.of_nat (length (checkpoint_queue self)) = Z.min (Z.of_nat (length seen)) K ->
  (exists dropped, seen ≡ₚ checkpoint_queue self ++ dropped) ->
  exists r self', push ckpt success self = (Ok r, self') /\
    max_to_keep self' = K /\
    Z.of_nat (length (checkpoint_queue self'))
    = Z.min (Z.of_nat (length (((success, ckpt) : item) :: seen))) K /\
    exists dropped,
      ((success, ckpt) : item) :: seen ≡ₚ checkpoint_queue self' ++ dropped.
Proof.
  intros HK HKs Hlen [dropped Hperm].
  unfold push, bind, get. rewrite HKs.
  destruct (Z.of_nat (length (checkpoint_queue self)) <? K) eqn:Hfull.
  - apply Z.ltb_lt in Hfull.
    eexists _, _. split; [reflexivity|].
    cbn [checkpoint_queue max_to_keep set_queue].
    split; [done|]. split.
    + rewrite (Permutation_length (heappush_perm _ _)). cbn [length]. lia.
    + exists dropped. by rewrite heappush_perm, Hperm.
  - apply Z.ltb_ge in Hfull.
    destruct (checkpoint_queue self) as [|[m c] q] eqn:Hq.
    { cbn in Hfull. lia. }
    destruct (PrimFloat.ltb m success) eqn:Hcmp.
    + pose proof (heappop_perm (((m, c) : item) :: q)) as Hpop.
      destruct (heappop (((m, c) : item) :: q)) as [[x rest]|e] eqn:Hp;
        [|by destruct Hpop].
      destruct Hpop as [Hpp Hx]. cbn in Hx. injection Hx as <-.
      unfold lift, modify. cbn -[heappop heappush]. unfold ret.
      eexists _, _. split; [reflexivity|].
      cbn [checkpoint_queue max_to_keep set_queue snd].
      split; [done|]. split.
      * rewrite (Permutation_length (heappush_perm _ _)).
        apply Permutation_length in Hpp. cbn [length] in *. lia.
      * exists ((m, c) :: dropped).
        rewrite heappush_perm, Hperm, <- Hpp. cbn.
        f_equiv. apply Permutation_middle.
    + unfold ret. eexists _, _. split; [reflexivity|]. rewrite Hq.
      split; [done|]. split.
      * cbn [length] in *. lia.
      * exists ((success, ckpt) :: dropped).
        by rewrite Hperm, Permutation_middle.
Qed.

Lemma push_all_size K xs seen self :
  1 <= K -> max_to_keep self = K ->
  Z.of_nat (length (checkpoint_queue self)) = Z.min (Z.of_nat (length seen)) K ->
  (exists dropped, seen ≡ₚ checkpoint_queue self ++ dropped) ->
  exists rs self', push_all xs self = (Ok rs, self') /\
    length rs = length xs /\ max_to_keep self' = K /\
    Z.of_nat (length (checkpoint_queue self'))
    = Z.min (Z.of_nat (length (rev (offered xs) ++ seen))) K /\
    exists dropped,
      rev (offered xs) ++ seen ≡ₚ checkpoint_queue self' ++ dropped.
Proof.
  intros HK. revert seen self.
  induction xs as [|[ckpt success] xs IH]; intros seen self HKs Hlen Hd.
  { by exists [], self. }
  destruct (push_size K seen self ckpt success HK HKs Hlen Hd)
    as (r & self1 & Hr & HK1 & Hlen1 & Hd1).
  destruct (IH _ _ HK1 Hlen1 Hd1) as (rs & self2 & Hrs & Hl & HK2 & Hlen2 & Hd2).
  exists (r :: rs), self2. cbn [push_all]. unfold bind at 1. rewrite Hr.
  unfold bind at 1. rewrite Hrs. split; [done|]. split; [cbn; lia|].
  cbn [offered map rev]. rewrite <- app_assoc. done.
Qed.

(** Whatever the scores, NaN included, a tracker with a bound of at least
    one never raises, never holds more than [K] entries, and holds only
    entries that were offered, each as often as it was offered at most. *)
Theorem topk_size (K : Z) (xs : list (string * float)) :
  1 <= K ->
  exists rs q dropped,
    push_all xs (__init__ K) = (Ok rs, Build K q) /\
    length rs = length xs /\
    Z.of_nat (length q) = Z.min (Z.of_nat (length xs)) K /\
    offered xs ≡ₚ q ++ dropped.
Proof.
  intros HK.
  destruct (push_all_size K xs [] (__init__ K) HK eq_refl)
    as (rs & [K' q] & Hr & Hl & HK' & Hlen & dropped & Hperm).
  { cbn. lia. }
  { by exists []. }
  cbn in *. subst K'. exists rs, q, dropped. split; [done|]. split; [done|].
  rewrite app_nil_r in *. rewrite length_rev in Hlen.
  unfold offered in Hlen. rewrite length_map in Hlen.
  split; [done|]. rewrite <- Hperm. apply Permutation_rev.
Qed.

(** A tracker built with a bound of zero or less accepts nothing: the first
    offer raises [IndexError] (the root of an empty queue is read) and the
    queue stays empty. *)
Theorem topk_no_room (K : Z) (ckpt : string) (success : float)
    (xs : list (string * float)) :
  K <= 0 ->
  push_all ((ckpt, success) :: xs) (__init__ K)
  = (Raise IndexError, __init__ K).
Proof.
  intros HK. cbn [push_all]. unfold bind at 1.
  unfold push, bind, get. cbn [__init__ checkpoint_queue max_to_keep length].
  change (Z.of_nat 0) with 0.
  destruct (0 <? K) eqn:E; [apply Z.ltb_lt in E; lia|done].
Qed.

Lemma ltb_nan_l (x y : float) :
  PrimFloat.is_nan x = true -> PrimFloat.ltb x y = false.
Proof.
  intros Hx. apply not_true_is_false. intros Hlt.
  apply ltb_lt3 in Hlt as (H1 & _). apply is_nan_spec in H1. congruence.
Qed.

(** Once the root of a full queue scores NaN, nothing is accepted any more:
    every later offer returns [False] and the queue stays as it is. *)
Theorem topk_nan_root_blocks (self : t) (m : float) (c : string)
    (q : list item) (xs : list (string * float)) :
  checkpoint_queue self = (m, c) :: q ->
  max_to_keep self <= Z.of_nat (length (checkpoint_queue self)) ->
  PrimFloat.is_nan m = true ->
  push_all xs self = (Ok (map (fun _ => false) xs), self).
Proof.
  intros Hq Hfull Hm. induction xs as [|[ckpt success] xs IH]; [done|].
  cbn [push_all]. unfold bind at 1.
  assert (push ckpt success self = (Ok false, self)) as ->.
  { unfold push, bind, get.
    destruct (Z.of_nat (length (checkpoint_queue self)) <? max_to_keep self)
      eqn:E; [apply Z.ltb_lt in E; lia|].
    rewrite Hq. by rewrite ltb_nan_l. }
  unfold bind at 1. by rewrite IH.
Qed.

(** After any offers with scores that are numbers, [best_ckpt] returns the
    identifier of an entry that was offered and that no offered entry
    outscores; the tracker is left as it was. *)
Theorem topk_best_ckpt_is_best (K : Z) (xs : list (string * float)) :
  1 <= K -> xs <> [] -> Forall (fun x => PrimFloat.is_nan x.2 = false) xs ->
  exists rs self' ckpt success,
    push_all xs (__init__ K) = (Ok rs, self') /\
    best_ckpt self' = (Ok ckpt, self') /\
    (ckpt, success) ∈ xs /\
    forall x, x ∈ xs -> PrimFloat.ltb success x.2 = false.
Proof.
  intros HK Hne Hn.
  destruct (push_all_keeps_best K xs [] (__init__ K) HK (init_keeps_best K HK) Hn)
    as (rs & self' & Hr & Hl & HK' & Hh & Hnq & Hlen & dropped & Hperm & Hord).
  rewrite app_nil_r in *.
  destruct (checkpoint_queue self') as [|b rest] eqn:Hq.
  { rewrite length_rev in Hlen. unfold offered in Hlen.
    rewrite length_map in Hlen. destruct xs; [done|]. cbn in Hlen. lia. }
  destruct (max_from_spec b rest Hnq) as [Hin Hmax].
  destruct (max_from b rest) as [success ckpt] eqn:Hmf.
  exists rs, self', ckpt, success. split; [done|]. split.
  { unfold best_ckpt, bind, get. rewrite Hq. cbn [nlargest1]. by rewrite Hmf. }
  assert (Hoff : forall y, y ∈ offered xs <-> y ∈ (b :: rest) ++ dropped).
  { intros y. by rewrite <- Hperm, <- Permutation_rev. }
  split.
  - assert (Hy : (success, ckpt) ∈ offered xs).
    { apply Hoff, elem_of_app. by left. }
    apply list_elem_of_fmap in Hy as ([c' s'] & [= -> ->] & Hy). done.
  - intros [c' s'] Hx.
    assert (Hy : (s', c') ∈ offered xs).
    { apply list_elem_of_fmap. by exists (c', s'). }
    apply Hoff, elem_of_app in Hy as [Hy|Hy].
    + by apply (Hmax _ Hy).
    + by apply (Hord _ _ Hy Hin).
Qed.

End TopKFacts.

(** ** [get_bounding_boxes] *)

Section BoundingBoxes.
Import EnvUtils.

Lemma row_where_spec (obj_id y x0 : Z) (row : list Z) (p : Z * Z) :
  p ∈ row_where obj_id y x0 row <->
  p.1 = y /\ exists n, p.2 = x0 + Z.of_nat n /\ row !! n = Some obj_id.
Proof.
  revert x0. induction row as [|q row IH]; intros x0; cbn [row_where].
  { split; [by intros H%elem_of_nil|]. by intros (_ & n & _ & Hn). }
  rewrite elem_of_app, IH. split.
  - intros [Hq|(Hy & n & Hx & Hn)].
    + destruct (Z.eqb_spec q obj_id) as [->|]; [|by apply elem_of_nil in Hq].
      apply list_elem_of_singleton in Hq as ->.
      split; [done|]. exists 0%nat. split; [cbn; lia|done].
    + split; [done|]. exists (S n). split; [lia|done].
  - intros (Hy & [|n] & Hx & Hn).
    + left. cbn in Hn. injection Hn as ->. rewrite Z.eqb_refl.
      apply list_elem_of_singleton. destruct p. cbn in *. f_equal; lia.
    + right. split; [done|]. exists n. split; [lia|done].
Qed.

Lemma rows_where_spec (obj_id y0 : Z) (rows : image) (p : Z * Z) :
  p ∈ rows_where obj_id y0 rows <->
  exists ny nx, p.1 = y0 + Z.of_nat ny /\ p.2 = Z.of_nat nx /\
    pixel rows ny nx = Some obj_id.
Proof.
  revert y0. induction rows as [|row rows IH]; intros y0; cbn [rows_where].
  { split; [by intros H%elem_of_nil|]. by intros (ny & nx & _ & _ & Hp). }
  rewrite elem_of_app, row_where_spec, IH. split.
  - intros [(Hy & n & Hx & Hn)|(ny & nx & Hy & Hx & Hp)].
    + exists 0%nat, n. split; [lia|]. split; [lia|done].
    + exists (S ny), nx. split; [lia|]. split; [done|done].
  - intros ([|ny] & nx & Hy & Hx & Hp).
    + left. split; [lia|]. exists nx. split; [lia|done].
    + right. exists ny, nx. split; [lia|]. split; [done|done].
Qed.

Lemma where_eq_spec (segmentation : image) (obj_id y x : Z) :
  (y, x) ∈ rows_where obj_id 0 segmentation <-> covers segmentation obj_id y x.
Proof. rewrite rows_where_spec. unfold covers. cbn. naive_solver. Qed.

Lemma foldl_min_spec (a : list Z) (x : Z) :
  foldl Z.min x a ∈ x :: a /\ forall z, z ∈ x :: a -> foldl Z.min x a <= z.
Proof.
  revert x. induction a as [|y a IH]; intros x; cbn [foldl].
  { split; [apply list_elem_of_here|].
    intros z Hz. apply list_elem_of_singleton in Hz. lia. }
  destruct (IH (Z.min x y)) as [Hin Hle]. split.
  - apply elem_of_cons in Hin as [Hin|Hin].
    + rewrite Hin. destruct (Z.min_spec x y) as [[_ ->]|[_ ->]].
      * apply list_elem_of_here.
      * apply list_elem_of_further, list_elem_of_here.
    + by do 2 apply list_elem_of_further.
  - intros z Hz. pose proof (Hle (Z.min x y) (list_elem_of_here _ _)) as H0.
    apply elem_of_cons in Hz as [->|Hz]; [lia|].
    apply elem_of_cons in Hz as [->|Hz]; [lia|].
    by apply Hle, list_elem_of_further.
Qed.

Lemma foldl_max_spec (a : list Z) (x : Z) :
  foldl Z.max x a ∈ x :: a /\ forall z, z ∈ x :: a -> z <= foldl Z.max x a.
Proof.
  revert x. induction a as [|y a IH]; intros x; cbn [foldl].
  { split; [apply list_elem_of_here|].
    intros z Hz. apply list_elem_of_singleton in Hz. lia. }
  destruct (IH (Z.max x y)) as [Hin Hle]. split.
  - apply elem_of_cons in Hin as [Hin|Hin].
    + rewrite Hin. destruct (Z.max_spec x y) as [[_ ->]|[_ ->]].
      * apply list_elem_of_further, list_elem_of_here.
      * apply list_elem_of_here.
    + by do 2 apply list_elem_of_further.
  - intros z Hz. pose proof (Hle (Z.max x y) (list_elem_of_here _ _)) as H0.
    apply elem_of_cons in Hz as [->|Hz]; [lia|].
    apply elem_of_cons in Hz as [->|Hz]; [lia|].
    by apply Hle, list_elem_of_further.
Qed.

Lemma amin_spec (a : list Z) :
  a <> [] -> exists m, amin a = Ok m /\ m ∈ a /\ forall z, z ∈ a -> m <= z.
Proof.
  destruct a as [|x a]; [done|]. intros _.
  exists (foldl Z.min x a). split; [done|]. apply foldl_min_spec.
Qed.

Lemma amax_spec (a : list Z) :
  a <> [] -> exists m, amax a = Ok m /\ m ∈ a /\ forall z, z ∈ a -> z <= m.
Proof.
  destruct a as [|x a]; [done|]. intros _.
  exists (foldl Z.max x a). split; [done|]. apply foldl_max_spec.
Qed.

Lemma unique_spec (segmentation : image) (v : Z) :
  v ∈ unique segmentation <-> exists ny nx, pixel segmentation ny nx = Some v.
Proof.
  unfold unique. rewrite merge_sort_Permutation, elem_of_remove_dups.
  unfold pixel. split.
  - intros Hi.
    apply list_elem_of_join in Hi as (row & Hv & Hrow).
    apply list_elem_of_lookup in Hv as [nx Hnx].
    apply list_elem_of_lookup in Hrow as [ny Hny].
    exists ny, nx. by rewrite Hny.
  - intros (ny & nx & Hp).
    destruct (segmentation !! ny) as [row|] eqn:Hrow; [|done]. cbn in Hp.
    apply list_elem_of_join.
    exists row. split; by eapply list_elem_of_lookup_2.
Qed.

(** The box the loop computes for an object: the extreme columns and rows of
    the positions it covers. *)
Lemma box_spec (segmentation : image) (obj_id : Z) :
  (exists ny nx, pixel segmentation ny nx = Some obj_id) ->
  exists x0 y0 x1 y1,
    (let '(ys, xs) := where_eq segmentation obj_id in
     let? x_min := amin xs in
     let? x_max := amax xs in
     let? y_min := amin ys in
     let? y_max := amax ys in
     Ok (x_min, y_min, x_max, y_max)) = Ok (x0, y0, x1, y1) /\
    (forall y x, covers segmentation obj_id y x ->
       x0 <= x <= x1 /\ y0 <= y <= y1) /\
    (exists y, covers segmentation obj_id y x0) /\
    (exists y, covers segmentation obj_id y x1) /\
    (exists x, covers segmentation obj_id y0 x) /\
    (exists x, covers segmentation obj_id y1 x).
Proof.
  intros (ny & nx & Hp). unfold where_eq.
  set (hits := rows_where obj_id 0 segmentation).
  assert (Hhit : (Z.of_nat ny, Z.of_nat nx) ∈ hits).
  { apply where_eq_spec. by exists ny, nx. }
  assert (Hxs : hits.*2 <> []).
  { intros E. apply fmap_nil_inv in E. rewrite E in Hhit.
    by apply elem_of_nil in Hhit. }
  assert (Hys : hits.*1 <> []).
  { intros E. apply fmap_nil_inv in E. rewrite E in Hhit.
    by apply elem_of_nil in Hhit. }
  destruct (amin_spec _ Hxs) as (x0 & -> & Hx0 & Hx0le).
  destruct (amax_spec _ Hxs) as (x1 & -> & Hx1 & Hx1le).
  destruct (amin_spec _ Hys) as (y0 & -> & Hy0 & Hy0le).
  destruct (amax_spec _ Hys) as (y1 & -> & Hy1 & Hy1le).
  exists x0, y0, x1, y1. split; [done|]. split.
  - intros y x Hc. apply where_eq_spec in Hc.
    assert (x ∈ hits.*2) by (apply list_elem_of_fmap; by exists (y, x)).
    assert (y ∈ hits.*1) by (apply list_elem_of_fmap; by exists (y, x)).
    split; split; auto.
  - apply list_elem_of_fmap in Hx0 as ([ya xa] & -> & Ha).
    apply list_elem_of_fmap in Hx1 as ([yb xb] & -> & Hb).
    apply list_elem_of_fmap in Hy0 as ([yc xc] & -> & Hc).
    apply list_elem_of_fmap in Hy1 as ([yd xd] & -> & Hd).
    apply where_eq_spec in Ha, Hb, Hc, Hd. cbn.
    split; [by exists ya|]. split; [by exists yb|].
    split; [by exists xc|by exists xd].
Qed.

Lemma boxes_loop_spec (segmentation : image) (ids : list Z)
    (acc : gmap Z (Z * Z * Z * Z)) :
  (forall v, v ∈ ids -> exists ny nx, pixel segmentation ny nx = Some v) ->
  exists bboxes,
    boxes_loop segmentation ids acc = Ok bboxes /\
    (forall v, v ∉ ids \/ v = 0 -> bboxes !! v = acc !! v) /\
    (forall v, v ∈ ids -> v <> 0 ->
       exists x0 y0 x1 y1,
         bboxes !! v = Some (x0, y0, x1, y1) /\
         (forall y x, covers segmentation v y x ->
            x0 <= x <= x1 /\ y0 <= y <= y1) /\
         (exists y, covers segmentation v y x0) /\
         (exists y, covers segmentation v y x1) /\
         (exists x, covers segmentation v y0 x) /\
         (exists x, covers segmentation v y1 x)).
Proof.
  revert acc. induction ids as [|obj_id rest IH]; intros acc Hids;
    cbn [boxes_loop].
  { exists acc. split; [done|]. split; [done|].
    intros v Hv. by apply elem_of_nil in Hv. }
  assert (Hrest : forall v, v ∈ rest ->
            exists ny nx, pixel segmentation ny nx = Some v).
  { intros v Hv. by apply Hids, list_elem_of_further. }
  destruct (Z.eqb_spec obj_id 0) as [->|Hne].
  { destruct (IH acc Hrest) as (bboxes & Hrun & Hout & Hin).
    exists bboxes. split; [done|]. split.
    - intros v [Hv| ->]; apply Hout; [|by right].
      left. intros Hr. apply Hv. by apply list_elem_of_further.
    - intros v Hv Hv0. apply Hin; [|done].
      by apply elem_of_cons in Hv as [->|Hv]. }
  destruct (box_spec segmentation obj_id (Hids _ (list_elem_of_here _ _)))
    as (x0 & y0 & x1 & y1 & Hbox & Hprops).
  destruct (where_eq segmentation obj_id) as [ys xs].
  destruct (amin xs) as [x_min|]; [|done]. cbn [rbind] in *.
  destruct (amax xs) as [x_max|]; [|done]. cbn [rbind] in *.
  destruct (amin ys) as [y_min|]; [|done]. cbn [rbind] in *.
  destruct (amax ys) as [y_max|]; [|done]. cbn [rbind] in *.
  injection Hbox as -> -> -> ->.
  destruct (IH (<[obj_id := (x0, y0, x1, y1)]> acc) Hrest)
    as (bboxes & Hrun & Hout & Hin).
  exists bboxes. split; [done|]. split.
  - intros v Hv. rewrite Hout.
    + apply lookup_insert_ne. intros ->. destruct Hv as [Hv|Hv]; [|done].
      apply Hv, list_elem_of_here.
    + destruct Hv as [Hv|Hv]; [left|by right].
      intros Hr. apply Hv. by apply list_elem_of_further.
  - intros v Hv Hv0.
    destruct (decide (v ∈ rest)) as [Hr|Hr]; [by apply Hin|].
    apply elem_of_cons in Hv as [->|Hv]; [|done].
    exists x0, y0, x1, y1. split; [|done].
    rewrite Hout by (by left). apply lookup_insert_eq.
Qed.

(** On every two-dimensional image [get_bounding_boxes] returns, and the
    objects it has a box for are exactly the values other than the background
    0 that occur in the image. *)
Theorem get_bounding_boxes_objects (segmentation : image) :
  exists bboxes,
    get_bounding_boxes segmentation = Ok bboxes /\
    forall obj_id,
      is_Some (bboxes !! obj_id) <->
      obj_id <> 0 /\ exists ny nx, pixel segmentation ny nx = Some obj_id.
Proof.
  unfold get_bounding_boxes.
  destruct (boxes_loop_spec segmentation (unique segmentation) ∅)
    as (bboxes & Hrun & Hout & Hin).
  { intros v Hv. by apply unique_spec. }
  exists bboxes. split; [done|]. intros obj_id. split.
  - intros Hsome.
    destruct (decide (obj_id = 0)) as [->|Hne].
    { rewrite Hout in Hsome by (by right). by destruct Hsome. }
    split; [done|]. apply unique_spec.
    destruct (decide (obj_id ∈ unique segmentation)) as [|Hn]; [done|].
    rewrite Hout in Hsome by (by left). by destruct Hsome.
  - intros [Hne Hocc]. apply unique_spec in Hocc.
    destruct (Hin _ Hocc Hne) as (x0 & y0 & x1 & y1 & -> & _). by eexists.
Qed.

(** The box of an object contains every position the object covers. *)
Theorem bounding_box_contains_object (segmentation : image)
    (bboxes : gmap Z (Z * Z * Z * Z)) (obj_id x_min y_min x_max y_max : Z) :
  get_bounding_boxes segmentation = Ok bboxes ->
  bboxes !! obj_id = Some (x_min, y_min, x_max, y_max) ->
  forall ny nx, pixel segmentation ny nx = Some obj_id ->
    x_min <= Z.of_nat nx <= x_max /\ y_min <= Z.of_nat ny <= y_max.
Proof.
  unfold get_bounding_boxes. intros Hrun Hbox ny nx Hp.
  destruct (boxes_loop_spec segmentation (unique segmentation) ∅)
    as (bboxes' & Hrun' & Hout & Hin).
  { intros v Hv. by apply unique_spec. }
  rewrite Hrun in Hrun'. injection Hrun' as <-.
  assert (Hne : obj_id <> 0).
  { intros ->. rewrite Hout in Hbox by (by right). done. }
  assert (Hocc : obj_id ∈ unique segmentation).
  { apply unique_spec. by exists ny, nx. }
  destruct (Hin _ Hocc Hne) as (x0 & y0 & x1 & y1 & Hb & Hc & _).
  rewrite Hbox in Hb. injection Hb as <- <- <- <-.
  apply Hc. by exists ny, nx.
Qed.

(** The box of an object is tight: each of its four sides passes through a
    position that the object covers. *)
Theorem bounding_box_tight (segmentation : image)
    (bboxes : gmap Z (Z * Z * Z * Z)) (obj_id x_min y_min x_max y_max : Z) :
  get_bounding_boxes segmentation = Ok bboxes ->
  bboxes !! obj_id = Some (x_min, y_min, x_max, y_max) ->
  (exists y, covers segmentation obj_id y x_min) /\
  (exists y, covers segmentation obj_id y x_max) /\
  (exists x, covers segmentation obj_id y_min x) /\
  (exists x, covers segmentation obj_id y_max x).
Proof.
  unfold get_bounding_boxes. intros Hrun Hbox.
  destruct (boxes_loop_spec segmentation (unique segmentation) ∅)
    as (bboxes' & Hrun' & Hout & Hin).
  { intros v Hv. by apply unique_spec. }
  rewrite Hrun in Hrun'. injection Hrun' as <-.
  assert (Hne : obj_id <> 0).
  { intros ->. rewrite Hout in Hbox by (by right). done. }
  assert (Hocc : obj_id ∈ unique segmentation).
  { destruct (decide (obj_id ∈ unique segmentation)) as [|Hn]; [done|].
    rewrite Hout in Hbox by (by left). done. }
  destruct (Hin _ Hocc Hne) as (x0 & y0 & x1 & y1 & Hb & _ & Ht).
  rewrite Hbox in Hb. by injection Hb as <- <- <- <-.
Qed.

End BoundingBoxes.

(** ** [calc_false_pos_neg_rate]: rates without a denominator *)

Section RatesFacts.
Import Rates.

Lemma logical_and_same_length (a b : list bool) :
  length a = length b -> logical_and a b = Ok (zip_with andb a b).
Proof.
  intros Hl. unfold logical_and, BaseMujocoEnv.broadcast2.
  by rewrite Hl, Nat.eqb_refl.
Qed.

Lemma sum_none (a : list bool) : Forall (fun x => x = false) a -> sum a = 0.
Proof.
  intros Ha. unfold sum. induction Ha as [|x a -> _ IH]; [done|].
  by rewrite filter_cons_False.
Qed.

Lemma zip_none_l (f g : float -> bool) (xs ys : list float) :
  Forall (fun x => f x = false) xs ->
  Forall (fun b => b = false) (zip_with andb (map f xs) (map g ys)).
Proof.
  intros Hxs. revert ys. induction Hxs as [|x xs Hx _ IH]; intros ys.
  { apply Forall_nil_2. }
  destruct ys as [|y ys]; [apply Forall_nil_2|]. cbn.
  apply Forall_cons_2; [by rewrite Hx|apply IH].
Qed.

(** On arrays of one length [calc_false_pos_neg_rate] never raises, not even
    when a rate has no denominator: if every ground-truth value is below zero
    the false-positive rate is NaN, and if none is, the false-negative rate is
    NaN, whatever the predictions. *)
Theorem rates_without_denominator (pred_v GT_v : list float) :
  length pred_v = length GT_v ->
  exists false_pos_rate false_neg_rate,
    calc_false_pos_neg_rate pred_v GT_v
    = Ok (false_pos_rate, false_neg_rate) /\
    (Forall (fun v => PrimFloat.ltb v 0 = true) GT_v ->
     PrimFloat.is_nan false_pos_rate = true) /\
    (Forall (fun v => PrimFloat.ltb v 0 = false) GT_v ->
     PrimFloat.is_nan false_neg_rate = true).
Proof.
  intros Hl. unfold calc_false_pos_neg_rate.
  rewrite !logical_and_same_length by (by rewrite !length_map).
  cbn [rbind]. eexists _, _. split; [reflexivity|].
  rewrite !map_map. split.
  - intros Hall.
    assert (H0 : forall g : float -> bool,
              sum (zip_with andb
                     (map (fun x => Bool.eqb false (PrimFloat.ltb x 0)) GT_v)
                     (map g pred_v)) = 0).
    { intros g. apply sum_none, zip_none_l.
      eapply Forall_impl; [exact Hall|]. cbn. by intros v ->. }
    rewrite !H0. by vm_compute.
  - intros Hnone.
    assert (H0 : forall g : float -> bool,
              sum (zip_with andb
                     (map (fun x => Bool.eqb true (PrimFloat.ltb x 0)) GT_v)
                     (map g pred_v)) = 0).
    { intros g. apply sum_none, zip_none_l.
      eapply Forall_impl; [exact Hnone|]. cbn. by intros v ->. }
    rewrite !H0. by vm_compute.
Qed.

End RatesFacts.

(** ** [save_model]: checkpoints it cannot prune *)

Section SaveModelFacts.
Import SaveModel.
Context {World StateDict Config : Type} `{Runtime World StateDict Config}.

Lemma length_append (s t : string) :
  String.length (s +:+ t) = (String.length s + String.length t)%nat.
Proof.
  induction s as [|c s IH]; [done|].
  change (String c s +:+ t) with (String c (s +:+ t)).
  cbn [String.length]. by rewrite IH.
Qed.

Lemma substring_skip (t : string) (a : ascii) (r : string) (m : nat) :
  String.substring (String.length t + 1) m (t +:+ String a r)
  = String.substring 0 m r.
Proof.
  induction t as [|c t IH].
  - change (EmptyString +:+ String a r) with (String a r). by destruct m.
  - change (String c t +:+ String a r) with (String c (t +:+ String a r)).
    exact IH.
Qed.

(** The text between the decorator and the extension of a name that
    [save_model] writes begins with the letter of [step]. *)
Lemma slice_written_name (types rest : string) :
  exists r,
    slice (types +:+ "_step_" +:+ rest) (String.length types + 1)
    = String "s" r.
Proof.
  unfold slice. rewrite length_append.
  change ("_step_" +:+ rest)
    with (String "_" (String "s" (String "t" (String "e"
           (String "p" (String "_" rest)))))).
  change (String.length (String "_" (String "s" (String "t" (String "e"
           (String "p" (String "_" rest)))))))
    with (6 + String.length rest)%nat.
  replace (String.length types + (6 + String.length rest) - 4
           - (String.length types + 1))%nat
    with (S (String.length rest)) by lia.
  rewrite substring_skip. by eexists.
Qed.

Lemma rstrip_letter (c : ascii) (s : string) :
  is_space c = false -> exists r, rstrip (String c s) = String c r.
Proof.
  intros Hc. cbn [rstrip]. destruct (rstrip s); [|by eexists].
  rewrite Hc. by eexists.
Qed.

Lemma int_letter (r : string) :
  exists msg, int (String "s" r) = Raise (ValueError msg).
Proof.
  unfold int. cbn [lstrip].
  change (is_space "s") with false. cbv iota.
  destruct (rstrip_letter "s" r eq_refl) as [r' ->].
  cbn. by eexists.
Qed.

Lemma comprehension_raises {A B} (f : A -> result B) (xs : list A) :
  xs <> [] ->
  (forall x, x ∈ xs -> exists msg, f x = Raise (ValueError msg)) ->
  exists msg, comprehension f xs = Raise (ValueError msg).
Proof.
  destruct xs as [|x xs]; [done|]. intros _ Hall.
  destruct (Hall x (list_elem_of_here _ _)) as [msg Hx].
  exists msg. cbn. by rewrite Hx.
Qed.

(** A directory that already holds [MAX_MODEL] or more checkpoints, all
    named as [save_model] names them, cannot be pruned: the step is read from
    the old naming scheme [types-step.pth], so reading it from a name
    [types_step_...] raises [ValueError], before anything is removed or
    written. *)
Theorem save_model_cannot_prune (state_dict : StateDict) (step : Z)
    (logs_path types : string) (MAX_MODEL : Z) (success : float)
    (config : option Config) (debug : bool) (w w1 w2 : World)
    (model_list : list string) :
  os_makedirs logs_path w = (inr tt, w1) ->
  glob_glob (os_path_join logs_path "*.pth") w1 = (inr model_list, w2) ->
  MAX_MODEL - 1 < Z.of_nat (length model_list) ->
  (forall li, li ∈ model_list ->
     exists rest,
       last (split_slash li) = Some (types +:+ "_step_" +:+ rest)) ->
  exists msg,
    save_model state_dict step logs_path types MAX_MODEL success config debug w
    = (inl (Builtin (ValueError msg)), w2).
Proof.
  intros Hmk Hglob Hlen Hnames. unfold save_model.
  unfold io_bind at 1. rewrite Hmk.
  unfold io_bind at 1. rewrite Hglob.
  unfold io_bind at 1.
  apply Z.ltb_lt in Hlen. rewrite Hlen.
  unfold io_bind at 1.
  destruct model_list as [|li model_list].
  { cbn. by eexists. }
  destruct (comprehension_raises
    (fun li => let? name := match last (split_slash li) with
                            | Some name => Ok name
                            | None => Raise IndexError
                            end in
               int (slice name (String.length types + 1)))
    (li :: model_list)) as [msg Hmsg]; [done| |].
  { intros x Hx. destruct (Hnames x Hx) as [rest ->]. cbn [rbind].
    destruct (slice_written_name types rest) as [r ->].
    apply int_letter. }
  rewrite Hmsg. cbn. by eexists.
Qed.

End SaveModelFacts.

(** ** The further properties on concrete runs *)

Section MoreRuns.
Import Np Examples MoreExamples.

Ltac in_list :=
  repeat first [apply list_elem_of_here | apply list_elem_of_further].
Ltac not_in_list :=
  let H := fresh in
  intros H; repeat (apply elem_of_cons in H as [H|H]; [discriminate H|]);
  by apply elem_of_nil in H.

Lemma replay_buffer_counts_witness :
  1 <= 2 /\
  ReplayBuffer.__init__ (ShapeScalar 1) (ShapeScalar 1) 2 = Ok fresh2 /\
  Forall2 (fun x x' => ReplayBufferValues.as_stored fresh2 x = Ok x')
    raw_three held_three /\
  exists b,
    ReplayBufferValues.stores raw_three fresh2 = (Ok tt, b) /\
    ReplayBuffer.size b = Z.min (Z.of_nat (length raw_three)) 2 /\
    ReplayBuffer.ptr b = Z.of_nat (length raw_three) mod 2 /\
    ReplayBuffer.max_size b = 2.
Proof.
  split; [lia|]. split; [reflexivity|].
  split; [repeat (apply List.Forall2_cons; [vm_compute; reflexivity|]);
          apply List.Forall2_nil|].
  apply (replay_buffer_counts (ShapeScalar 1) (ShapeScalar 1) 2 raw_three
           held_three fresh2);
    [lia|reflexivity
    |repeat (apply List.Forall2_cons; [vm_compute; reflexivity|]);
     apply List.Forall2_nil].
Defined.

Lemma replay_buffer_fill_order_witness :
  let ts := [trv 0.1; trv 16777217] in
  let ts' := [tr tenth32; tr 16777216] in
  ReplayBuffer.__init__ (ShapeScalar 1) (ShapeScalar 1) 3 = Ok fresh3 /\
  Z.of_nat (length ts) <= 3 /\
  Forall2 (fun x x' => ReplayBufferValues.as_stored fresh3 x = Ok x') ts ts' /\
  exists b,
    ReplayBufferValues.stores ts fresh3 = (Ok tt, b) /\
    ReplayBuffer.size b = Z.of_nat (length ts) /\
    (forall i x', ts' !! i = Some x' -> ReplayBuffer.slot b i = Some x') /\
    (forall i, (length ts <= i < Z.to_nat 3)%nat ->
       ReplayBuffer.slot b i
       = Some (ReplayBufferViews.zero_transition (ShapeScalar 1)
                 (ShapeScalar 1) 3)).
Proof.
  intros ts ts'. split; [reflexivity|]. split; [cbn; lia|].
  split; [repeat (apply List.Forall2_cons; [vm_compute; reflexivity|]);
          apply List.Forall2_nil|].
  apply (replay_buffer_fill_order (ShapeScalar 1) (ShapeScalar 1) 3 ts ts'
           fresh3);
    [reflexivity|cbn; lia
    |repeat (apply List.Forall2_cons; [vm_compute; reflexivity|]);
     apply List.Forall2_nil].
Defined.

Lemma replay_buffer_store_misfit_witness :
  let e := ValueError
    "could not broadcast input array from shape (2,) into shape (1,)" in
  1 <= 2 /\
  ReplayBuffer.__init__ (ShapeScalar 1) (ShapeScalar 1) 2 = Ok fresh2 /\
  Forall2 (fun x x' => ReplayBufferValues.as_stored fresh2 x = Ok x')
    [trv 2] [tr 2] /\
  ReplayBufferValues.as_stored fresh2 wide_action = Raise e /\
  exists b b',
    ReplayBufferValues.stores [trv 2] fresh2 = (Ok tt, b) /\
    ReplayBufferValues.store_transition wide_action b = (Raise e, b') /\
    ReplayBuffer.ptr b' = ReplayBuffer.ptr b /\
    ReplayBuffer.size b' = ReplayBuffer.size b /\
    forall o,
      NpValues.convert (dt (ReplayBuffer.obs_buf fresh2))
        (tl (shape (ReplayBuffer.obs_buf fresh2)))
        (ReplayBuffer.t_obs wide_action) = Ok o ->
      rows (ReplayBuffer.obs_buf b') !! Z.to_nat (ReplayBuffer.ptr b) = Some o.
Proof.
  intros e. split; [lia|]. split; [reflexivity|].
  split; [repeat (apply List.Forall2_cons; [vm_compute; reflexivity|]);
          apply List.Forall2_nil|].
  split; [vm_compute; reflexivity|].
  apply (replay_buffer_store_misfit (ShapeScalar 1) (ShapeScalar 1) 2
           [trv 2] [tr 2] fresh2 wide_action e);
    [lia|reflexivity
    |repeat (apply List.Forall2_cons; [vm_compute; reflexivity|]);
     apply List.Forall2_nil
    |vm_compute; reflexivity].
Defined.

Lemma replay_buffer_no_room_witness :
  ReplayBuffer.__init__ (Row := list float) (ShapeScalar 1) (ShapeScalar 1) (-1)
  = Raise (ValueError "negative dimensions are not allowed") /\
  ReplayBuffer.__init__ (ShapeScalar 1) (ShapeScalar 1) 0 = Ok fresh0 /\
  ReplayBuffer.size fresh0 = 0 /\
  ReplayBuffer.store_transition (tr 1) fresh0 = (Raise IndexError, fresh0).
Proof.
  destruct (replay_buffer_no_room (Row := list float) (ShapeScalar 1)
              (ShapeScalar 1)) as [Hneg Hzero].
  split; [apply Hneg; lia|]. split; [reflexivity|].
  apply Hzero. reflexivity.
Defined.




Lemma multimodal_sample_layout_witness :
  1 <= ReplayBufferMultimodal.size mm_after /\
  exists batch g',
    ReplayBufferMultimodal.sample_batch 3 (mm_after, draws)
    = (Ok batch, (mm_after, g')) /\
    forall k o,
      ReplayBufferMultimodal.b_obs batch !! k = Some o \/
      ReplayBufferMultimodal.b_obs2 batch !! k = Some o ->
      dt o = (if str_contains "rgb" k then uint8 else float32) /\
      exists sh, (k, sh) ∈ streams /\
                 shape o = 3 :: 1 :: tl (combined_shape 2 sh).
Proof.
  split; [cbn; lia|].
  apply (multimodal_sample_layout mm_after 3 draws);
    [exact mm_after_reachable|cbn; lia|lia].
Defined.

Lemma get_batch_from_obs_matches_sample_witness :
  ReplayBufferMultimodal.obs_buf mm_after !! "rgb_front" = Some rgb_stream /\
  exists batch g' t s,
    ReplayBufferMultimodal.sample_batch 1 (mm_after, draws)
    = (Ok batch, (mm_after, g')) /\
    MultimodalViews.get_batch_from_obs [("rgb_front", frame)] !! "rgb_front"
    = Some t /\
    ReplayBufferMultimodal.b_obs batch !! "rgb_front" = Some s /\
    shape t = shape s /\
    dt t = float32 /\
    dt s = (if str_contains "rgb" "rgb_front" then uint8 else float32).
Proof.
  split; [reflexivity|].
  apply (get_batch_from_obs_matches_sample mm_after draws
           [("rgb_front", frame)] "rgb_front" frame rgb_stream).
  - exact mm_after_reachable.
  - cbn. lia.
  - apply NoDup_singleton.
  - in_list.
  - reflexivity.
  - reflexivity.
Defined.

Lemma get_cost_failed_entries_witness :
  let self := env "dense" "all" "cost" true in
  exists c h' c' g',
    BaseMujocoEnv.get_cost self 0%nat 1%nat [false] [true] margins
    = (Ok (BaseMujocoEnv.VArr c, 0%nat, 1%nat), h') /\
    h' !! c = Some c' /\ h' !! 1%nat = Some g' /\
    forall i, [true] !! i = Some true ->
      g' !! i = Some (CostShaping.penalty_value self) /\
      (BaseMujocoEnv.costType self ≠ "dense_ell" \/ [false] !! i = Some false ->
       c' !! i = Some (CostShaping.penalty_value self)).
Proof.
  apply (get_cost_failed_entries (env "dense" "all" "cost" true) 0%nat 1%nat
           [false] [true] margins [1%float] [2%float]);
    [reflexivity|unfold BaseMujocoEnv.shaped_cost_kinds; in_list
    |reflexivity|reflexivity|lia|reflexivity|reflexivity|reflexivity].
Defined.

Lemma get_cost_untouched_entries_witness :
  let self := env "dense" "all" "cost" true in
  exists c h' c' l' g' d,
    BaseMujocoEnv.get_cost self 0%nat 1%nat [false] [false] margins
    = (Ok (BaseMujocoEnv.VArr c, 0%nat, 1%nat), h') /\
    h' !! c = Some c' /\ h' !! 0%nat = Some l' /\ h' !! 1%nat = Some g' /\
    BaseMujocoEnv.documented_cost "dense" false [1%float] [2%float]
    = Some (inr d) /\
    forall i,
      ([false] !! i = Some false -> g' !! i = [2%float] !! i) /\
      ([false] !! i = Some false ->
       BaseMujocoEnv.costType self ≠ "dense_ell" ->
       l' !! i = [1%float] !! i) /\
      ([false] !! i = Some false -> [false] !! i = Some false ->
       c' !! i = d !! i /\ l' !! i = [1%float] !! i).
Proof.
  apply (get_cost_untouched_entries (env "dense" "all" "cost" true) 0%nat
           1%nat [false] [false] margins [1%float] [2%float]);
    [reflexivity|unfold BaseMujocoEnv.shaped_cost_kinds; in_list
    |reflexivity|reflexivity|lia|reflexivity|reflexivity|reflexivity].
Defined.

Lemma dense_ell_penalty_in_target_margin_witness :
  let self := env "dense_ell" "all" "cost" true in
  exists h' l',
    BaseMujocoEnv.get_cost self 0%nat 1%nat [false] [true] margins
    = (Ok (BaseMujocoEnv.VArr 0%nat, 0%nat, 1%nat), h') /\
    h' !! 0%nat = Some l' /\
    forall i, [false] !! i = Some false -> [true] !! i = Some true ->
      l' !! i = Some (CostShaping.penalty_value self).
Proof.
  apply (dense_ell_penalty_in_target_margin
           (env "dense_ell" "all" "cost" true) 0%nat 1%nat
           [false] [true] margins [1%float] [2%float]);
    [reflexivity|reflexivity|reflexivity|reflexivity|lia|reflexivity
    |reflexivity|reflexivity].
Defined.

Lemma get_cost_mask_mismatch_witness :
  let self := env "dense_ell" "all" "cost" true in
  (exists h',
     BaseMujocoEnv.get_cost self 0%nat 1%nat [true; false] [true] margins
     = (Raise IndexError, h') /\
     h' !! 0%nat = Some [1%float] /\ h' !! 1%nat = Some [2%float]) /\
  (exists h',
     BaseMujocoEnv.get_cost self 0%nat 1%nat [true] [false; true] margins
     = (Raise IndexError, h') /\
     h' !! 0%nat
     = Some (BaseMujocoEnv.mask_write [true] (BaseMujocoEnv.bonus self)
               [1%float]) /\
     h' !! 1%nat = Some [2%float]) /\
  (exists c h',
     BaseMujocoEnv.get_cost self 0%nat 1%nat [] [] margins
     = (Ok (c, 0%nat, 1%nat), h') /\
     h' !! 0%nat = Some [1%float] /\ h' !! 1%nat = Some [2%float]).
Proof.
  intros self. split; [|split].
  - apply (get_cost_mask_mismatch self 0%nat 1%nat [true; false] [true] margins
             [1%float] [2%float]);
      [reflexivity|unfold BaseMujocoEnv.shaped_cost_kinds; in_list
      |reflexivity|reflexivity|reflexivity|discriminate|cbn; lia].
  - apply (get_cost_mask_mismatch self 0%nat 1%nat [true] [false; true] margins
             [1%float] [2%float]);
      [reflexivity|unfold BaseMujocoEnv.shaped_cost_kinds; in_list
      |reflexivity|reflexivity|reflexivity|reflexivity|discriminate|cbn; lia
      |reflexivity|lia].
  - apply (get_cost_mask_mismatch self 0%nat 1%nat [] [] margins
             [1%float] [2%float]);
      [reflexivity|unfold BaseMujocoEnv.shaped_cost_kinds; in_list
      |reflexivity|reflexivity|reflexivity|reflexivity|reflexivity].
Defined.

Lemma get_done_tag_means_done_witness :
  let s := env "dense" "all" "cost" false in
  let s' := BaseMujocoEnv.set_failure_mode (Some "out_of_env") s in
  BaseMujocoEnv.get_done (State := bool) true false false s = (Ok true, s') /\
  (BaseMujocoEnv.failure_mode s' ≠ BaseMujocoEnv.failure_mode s ->
   Ok true = Ok true) /\
  (false = false ->
   BaseMujocoEnv.check_within_env (BaseMujocoEnv.sim s) true = false ->
   s' = s).
Proof.
  intros s s'. split; [reflexivity|].
  apply (get_done_tag_means_done (State := bool) true false false s s'
           (Ok true)); [in_list|reflexivity].
Defined.

Lemma get_done_real_ignores_fail_witness :
  let s := env "dense" "real" "cost" false in
  BaseMujocoEnv.get_done (State := bool) true false true s
  = BaseMujocoEnv.get_done (State := bool) true false false s.
Proof.
  intros s.
  apply (get_done_real_ignores_fail (State := bool) true false true false s).
  reflexivity.
Defined.

Lemma get_done_frame_witness :
  let s := env "dense" "all" "cost" false in
  let s' := BaseMujocoEnv.set_failure_mode (Some "out_of_env") s in
  BaseMujocoEnv.get_done (State := bool) true false false s = (Ok true, s') /\
  s' = BaseMujocoEnv.set_failure_mode (BaseMujocoEnv.failure_mode s') s /\
  (BaseMujocoEnv.doneType s ∉ ["all"; "real"] -> s' = s).
Proof.
  intros s s'. split; [reflexivity|].
  apply (get_done_frame (State := bool) true false false s s' (Ok true)).
  reflexivity.
Defined.

Lemma offers_numbers : Forall (fun x => PrimFloat.is_nan x.2 = false) offers.
Proof. repeat apply Forall_cons_2; try reflexivity. apply Forall_nil_2. Defined.

Lemma topk_keeps_best_witness :
  1 <= 2 /\
  exists rs q dropped,
    TopKRuns.push_all offers (TopKLogger.__init__ 2)
    = (Ok rs, TopKLogger.Build 2 q) /\
    length rs = length offers /\
    Z.of_nat (length q) = Z.min (Z.of_nat (length offers)) 2 /\
    TopKRuns.offered offers ≡ₚ q ++ dropped /\
    forall d k, d ∈ dropped -> k ∈ q -> PrimFloat.ltb k.1 d.1 = false.
Proof.
  split; [lia|].
  apply (topk_keeps_best 2 offers); [lia|exact offers_numbers].
Defined.

Lemma topk_size_witness :
  1 <= 1 /\
  exists rs q dropped,
    TopKRuns.push_all (("n", PrimFloat.nan) :: offers) (TopKLogger.__init__ 1)
    = (Ok rs, TopKLogger.Build 1 q) /\
    length rs = length (("n", PrimFloat.nan) :: offers) /\
    Z.of_nat (length q)
    = Z.min (Z.of_nat (length (("n", PrimFloat.nan) :: offers))) 1 /\
    TopKRuns.offered (("n", PrimFloat.nan) :: offers) ≡ₚ q ++ dropped.
Proof.
  split; [lia|].
  apply (topk_size 1 (("n", PrimFloat.nan) :: offers)). lia.
Defined.

Lemma topk_no_room_witness :
  0 <= 0 /\
  TopKRuns.push_all (("a", 0.1%float) :: []) (TopKLogger.__init__ 0)
  = (Raise IndexError, TopKLogger.__init__ 0).
Proof.
  split; [lia|]. apply (topk_no_room 0 "a" 0.1%float []). lia.
Defined.

Lemma topk_nan_root_blocks_witness :
  PrimFloat.is_nan PrimFloat.nan = true /\
  TopKRuns.push_all offers nan_log
  = (Ok (map (fun _ => false) offers), nan_log).
Proof.
  split; [reflexivity|].
  apply (topk_nan_root_blocks nan_log PrimFloat.nan "a" [] offers);
    [reflexivity|cbn; lia|reflexivity].
Defined.

Lemma topk_best_ckpt_is_best_witness :
  1 <= 2 /\ offers <> [] /\
  exists rs self' ckpt success,
    TopKRuns.push_all offers (TopKLogger.__init__ 2) = (Ok rs, self') /\
    TopKLogger.best_ckpt self' = (Ok ckpt, self') /\
    (ckpt, success) ∈ offers /\
    forall x, x ∈ offers -> PrimFloat.ltb success x.2 = false.
Proof.
  split; [lia|]. split; [discriminate|].
  apply (topk_best_ckpt_is_best 2 offers);
    [lia|discriminate|exact offers_numbers].
Defined.

Lemma bounding_box_contains_object_witness :
  EnvUtils.get_bounding_boxes segmentation2 = Ok boxes2 /\
  boxes2 !! 1 = Some (1, 0, 2, 1) /\
  forall ny nx, EnvUtils.pixel segmentation2 ny nx = Some 1 ->
    1 <= Z.of_nat nx <= 2 /\ 0 <= Z.of_nat ny <= 1.
Proof.
  split; [reflexivity|]. split; [reflexivity|].
  apply (bounding_box_contains_object segmentation2 boxes2 1 1 0 2 1);
    reflexivity.
Defined.

Lemma bounding_box_tight_witness :
  EnvUtils.get_bounding_boxes segmentation2 = Ok boxes2 /\
  boxes2 !! 1 = Some (1, 0, 2, 1) /\
  (exists y, EnvUtils.covers segmentation2 1 y 1) /\
  (exists y, EnvUtils.covers segmentation2 1 y 2) /\
  (exists x, EnvUtils.covers segmentation2 1 0 x) /\
  (exists x, EnvUtils.covers segmentation2 1 1 x).
Proof.
  split; [reflexivity|]. split; [reflexivity|].
  apply (bounding_box_tight segmentation2 boxes2 1 1 0 2 1); reflexivity.
Defined.

Lemma mm_fresh_values_reachable :
  ReplayBufferMultimodalValues.reachable (Val := NpValues.array) mm_fresh.
Proof.
  by apply (ReplayBufferMultimodalValues.reach_init streams (ShapeScalar 1) 2).
Qed.

Lemma multimodal_store_round_trip_witness :
  let act := NpValues.Array [1] [5%float] in
  let rew := NpValues.scalar 16777217 in
  let done := NpValues.scalar 0 in
  let lx := NpValues.scalar 0.1 in
  let gx := NpValues.scalar 1e39 in
  NpValues.convert uint8 [1] (NpValues.Array [1] [300%float]) = Ok [44%float] /\
  NpValues.convert uint8 [1] (NpValues.Array [1] [(-1)%float])
  = Ok [255%float] /\
  exists b',
    ReplayBufferMultimodalValues.store raw_obs act rew raw_next_obs done lx gx
      mm_fresh
    = (Ok tt, b') /\
    ReplayBufferMultimodal.ptr b' = (0 + 1) mod 2 /\
    ReplayBufferMultimodal.size b' = Z.min (0 + 1) 2 /\
    forall k, k ∈ keys raw_obs ->
      ReplayBufferMultimodalValues.stream_holds
        (ReplayBufferMultimodal.obs_buf mm_fresh)
        (ReplayBufferMultimodal.obs_buf b') 0 raw_obs k /\
      ReplayBufferMultimodalValues.stream_holds
        (ReplayBufferMultimodal.obs2_buf mm_fresh)
        (ReplayBufferMultimodal.obs2_buf b') 0 raw_next_obs k.
Proof.
  intros act rew done lx gx.
  split; [vm_compute; reflexivity|]. split; [vm_compute; reflexivity|].
  apply (multimodal_store_round_trip raw_obs act rew raw_next_obs done lx gx
           mm_fresh).
  - exact mm_fresh_values_reachable.
  - cbn. lia.
  - repeat (apply NoDup_cons_2; [not_in_list|]). apply NoDup_nil_2.
  - intros k Hk.
    repeat (apply elem_of_cons in Hk as [->|Hk]);
      [..|by apply elem_of_nil in Hk];
      (split; eexists _, _;
       (split; [reflexivity|]); (split; [reflexivity|]);
       eexists; vm_compute; reflexivity).
  - eexists; vm_compute; reflexivity.
  - eexists; vm_compute; reflexivity.
  - eexists; vm_compute; reflexivity.
  - eexists; vm_compute; reflexivity.
  - eexists; vm_compute; reflexivity.
Defined.

Lemma rates_without_denominator_witness :
  length predictions = length ground_truth /\
  Forall (fun v => PrimFloat.ltb v 0 = true) ground_truth /\
  exists false_pos_rate false_neg_rate,
    Rates.calc_false_pos_neg_rate predictions ground_truth
    = Ok (false_pos_rate, false_neg_rate) /\
    (Forall (fun v => PrimFloat.ltb v 0 = true) ground_truth ->
     PrimFloat.is_nan false_pos_rate = true) /\
    (Forall (fun v => PrimFloat.ltb v 0 = false) ground_truth ->
     PrimFloat.is_nan false_neg_rate = true).
Proof.
  split; [reflexivity|]. split.
  { repeat apply Forall_cons_2; try reflexivity. apply Forall_nil_2. }
  apply (rates_without_denominator predictions ground_truth). reflexivity.
Defined.

Lemma save_model_cannot_prune_witness :
  saved_once = ["logs/Q_step_1_success_0.50.pth"] /\
  exists msg,
    SaveModel.save_model tt 2 "logs" "Q" 1 0.5%float None true saved_once
    = (inl (SaveModel.Builtin (ValueError msg)), saved_once).
Proof.
  split; [reflexivity|].
  apply (save_model_cannot_prune tt 2 "logs" "Q" 1 0.5%float None true
           saved_once saved_once saved_once saved_once);
    [reflexivity|reflexivity|cbn; lia|].
  intros li Hli. apply list_elem_of_singleton in Hli as ->.
  by exists "1_success_0.50.pth".
Defined.

End MoreRuns.
